(** * Boston property lookup: fiscal periods, exemption phases, fiscal
      configuration and the EGIS aggregation helpers

    A shallow embedding of
      - [frontend/src/utils/periods.ts] and [frontend/src/utils/fiscalData.ts]
        (temporal anchors, the timeline of a year, phase resolution, fiscal
        year, tax-rate lookup, owner disclaimer dates),
      - [functions/src/lib/EGISClient.ts]
        (fiscal year and quarter, merge priority, text normalisation,
        paginated layer fetch with its retries, the rows of the latest fiscal
        year and quarter, buildings and complexes),
      - [functions/src/lib/SequenceClient.ts] (abatement sequence numbers),
      - [frontend/src/components/TimeChanger/TimeChanger.tsx] (days of the
        year),
      - the validation of the requests of the callables
        [fetchPropertySummariesByParcelIds] and [generatePdf], and
        [parseYamlDate] of [frontend/src/utils/periodsLanguage.ts],
    together with the part of ECMAScript's [Date] the code relies on.

    Modelling conventions.
      - A JavaScript number that holds a year, a month or a day is an integer
        or NaN ([number]); floating point is not modelled.
      - A [Date] is its time value in milliseconds, or [InvalidDate]; the
        functions [Day], [DayFromYear], [YearFromTime], [MonthFromTime],
        [DateFromTime], [WeekDay], [MakeDay], [MakeDate], [MakeFullYear] and
        [TimeClip] are those of ECMA-262 (section "Date Objects").
      - The host time zone has offset zero and no daylight saving, so local
        time and UTC coincide.
      - The texts of the language service and the formatted dates are kept
        symbolic: a message is the key of its template and its variables.
      - [fetchEGISData] is an interaction tree over the events [fetch] and
        [setTimeout]; it is run against a scripted server.
      - A Firestore transaction is a function of the collection of
        documents. *)

From Stdlib Require Import ZArith Lia Bool String Ascii List Sorted.
From Stdlib Require Import QArith Qcanon.
From stdpp Require Import gmap pretty strings sorting.
From ITree Require Import ITree ITreeFacts Events.State Events.StateFacts.
Import ListNotations.
Local Open Scope Z_scope.

(* ===================================================================== *)
(** * ECMAScript numbers and dates                                        *)
(* ===================================================================== *)

Module JS.

(** An integer-valued JavaScript number, or NaN. *)
Inductive number : Type :=
| NaN
| Int (z : Z).

Definition num_add (a b : number) : number :=
  match a, b with
  | Int x, Int y => Int (x + y)
  | _, _ => NaN
  end.

(** [a === b] on numbers: NaN is equal to nothing. *)
Definition num_eqb (a b : number) : bool :=
  match a, b with
  | Int x, Int y => x =? y
  | _, _ => false
  end.

(** [a >= b] and [a < b] on numbers: every comparison with NaN is false. *)
Definition num_geb (a b : number) : bool :=
  match a, b with
  | Int x, Int y => y <=? x
  | _, _ => false
  end.

Definition num_ltb (a b : number) : bool :=
  match a, b with
  | Int x, Int y => x <? y
  | _, _ => false
  end.

Definition num_leb (a b : number) : bool :=
  match a, b with
  | Int x, Int y => x <=? y
  | _, _ => false
  end.

Definition msPerDay : Z := 86400000.

(** The largest magnitude of a time value: 100,000,000 days. *)
Definition maxTimeValue : Z := 8640000000000000.

Definition Day (t : Z) : Z := t / msPerDay.

Definition TimeWithinDay (t : Z) : Z := t mod msPerDay.

Definition DaysInYear (y : Z) : Z :=
  if negb (y mod 4 =? 0) then 365
  else if negb (y mod 100 =? 0) then 366
  else if negb (y mod 400 =? 0) then 365
  else 366.

Definition DayFromYear (y : Z) : Z :=
  365 * (y - 1970) + (y - 1969) / 4 - (y - 1901) / 100 + (y - 1601) / 400.

Definition TimeFromYear (y : Z) : Z := msPerDay * DayFromYear y.

(** ECMA-262 defines [YearFromTime t] as the largest [y] with
    [TimeFromYear y <= t].  It is computed here from an estimate that is
    off by at most one year; [YearFromTime_spec] and [YearFromTime_unique]
    show that this is the year of the definition. *)
Definition YearFromTime (t : Z) : Z :=
  let d := Day t in
  let y0 := 1970 + (400 * d) / 146097 in
  if d <? DayFromYear y0 then y0 - 1
  else if DayFromYear (y0 + 1) <=? d then y0 + 1
  else y0.

(** 1 for a leap year and 0 otherwise. *)
Definition LeapDays (y : Z) : Z := if DaysInYear y =? 366 then 1 else 0.

Definition InLeapYear (t : Z) : Z := LeapDays (YearFromTime t).

Definition DayWithinYear (t : Z) : Z := Day t - DayFromYear (YearFromTime t).

Definition MonthFromTime (t : Z) : Z :=
  let d := DayWithinYear t in
  let l := InLeapYear t in
  if d <? 31 then 0
  else if d <? 59 + l then 1
  else if d <? 90 + l then 2
  else if d <? 120 + l then 3
  else if d <? 151 + l then 4
  else if d <? 181 + l then 5
  else if d <? 212 + l then 6
  else if d <? 243 + l then 7
  else if d <? 273 + l then 8
  else if d <? 304 + l then 9
  else if d <? 334 + l then 10
  else 11.

(** Day within the year of the first day of month [mn] (0 = January). *)
Definition monthStart (leap mn : Z) : Z :=
  if mn =? 0 then 0
  else if mn =? 1 then 31
  else if mn =? 2 then 59 + leap
  else if mn =? 3 then 90 + leap
  else if mn =? 4 then 120 + leap
  else if mn =? 5 then 151 + leap
  else if mn =? 6 then 181 + leap
  else if mn =? 7 then 212 + leap
  else if mn =? 8 then 243 + leap
  else if mn =? 9 then 273 + leap
  else if mn =? 10 then 304 + leap
  else 334 + leap.

Definition DateFromTime (t : Z) : Z :=
  DayWithinYear t - monthStart (InLeapYear t) (MonthFromTime t) + 1.

Definition WeekDay (t : Z) : Z := (Day t + 4) mod 7.

(** [MakeDay year month date]: the day number of the [date]-th day of month
    [month] of [year]; months outside 0..11 carry into the year and days
    outside the month carry into the neighbouring months. *)
Definition MakeDay (year month date : Z) : Z :=
  let ym := year + month / 12 in
  let mn := month mod 12 in
  DayFromYear ym + monthStart (LeapDays ym) mn + date - 1.

Definition MakeDate (day time : Z) : Z := day * msPerDay + time.

(** A date object: [InvalidDate] is the date whose time value is NaN. *)
Inductive Date : Type :=
| InvalidDate
| TimeValue (t : Z).

Definition TimeClip (t : Z) : Date :=
  if Z.abs t <=? maxTimeValue then TimeValue t else InvalidDate.

(** Offset-zero host time zone. *)
Definition LocalTime (t : Z) : Z := t.
Definition UTC (t : Z) : Z := t.

(** [MakeFullYear]: a year from 0 to 99 stands for 1900 + year. *)
Definition MakeFullYear (y : Z) : Z :=
  if (0 <=? y) && (y <=? 99) then 1900 + y else y.

(** [new Date(year, month, date)], at midnight. *)
Definition new_Date (year : number) (month date : Z) : Date :=
  match year with
  | NaN => InvalidDate
  | Int y =>
      let yr := MakeFullYear y in
      TimeClip (UTC (MakeDate (MakeDay yr month date) 0))
  end.

Definition Date_getFullYear (d : Date) : number :=
  match d with
  | InvalidDate => NaN
  | TimeValue t => Int (YearFromTime (LocalTime t))
  end.

Definition Date_getMonth (d : Date) : number :=
  match d with
  | InvalidDate => NaN
  | TimeValue t => Int (MonthFromTime (LocalTime t))
  end.

Definition Date_getDate (d : Date) : number :=
  match d with
  | InvalidDate => NaN
  | TimeValue t => Int (DateFromTime (LocalTime t))
  end.

Definition Date_getDay (d : Date) : number :=
  match d with
  | InvalidDate => NaN
  | TimeValue t => Int (WeekDay (LocalTime t))
  end.

(** [d.setDate(dt)]: the date [d] holds afterwards. *)
Definition Date_setDate (d : Date) (dt : number) : Date :=
  match d, dt with
  | TimeValue t0, Int n =>
      let t := LocalTime t0 in
      let newDate :=
        MakeDate (MakeDay (YearFromTime t) (MonthFromTime t) n) (TimeWithinDay t) in
      TimeClip (UTC newDate)
  | _, _ => InvalidDate
  end.

(** Relational operators on dates compare the time values; with an
    invalid date on either side each of them is false. *)
Definition date_ltb (a b : Date) : bool :=
  match a, b with
  | TimeValue x, TimeValue y => x <? y
  | _, _ => false
  end.

Definition date_leb (a b : Date) : bool :=
  match a, b with
  | TimeValue x, TimeValue y => x <=? y
  | _, _ => false
  end.

Definition date_gtb (a b : Date) : bool := date_ltb b a.
Definition date_geb (a b : Date) : bool := date_leb b a.

Definition validTime (t : Z) : Prop := Z.abs t <= maxTimeValue.

End JS.

(* ===================================================================== *)
(** * Temporal anchors and phase resolution (frontend/src/utils/periods.ts) *)
(* ===================================================================== *)

Module Periods.
Import JS.
Local Open Scope string_scope.

(** A date rendered by [formatDateForDisplay]; the locale-dependent text of
    [toLocaleString] is kept symbolic. *)
Inductive DisplayDate : Type :=
| formatDateForDisplay (date : Date) (withTime : bool).

(** A value handed to the language service as a template variable. *)
Inductive Var : Type :=
| VNumber (n : number)
| VString (s : string)
| VDisplay (d : DisplayDate)
| VUndefined.

(** A text: a literal, or a text of the language service
    (periodsLanguage.ts), given by the key of its template in periods.yaml
    and the variables it is instantiated with.  The YAML content is not part
    of the model. *)
Inductive Message : Type :=
| Literal (text : string)
| getLanguageStringRaw (path : string)
| getLanguageString (path : string) (vars : list (string * Var)).

Definition getTimepointLabel (key : string) : Message :=
  getLanguageStringRaw ("periods.timepoints." ++ key).

(** [vars.key = v] on an object literal: an existing key keeps its place. *)
Fixpoint obj_set (vars : list (string * Var)) (key : string) (v : Var)
  : list (string * Var) :=
  match vars with
  | [] => [(key, v)]
  | (k, w) :: rest =>
      if String.eqb k key then (k, v) :: rest else (k, w) :: obj_set rest key v
  end.

Definition opt_string_var (s : option string) : Var :=
  match s with
  | Some x => VString x
  | None => VUndefined
  end.

(** [if (parcelId)]: a present, non-empty string. *)
Definition truthy_string (s : option string) : bool :=
  match s with
  | Some x => negb (String.eqb x EmptyString)
  | None => false
  end.

Definition getAbatementPhaseMessage (phase : string) (variables : list (string * Var))
    (parcelId : option string) : Message :=
  let vars :=
    if truthy_string parcelId
    then obj_set variables "parcel_id" (opt_string_var parcelId)
    else variables in
  getLanguageString ("periods.abatement_phases." ++ phase) vars.

Definition getExemptionPhaseMessage (phase : string) (variables : list (string * Var))
  : Message :=
  getLanguageString ("periods.exemption_phases." ++ phase) variables.

Definition getNextMonday (date : Date) : Date :=
  let d := date in
  let day := Date_getDay d in
  if num_eqb day (Int 6) then Date_setDate d (num_add (Date_getDate d) (Int 2))
  else if num_eqb day (Int 0) then Date_setDate d (num_add (Date_getDate d) (Int 1))
  else d.

Record TemporalAnchor : Type := {
  label : Message;
  getDate : number -> Date
}.

Definition NEW_APPLICATION_PERIOD_BEGINS : TemporalAnchor := {|
  label := getTimepointLabel "new_application_period_begins";
  getDate := fun year => new_Date year 0 1
|}.

Definition ABATEMENT_APPLICATION_DEADLINE : TemporalAnchor := {|
  label := getTimepointLabel "abatement_application_deadline";
  getDate := fun year => getNextMonday (new_Date year 1 1)
|}.

Definition EXEMPTIONS_IN_PROGRESS : TemporalAnchor := {|
  label := getTimepointLabel "exemptions_in_progress";
  getDate := fun year => new_Date year 2 1
|}.

Definition EXEMPTION_APPLICATION_DEADLINE : TemporalAnchor := {|
  label := getTimepointLabel "exemption_application_deadline";
  getDate := fun year => getNextMonday (new_Date year 3 1)
|}.

Definition NEW_FY_PRELIMINARY_TAX_PERIOD_BEGINS : TemporalAnchor := {|
  label := getTimepointLabel "new_fy_preliminary_tax_period_begins";
  getDate := fun year => new_Date year 6 1
|}.

Definition ABATEMENT_GRACE_PERIOD_DEADLINE : TemporalAnchor := {|
  label := getTimepointLabel "abatement_grace_period_deadline";
  getDate := fun year =>
    let abatementDeadline := getDate ABATEMENT_APPLICATION_DEADLINE year in
    let graceDate := abatementDeadline in
    Date_setDate graceDate (num_add (Date_getDate graceDate) (Int 28))
|}.

Definition getFiscalYear (date : Date) : number :=
  let year := Date_getFullYear date in
  let month := Date_getMonth date in
  if num_geb month (Int 6) then num_add year (Int 1) else year.

Inductive Phase : Type :=
| before_jan1
| open
| after_deadline
| preliminary.

Definition phase_key (p : Phase) : string :=
  match p with
  | before_jan1 => "before_jan1"
  | open => "open"
  | after_deadline => "after_deadline"
  | preliminary => "preliminary"
  end.

(** The object a phase function returns; [deadline = None] when the object
    has no [deadline] property. *)
Record PhaseResult : Type := {
  phase : Phase;
  message : Message;
  deadline : option Date
}.

Definition getAbatementPhase (date : Date) (year : number) (parcelId : option string)
  : PhaseResult :=
  let currentYear := Date_getFullYear date in
  let jan1 := getDate NEW_APPLICATION_PERIOD_BEGINS currentYear in
  let abatementDeadline := getDate ABATEMENT_APPLICATION_DEADLINE currentYear in
  let july1 := getDate NEW_FY_PRELIMINARY_TAX_PERIOD_BEGINS currentYear in
  let nextJan1 := getDate NEW_APPLICATION_PERIOD_BEGINS (num_add currentYear (Int 1)) in
  if date_geb date jan1 && date_leb date abatementDeadline then
    {| phase := open;
       message := getAbatementPhaseMessage (phase_key open)
         [("next_year", VNumber (num_add year (Int 1)));
          ("deadline_date", VDisplay (formatDateForDisplay abatementDeadline true));
          ("current_year", VNumber year);
          ("parcel_id", opt_string_var parcelId)] parcelId;
       deadline := Some abatementDeadline |}
  else if date_gtb date abatementDeadline && date_ltb date july1 then
    {| phase := after_deadline;
       message := getAbatementPhaseMessage (phase_key after_deadline)
         [("next_year", VNumber (num_add year (Int 1)));
          ("current_year", VNumber year);
          ("deadline_date", VDisplay (formatDateForDisplay abatementDeadline false))] None;
       deadline := Some abatementDeadline |}
  else if date_geb date july1 && date_ltb date nextJan1 then
    {| phase := preliminary;
       message := getAbatementPhaseMessage (phase_key preliminary)
         [("current_fy", VNumber (num_add currentYear (Int 1)));
          ("current_year", VNumber (num_add currentYear (Int 1)));
          ("next_fy", VNumber (num_add currentYear (Int 2)));
          ("next_jan1_date", VDisplay (formatDateForDisplay nextJan1 false))] None;
       deadline := Some abatementDeadline |}
  else
    {| phase := preliminary;
       message := getAbatementPhaseMessage (phase_key preliminary) [] None;
       deadline := None |}.

Definition EXEMPTION_APPLICATION_DEADLINE_DATE : TemporalAnchor := {|
  label := Literal "Exemption Application Deadline";
  getDate := fun year => getNextMonday (new_Date year 3 1)
|}.

Inductive ExemptionType : Type :=
| Residential
| Personal.

Definition ExemptionType_string (ty : ExemptionType) : string :=
  match ty with
  | Residential => "Residential"
  | Personal => "Personal"
  end.

Definition ExemptionType_lower (ty : ExemptionType) : string :=
  match ty with
  | Residential => "residential"
  | Personal => "personal"
  end.

Record ExemptionOpts : Type := {
  grantedCount : number;
  type : ExemptionType
}.

Definition getExemptionPhase (date : Date) (year : number) (opts : ExemptionOpts)
  : PhaseResult :=
  let jan1 := getDate NEW_APPLICATION_PERIOD_BEGINS year in
  let deadline := getDate EXEMPTION_APPLICATION_DEADLINE_DATE year in
  let july1 := getDate NEW_FY_PRELIMINARY_TAX_PERIOD_BEGINS year in
  let nextJan1 := getDate NEW_APPLICATION_PERIOD_BEGINS (num_add year (Int 1)) in
  let type := type opts in
  if date_ltb date jan1 then
    {| phase := before_jan1;
       message := getExemptionPhaseMessage (phase_key before_jan1)
         [("exemption_type", VString (ExemptionType_string type));
          ("next_year", VNumber (num_add year (Int 1)));
          ("jan1_date", VDisplay (formatDateForDisplay jan1 false));
          ("current_year", VNumber year)];
       deadline := None |}
  else if date_geb date jan1 && date_leb date deadline then
    {| phase := open;
       message := getExemptionPhaseMessage (phase_key open)
         [("exemption_type", VString (ExemptionType_string type));
          ("next_year", VNumber (num_add year (Int 1)));
          ("deadline_date", VDisplay (formatDateForDisplay deadline true));
          ("current_year", VNumber year)];
       deadline := Some deadline |}
  else if date_geb date deadline && date_ltb date july1 then
    {| phase := after_deadline;
       message := getExemptionPhaseMessage (phase_key after_deadline)
         [("exemption_type", VString (ExemptionType_string type));
          ("next_year", VNumber (num_add year (Int 1)));
          ("deadline_date", VDisplay (formatDateForDisplay deadline false));
          ("next_fy", VNumber (num_add year (Int 2)));
          ("next_jan1_date", VDisplay (formatDateForDisplay nextJan1 false));
          ("current_year", VNumber year)];
       deadline := Some deadline |}
  else if date_geb date july1 && date_ltb date nextJan1 then
    {| phase := preliminary;
       message := getExemptionPhaseMessage (phase_key preliminary)
         [("current_fy", VNumber (num_add year (Int 1)));
          ("exemption_type_lower", VString (ExemptionType_lower type));
          ("next_fy", VNumber (num_add year (Int 2)));
          ("next_jan1_date", VDisplay (formatDateForDisplay nextJan1 false))];
       deadline := Some deadline |}
  else
    {| phase := before_jan1;
       message := Literal EmptyString;
       deadline := None |}.

End Periods.

(* ===================================================================== *)
(** * The timeline of a year (frontend/src/utils/periods.ts)               *)
(* ===================================================================== *)

Module Timepoints.
Import JS Periods.

(** An element of the array [getAllTimepoints] returns. *)
Record Timepoint : Type := {
  label : Message;
  date : Date
}.

Definition getAllTimepoints (year : number) : list Timepoint :=
  [ {| label := Periods.label NEW_APPLICATION_PERIOD_BEGINS;
       date := getDate NEW_APPLICATION_PERIOD_BEGINS year |};
    {| label := Periods.label ABATEMENT_APPLICATION_DEADLINE;
       date := getDate ABATEMENT_APPLICATION_DEADLINE year |};
    {| label := Periods.label ABATEMENT_GRACE_PERIOD_DEADLINE;
       date := getDate ABATEMENT_GRACE_PERIOD_DEADLINE year |};
    {| label := Periods.label EXEMPTIONS_IN_PROGRESS;
       date := getDate EXEMPTIONS_IN_PROGRESS year |};
    {| label := Periods.label EXEMPTION_APPLICATION_DEADLINE;
       date := getDate EXEMPTION_APPLICATION_DEADLINE year |};
    {| label := Periods.label NEW_FY_PRELIMINARY_TAX_PERIOD_BEGINS;
       date := getDate NEW_FY_PRELIMINARY_TAX_PERIOD_BEGINS year |} ].

(** The object [getCurrentPeriod] returns: [from] is [None] for
    [undefined] (an empty array), [to] is [None] for [null]. *)
Record Period : Type := {
  from : option Timepoint;
  to : option Timepoint
}.

(** The loop [for (let i = 1; i < timepoints.length; i++)] of
    [getCurrentPeriod]: [prev] is the variable of that name and [rest] the
    elements from index [i] on; [None] when the loop ends without
    returning. *)
Fixpoint getCurrentPeriod_loop (d : Date) (prev : option Timepoint)
    (rest : list Timepoint) : option Period :=
  match rest with
  | [] => None
  | tp :: rest' =>
      if date_ltb d (date tp) then Some {| from := prev; to := Some tp |}
      else getCurrentPeriod_loop d (Some tp) rest'
  end.

Definition getCurrentPeriod (d : Date) (timepoints : list Timepoint) : Period :=
  match getCurrentPeriod_loop d (head timepoints) (tail timepoints) with
  | Some period => period
  | None => {| from := last timepoints; to := None |}
  end.

End Timepoints.

(* ===================================================================== *)
(** * Fiscal configuration (frontend/src/utils/fiscalData.ts)              *)
(* ===================================================================== *)

Module FiscalData.

(** A tax rate per $1,000, as written in fiscalData.yaml. *)
Definition rate : Type := Qc.

Record TaxRates : Type := {
  residential : rate;
  commercial : rate
}.

Record OwnerDisclaimerDates : Type := {
  q1 : string;
  q3 : string
}.

Record FiscalYearData : Type := {
  taxRates : TaxRates;
  ownerDisclaimerDates : OwnerDisclaimerDates
}.

Record Defaults : Type := {
  defaults_taxRates : TaxRates;
  ownerDisclaimerDate : string
}.

(** The content of fiscalData.yaml, which is not part of the sources: the
    functions below take it as an argument. *)
Record FiscalDataConfig : Type := {
  fiscalYears : gmap Z FiscalYearData;
  defaults : Defaults
}.

(** The result of [Math.max]: a number, or -Infinity for no argument. *)
Inductive maximum : Type :=
| NegInfinity
| Finite (z : Z).

Definition Math_max (xs : list Z) : maximum :=
  fold_right
    (fun x acc =>
       match acc with
       | NegInfinity => Finite x
       | Finite a => Finite (Z.max x a)
       end)
    NegInfinity xs.

(** [Object.keys(obj).map(Number)] *)
Definition Object_keys (obj : gmap Z FiscalYearData) : list Z :=
  (map_to_list obj).*1.

Definition getLatestFiscalYear (config : FiscalDataConfig) : maximum :=
  let years := Object_keys (fiscalYears config) in
  Math_max years.

(** [yearData && yearData.taxRates] holds exactly when the table has the
    entry: by the interface [FiscalYearData] an entry carries its [taxRates]
    object, and an object is truthy. *)
Definition getTaxRates (config : FiscalDataConfig) (fiscalYear : Z) : TaxRates :=
  match fiscalYears config !! fiscalYear with
  | Some yearData => taxRates yearData
  | None =>
      match getLatestFiscalYear config with
      | Finite latestYear =>
          if latestYear <? fiscalYear then
            match fiscalYears config !! latestYear with
            | Some latestYearData => taxRates latestYearData
            | None => defaults_taxRates (defaults config)
            end
          else defaults_taxRates (defaults config)
      | NegInfinity =>
          (* every year is beyond -Infinity, which is the key of no entry *)
          defaults_taxRates (defaults config)
      end
  end.

(** [arr.sort((a, b) => a - b)]: [compareFn a b <= 0] keeps [a] before
    [b]. *)
Definition Array_sort (compareFn : Z -> Z -> Z) (arr : list Z) : list Z :=
  @merge_sort Z (fun a b => compareFn a b <= 0)
    (fun a b => decide (compareFn a b <= 0)) arr.

Definition getAvailableFiscalYears (config : FiscalDataConfig) : list Z :=
  Array_sort (fun a b => a - b) (Object_keys (fiscalYears config)).

(** [config.fiscalYears.hasOwnProperty(fiscalYear)] *)
Definition hasTaxRatesForYear (config : FiscalDataConfig) (fiscalYear : Z) : bool :=
  match fiscalYears config !! fiscalYear with
  | Some _ => true
  | None => false
  end.

(** [config.fiscalYears[fiscalYear]] for a number: NaN is the key of no
    entry, and neither is -Infinity. *)
Definition fiscalYears_at (config : FiscalDataConfig) (fiscalYear : JS.number)
  : option FiscalYearData :=
  match fiscalYear with
  | JS.Int y => fiscalYears config !! y
  | JS.NaN => None
  end.

Definition fiscalYears_at_maximum (config : FiscalDataConfig) (latestYear : maximum)
  : option FiscalYearData :=
  match latestYear with
  | Finite y => fiscalYears config !! y
  | NegInfinity => None
  end.

(** [fiscalYear > latestYear] *)
Definition num_gt_maximum (fiscalYear : JS.number) (latestYear : maximum) : bool :=
  match fiscalYear, latestYear with
  | JS.Int x, Finite y => y <? x
  | JS.Int _, NegInfinity => true
  | JS.NaN, _ => false
  end.

(** A string used as a condition: the empty string is falsy. *)
Definition truthy_string (s : string) : bool := negb (String.eqb s EmptyString).

(** [yearData.ownerDisclaimerDates[quarter]] is modelled by the projection
    [quarter]; as for [taxRates], an entry carries its [ownerDisclaimerDates]
    object. *)
Definition getOwnerDisclaimerDate (config : FiscalDataConfig) (date : JS.Date) : string :=
  let year := JS.Date_getFullYear date in
  let month := JS.Date_getMonth date in
  let fiscalYear :=
    if JS.num_geb month (JS.Int 6) then JS.num_add year (JS.Int 1) else year in
  let isQ1 := JS.num_geb month (JS.Int 6) && JS.num_leb month (JS.Int 11) in
  let quarter := if isQ1 then q1 else q3 in
  let yearData := fiscalYears_at config fiscalYear in
  let otherwise :=
    let latestYear := getLatestFiscalYear config in
    let default_date := ownerDisclaimerDate (defaults config) in
    if num_gt_maximum fiscalYear latestYear then
      match fiscalYears_at_maximum config latestYear with
      | Some latestYearData =>
          if truthy_string (q3 (ownerDisclaimerDates latestYearData))
          then q3 (ownerDisclaimerDates latestYearData)
          else if truthy_string (q1 (ownerDisclaimerDates latestYearData))
          then q1 (ownerDisclaimerDates latestYearData)
          else default_date
      | None => default_date
      end
    else default_date in
  match yearData with
  | Some yearData =>
      if truthy_string (quarter (ownerDisclaimerDates yearData))
      then quarter (ownerDisclaimerDates yearData)
      else otherwise
  | None => otherwise
  end.

Definition getOwnerDisclaimer (config : FiscalDataConfig) (date : JS.Date) : string :=
  let disclaimerDate := getOwnerDisclaimerDate config date in
  ("Owner information may not reflect any changes submitted to the City of Boston's Assessing Department after "
   ++ disclaimerDate ++ ".")%string.

(** The configuration that TAX_RATES_README.md gives as an example. *)
Definition example_2026 : FiscalYearData := {|
  taxRates := {| residential := Q2Qc (1240 # 100); commercial := Q2Qc (2696 # 100) |};
  ownerDisclaimerDates := {| q1 := "April 25, 2025"; q3 := "October 25, 2025" |}
|}.

Definition example_2025 : FiscalYearData := {|
  taxRates := {| residential := Q2Qc (1158 # 100); commercial := Q2Qc (2596 # 100) |};
  ownerDisclaimerDates := {| q1 := "April 25, 2024"; q3 := "October 25, 2024" |}
|}.

Definition example_defaults : Defaults := {|
  defaults_taxRates :=
    {| residential := Q2Qc (1158 # 100); commercial := Q2Qc (2596 # 100) |};
  ownerDisclaimerDate := "October 25, 2024"
|}.

Definition example_config : FiscalDataConfig := {|
  fiscalYears := {[ 2026 := example_2026; 2025 := example_2025 ]};
  defaults := example_defaults
|}.

End FiscalData.

(* ===================================================================== *)
(** * EGIS client (functions/src/lib/EGISClient.ts)                        *)
(* ===================================================================== *)

Module EGISClient.
Import JS.

Record FiscalYearAndQuarter : Type := {
  year : number;
  quarter : string
}.

Definition getFiscalYearAndQuarter (date : Date) : FiscalYearAndQuarter :=
  let year := Date_getFullYear date in
  let month := Date_getMonth date in
  if num_ltb month (Int 6) then {| year := year; quarter := "3" |}
  else {| year := num_add year (Int 1); quarter := "1" |}.

(** ** Attribute values and text normalisation *)

(** A value of an attribute of an ArcGIS feature: JSON null, a number or a
    string, or [Undefined] for an attribute the row does not have.  Strings
    are ASCII. *)
Inductive AttrValue : Type :=
| Null
| Undefined
| Num (n : Z)
| Str (s : string).

(** The code of a character. *)
Definition code (c : ascii) : Z := Z.of_N (N_of_ascii c).

Definition isUpper (c : ascii) : bool := (65 <=? code c) && (code c <=? 90).
Definition isLower (c : ascii) : bool := (97 <=? code c) && (code c <=? 122).
Definition isDigit (c : ascii) : bool := (48 <=? code c) && (code c <=? 57).

(** [\w] *)
Definition isWordChar (c : ascii) : bool :=
  isUpper c || isLower c || isDigit c || (code c =? 95).

(** White space removed by [trim]: tab, line feed, vertical tab, form feed,
    carriage return and space. *)
Definition isWhiteSpace (c : ascii) : bool :=
  ((9 <=? code c) && (code c <=? 13)) || (code c =? 32).

Definition charToLower (c : ascii) : ascii :=
  if isUpper c then ascii_of_N (Z.to_N (code c + 32)) else c.

Definition charToUpper (c : ascii) : ascii :=
  if isLower c then ascii_of_N (Z.to_N (code c - 32)) else c.

Local Open Scope string_scope.

Fixpoint toLowerCase (s : string) : string :=
  match s with
  | EmptyString => EmptyString
  | String c r => String (charToLower c) (toLowerCase r)
  end.

Fixpoint trimStart (s : string) : string :=
  match s with
  | EmptyString => EmptyString
  | String c r => if isWhiteSpace c then trimStart r else s
  end.

Fixpoint trimEnd (s : string) : string :=
  match s with
  | EmptyString => EmptyString
  | String c r =>
      match trimEnd r with
      | EmptyString => if isWhiteSpace c then EmptyString else String c EmptyString
      | r' => String c r'
      end
  end.

Definition trim (s : string) : string := trimEnd (trimStart s).

(** [s.indexOf(sub)]: the index of the first occurrence, or -1. *)
Fixpoint indexOf_from (sub s : string) (i : Z) : Z :=
  if String.prefix sub s then i
  else match s with
       | EmptyString => -1
       | String _ r => indexOf_from sub r (i + 1)
       end.

Definition indexOf (s sub : string) : Z := indexOf_from sub s 0.

(** [s.slice(start)] for [0 <= start]. *)
Fixpoint drop (n : nat) (s : string) : string :=
  match n, s with
  | O, _ => s
  | S _, EmptyString => EmptyString
  | S k, String _ r => drop k r
  end.

Definition slice (s : string) (start : Z) : string := drop (Z.to_nat start) s.

(** [/^[A-Z0-9 .,'&-]+$/.test(s)] *)
Definition isAbbreviationChar (c : ascii) : bool :=
  isUpper c || isDigit c
  || (code c =? 32)%Z || (code c =? 46)%Z || (code c =? 44)%Z
  || (code c =? 39)%Z || (code c =? 38)%Z || (code c =? 45)%Z.

Fixpoint allChars (p : ascii -> bool) (s : string) : bool :=
  match s with
  | EmptyString => true
  | String c r => p c && allChars p r
  end.

Definition testAbbreviation (s : string) : bool :=
  negb (String.eqb s EmptyString) && allChars isAbbreviationChar s.

(** [s.replace(/\b\w/g, c => c.toUpperCase())]: a word character is matched
    when the character before it, if any, is not a word character. *)
Fixpoint capitalizeWords (afterWordChar : bool) (s : string) : string :=
  match s with
  | EmptyString => EmptyString
  | String c r =>
      let w := isWordChar c in
      String (if w && negb afterWordChar then charToUpper c else c)
             (capitalizeWords w r)
  end.

(** [String(v)] for a value that is not a string. *)
Definition String_of (v : AttrValue) : string :=
  match v with
  | Null => "null"
  | Undefined => "undefined"
  | Num n => pretty n
  | Str s => s
  end.

Definition toProperCase (str : AttrValue) : string :=
  match str with
  | Null | Undefined => EmptyString
  | _ =>
      let strValue := match str with Str s => s | _ => String_of str end in
      if String.eqb strValue EmptyString || String.eqb (trim strValue) EmptyString then EmptyString
      else if testAbbreviation strValue && (Z.of_nat (String.length strValue) <=? 6)%Z
      then strValue
      else capitalizeWords false (toLowerCase strValue)
  end.

Definition parseAfterDash (value : AttrValue) : string :=
  match value with
  | Null | Undefined => EmptyString
  | _ =>
      let strValue := match value with Str s => s | _ => String_of value end in
      if String.eqb strValue EmptyString || String.eqb (trim strValue) EmptyString then EmptyString
      else
        let idx := indexOf strValue " - " in
        let result := if negb (idx =? -1)%Z then trim (slice strValue (idx + 3))
                      else trim strValue in
        toProperCase (Str result)
  end.

(** [s.split(" ")]: the parts of [s] between the occurrences of the
    separator character; there is always at least one part. *)
Fixpoint split (sep : ascii) (s : string) : list string :=
  match s with
  | EmptyString => [EmptyString]
  | String c r =>
      if Ascii.eqb c sep then EmptyString :: split sep r
      else match split sep r with
           | part :: parts => String c part :: parts
           | [] => [String c EmptyString]
           end
  end.

(** [parts.join(sep)] *)
Fixpoint join (sep : string) (parts : list string) : string :=
  match parts with
  | [] => EmptyString
  | part :: parts' =>
      match parts' with
      | [] => part
      | _ :: _ => part ++ sep ++ join sep parts'
      end
  end.

(** The longest prefix of [s] made of word characters, and what follows
    it. *)
Fixpoint takeWord (s : string) : string * string :=
  match s with
  | EmptyString => (EmptyString, EmptyString)
  | String c r =>
      if isWordChar c then
        let '(word, rest) := takeWord r in (String c word, rest)
      else (EmptyString, s)
  end.

(** [word.charAt(0).toUpperCase() + word.slice(1)] *)
Definition capitalizeFirst (word : string) : string :=
  match word with
  | EmptyString => EmptyString
  | String c r => String (charToUpper c) r
  end.

(** [part.replace(/\b\w+\b/g, replacer)]: the matches are the maximal runs
    of word characters, found from left to right; each is replaced by
    [replacer word] and the search goes on after it.  [n] bounds the number
    of characters still to be scanned. *)
Fixpoint replaceWords (replacer : string -> string) (n : nat) (part : string) : string :=
  match n with
  | O => part
  | S k =>
      match part with
      | EmptyString => EmptyString
      | String c r =>
          if isWordChar c then
            let '(word, rest) := takeWord part in
            replacer word ++ replaceWords replacer k rest
          else String c (replaceWords replacer k r)
      end
  end.

Definition toCamelCase (str : AttrValue) : string :=
  match str with
  | Null | Undefined => EmptyString
  | _ =>
      let strValue := match str with Str s => s | _ => String_of str end in
      if String.eqb strValue EmptyString || String.eqb (trim strValue) EmptyString then EmptyString
      else if testAbbreviation strValue && (Z.of_nat (String.length strValue) <=? 6)%Z
      then strValue
      else
        join " "
          (List.map
             (fun part => replaceWords capitalizeFirst (String.length part) part)
             (split " " (toLowerCase strValue)))
  end.

(** ** Merge priority *)

Definition isValid (v : AttrValue) : bool :=
  match v with
  | Null => false
  | Undefined => false
  | Num _ => true
  | Str s => negb (String.eqb s EmptyString)
  end.

Definition prioritizeValue (residentialValue condoValue : AttrValue) : AttrValue :=
  if isValid residentialValue then residentialValue
  else if isValid condoValue then condoValue
  else Undefined.

(** [v || d] *)
Definition truthy (v : AttrValue) : bool :=
  match v with
  | Null | Undefined => false
  | Num n => negb (n =? 0)%Z
  | Str s => negb (String.eqb s EmptyString)
  end.

Definition or_else (v d : AttrValue) : AttrValue := if truthy v then v else d.

(** [attrs.key] on the attributes of a row. *)
Definition attr (attrs : gmap string AttrValue) (key : string) : AttrValue :=
  default Undefined (attrs !! key).

(** The [foundation] field of the record assembled by
    [fetchPropertyDetailsByParcelIdHelper]. *)
Definition merged_foundation (primaryResidentialAttrs condoAttrs : gmap string AttrValue)
  : AttrValue :=
  or_else
    (prioritizeValue
       (Str (toProperCase (Str (parseAfterDash (attr primaryResidentialAttrs "foundation")))))
       (Str (toProperCase (Str (parseAfterDash (attr condoAttrs "foundation"))))))
    (Str "Not available").

(** ** Paginated layer fetch *)

Record ArcGISFeature : Type := {
  attributes : gmap string AttrValue;
  geometry : option string   (* the geometry, kept as its JSON text *)
}.

Record EGISQueryResponse : Type := {
  features : option (list ArcGISFeature);
  exceededTransferLimit : option bool
}.

(** What one attempt [await fetch(fullUrl)], [response.ok] and
    [await response.json()] can produce. *)
Inductive FetchResult : Type :=
| Rejected (error : string)                   (* fetch throws *)
| NotOk                                       (* a response that is not ok *)
| BadJson (error : string)                    (* an ok response, json() throws *)
| OkJson (data : option EGISQueryResponse).   (* an ok response and its body;
                                                 [None] for a null body *)

(** The effects of [fetchEGISData]; console output is left out. *)
Variant egisE : Type -> Type :=
| fetch (fullUrl : string) : egisE FetchResult
| setTimeout (ms : Z) : egisE unit.

Notation "'let!' x ':=' t 'in' k" := (ITree.bind t (fun x => k))
  (at level 10, x name, t at level 100, k at level 200).

Definition recordCount : Z := 1000.
Definition maxRetries : Z := 3.
Definition batchSize : nat := 100.

(** One round of the retry loop [while (retryCount < maxRetries)].  The
    loop state is [retryCount] and [response] (the [ok] flag of the last
    response received, if any); a round either continues with a new state
    ([inl]) or leaves the loop ([inr]): with an exception, or with
    [response] and [data]. *)
Definition retryRound (fullUrl : string) (state : Z * option bool)
  : itree egisE (Z * option bool + (string + option bool * option EGISQueryResponse)) :=
  let '(retryCount, response) := state in
  if (retryCount <? maxRetries)%Z then
    let! r := ITree.trigger (fetch fullUrl) in
    match r with
    | OkJson data => Ret (inr (inr (Some true, data)))
    | NotOk =>
        let retryCount := (retryCount + 1)%Z in
        let! _ := ITree.trigger (setTimeout (1000 * retryCount)) in
        Ret (inl (retryCount, Some false))
    | Rejected error =>
        let retryCount := (retryCount + 1)%Z in
        if (retryCount =? maxRetries)%Z then Ret (inr (inl error))
        else
          let! _ := ITree.trigger (setTimeout (1000 * retryCount)) in
          Ret (inl (retryCount, response))
    | BadJson error =>
        let retryCount := (retryCount + 1)%Z in
        if (retryCount =? maxRetries)%Z then Ret (inr (inl error))
        else
          let! _ := ITree.trigger (setTimeout (1000 * retryCount)) in
          Ret (inl (retryCount, Some true))
    end
  else Ret (inr (inr (response, None))).

Definition fetchWithRetries (fullUrl : string)
  : itree egisE (string + option bool * option EGISQueryResponse) :=
  ITree.iter (retryRound fullUrl) (0%Z, None).

(** [for (i = 0; i < features.length; i += batchSize)
       allFeatures.push(...features.slice(i, i + batchSize))];
    [n] bounds the number of rounds. *)
Fixpoint push_batches {A : Type} (n : nat) (features allFeatures : list A) : list A :=
  match n, features with
  | S k, _ :: _ =>
      push_batches k (skipn batchSize features) (allFeatures ++ firstn batchSize features)
  | _, _ => allFeatures
  end.

(** One round of the page loop [while (true)].  The loop state is
    [allFeatures], [resultOffset] and [requestCount]; a round either continues
    with a new state or leaves the loop with an exception ([inl]) or with the
    features to return ([inr]). *)
Definition pageRound (url query : string) (state : list ArcGISFeature * Z * Z)
  : itree egisE (list ArcGISFeature * Z * Z + (string + list ArcGISFeature)) :=
  let '(allFeatures, resultOffset, requestCount) := state in
  let requestCount := (requestCount + 1)%Z in
  let paginatedQuery :=
    query ++ "&resultOffset=" ++ pretty resultOffset
          ++ "&resultRecordCount=" ++ pretty recordCount in
  let fullUrl := url ++ "/query" ++ paginatedQuery in
  let! r := fetchWithRetries fullUrl in
  match r with
  | inl error => Ret (inr (inl error))
  | inr (Some true, Some data) =>
      let features := default [] (features data) in
      if (Z.of_nat (length features) =? 0)%Z then Ret (inr (inr allFeatures))
      else
        let allFeatures := push_batches (length features) features allFeatures in
        if negb (default false (exceededTransferLimit data))
        then Ret (inr (inr allFeatures))
        else Ret (inl (allFeatures,
                       (resultOffset + Z.of_nat (length features))%Z,
                       requestCount))
  | inr _ => Ret (inr (inl "Failed to fetch data after 3 retries"))
  end.

Definition fetchEGISData (url query : string)
  : itree egisE (string + list ArcGISFeature) :=
  ITree.iter (pageRound url query) ([], 0%Z, 0%Z).

(** A scripted server: the responses it will give, in order, and the URLs
    requested so far.  Past the end of the script a request is rejected. *)
Record Server : Type := {
  script : list FetchResult;
  requested : list string
}.

Definition serve : forall T, egisE T -> Monads.stateT Server (itree void1) T :=
  fun _ e s =>
    match e with
    | fetch fullUrl =>
        match script s with
        | r :: rest =>
            Ret ({| script := rest; requested := requested s ++ [fullUrl] |}, r)
        | [] =>
            Ret ({| script := []; requested := requested s ++ [fullUrl] |},
                 Rejected "no response")
        end
    | setTimeout _ => Ret (s, tt)
    end.

(** The request URL of the page at [resultOffset]. *)
Definition pageUrl (url query : string) (resultOffset : Z) : string :=
  url ++ "/query" ++ query ++ "&resultOffset=" ++ pretty resultOffset
      ++ "&resultRecordCount=" ++ pretty recordCount.

(** The offsets at which successive pages are requested, the first one at
    [offset]: each page moves the offset by the number of its features. *)
Fixpoint pageOffsets (offset : Z) (pages : list EGISQueryResponse) : list Z :=
  match pages with
  | [] => []
  | p :: rest =>
      offset :: pageOffsets (offset + Z.of_nat (length (default [] (features p)))) rest
  end.

(** A scripted server that also records the delays asked of [setTimeout]:
    the responses it will give, the URLs requested and the delays waited so
    far. *)
Record TimedServer : Type := {
  responses : list FetchResult;
  urls : list string;
  delays : list Z
}.

Definition serve_timed : forall T, egisE T -> Monads.stateT TimedServer (itree void1) T :=
  fun _ e s =>
    match e with
    | fetch fullUrl =>
        match responses s with
        | r :: rest =>
            Ret ({| responses := rest; urls := urls s ++ [fullUrl]; delays := delays s |}, r)
        | [] =>
            Ret ({| responses := []; urls := urls s ++ [fullUrl]; delays := delays s |},
                 Rejected "no response")
        end
    | setTimeout ms =>
        Ret ({| responses := responses s; urls := urls s; delays := delays s ++ [ms] |}, tt)
    end.

(** An attempt that delivers no body: a response that is not ok, or an
    exception of [fetch] or of [json]. *)
Definition failed (r : FetchResult) : bool :=
  match r with
  | OkJson _ => false
  | _ => true
  end.

(** The delays waited after the failed attempts number [from + 1] to
    [from + n] of a request. *)
Fixpoint backoff (from : Z) (n : nat) : list Z :=
  match n with
  | O => []
  | S k => (1000 * (from + 1))%Z :: backoff (from + 1) k
  end.

(** What the attempts at a page, failed ones and then the page, look like
    to the server, and the requests they take. *)
Definition attempts (page : list FetchResult * EGISQueryResponse) : list FetchResult :=
  page.1 ++ [OkJson (Some page.2)].

Fixpoint attemptUrls (url query : string) (offset : Z)
    (pages : list (list FetchResult * EGISQueryResponse)) : list string :=
  match pages with
  | [] => []
  | page :: rest =>
      repeat (pageUrl url query offset) (S (length page.1))
      ++ attemptUrls url query
           (offset + Z.of_nat (length (default [] (features page.2)))) rest
  end.

(** ** The latest fiscal year and quarter of a layer *)

(** The value of a character as a digit in the given radix. *)
Definition digitValue (radix : Z) (c : ascii) : option Z :=
  let d :=
    if isDigit c then (code c - 48)%Z
    else if isLower c then (code c - 87)%Z
    else if isUpper c then (code c - 55)%Z
    else (-1)%Z in
  if (0 <=? d)%Z && (d <? radix)%Z then Some d else None.

(** The number the longest prefix of digits of [s] denotes; [acc] is the
    number read so far, [None] before the first digit. *)
Fixpoint readDigits (radix : Z) (acc : option Z) (s : string) : option Z :=
  match s with
  | EmptyString => acc
  | String c r =>
      match digitValue radix c with
      | Some d => readDigits radix (Some (radix * default 0%Z acc + d)%Z) r
      | None => acc
      end
  end.

(** [parseInt(string)]: leading white space is skipped, then a sign is
    read, then a prefix 0x or 0X (which selects radix 16), then the longest
    run of digits; NaN when there is no digit.  The number is exact (a
    JavaScript number is, up to 2^53). *)
Definition parseInt_string (s : string) : number :=
  let s := trimStart s in
  let '(sign, s) :=
    match s with
    | String "-" r => ((-1)%Z, r)
    | String "+" r => (1%Z, r)
    | _ => (1%Z, s)
    end in
  let '(radix, s) :=
    match s with
    | String "0" (String "x" r) => (16%Z, r)
    | String "0" (String "X" r) => (16%Z, r)
    | _ => (10%Z, s)
    end in
  match readDigits radix None s with
  | Some n => Int (sign * n)
  | None => NaN
  end.

(** [parseInt(v)]: the value is converted to a string first. *)
Definition parseInt (v : AttrValue) : number := parseInt_string (String_of v).

Record FilterOptions : Type := {
  yearField : option string;
  hasQuarter : option bool
}.

(** [feature.attributes?.[yearField] || 0], the year of a row in the search
    for the latest one.  The layers give the year as a number; a year that is
    a non-empty string is compared as a string by JavaScript and is not
    covered: [None]. *)
Definition year_or_0 (v : AttrValue) : option Z :=
  match v with
  | Num n => Some n
  | Null | Undefined => Some 0%Z
  | Str s => if String.eqb s EmptyString then Some 0%Z else None
  end.

(** [hasQuarter ? (parseInt(feature.attributes?.quarter) || 0) : 0] *)
Definition quarter_or_0 (hasQuarter : bool) (v : AttrValue) : Z :=
  if hasQuarter then
    match parseInt v with
    | Int q => q
    | NaN => 0%Z
    end
  else 0%Z.

(** [v === n] for a number [n] *)
Definition strictly_equals_number (v : AttrValue) (n : Z) : bool :=
  match v with
  | Num m => (m =? n)%Z
  | _ => false
  end.

(** The slices [features.slice(i, Math.min(i + batchSize, features.length))]
    for [i = 0, batchSize, 2 * batchSize, ...]; [n] bounds their number. *)
Fixpoint batches {A : Type} (n : nat) (batchSize : nat) (features : list A)
  : list (list A) :=
  match n, features with
  | S k, _ :: _ =>
      firstn batchSize features :: batches k batchSize (skipn batchSize features)
  | _, _ => []
  end.

(** The body of the [forEach] that looks for the latest year and quarter;
    the state is [maxYear] and [maxQuarter]. *)
Definition highest_step (yearField : string) (hasQuarter : bool)
    (state : option (Z * Z)) (feature : ArcGISFeature) : option (Z * Z) :=
  match state, year_or_0 (attr (attributes feature) yearField) with
  | Some (maxYear, maxQuarter), Some year =>
      let quarter := quarter_or_0 hasQuarter (attr (attributes feature) "quarter") in
      if (maxYear <? year)%Z || ((year =? maxYear)%Z && (maxQuarter <? quarter)%Z)
      then Some (year, quarter)
      else Some (maxYear, maxQuarter)
  | _, _ => None
  end.

(** The predicate of the [filter] that keeps the rows of the latest year and
    quarter. *)
Definition highest_keep (yearField : string) (hasQuarter : bool)
    (maxYear maxQuarter : Z) (f : ArcGISFeature) : bool :=
  let yearMatch := strictly_equals_number (attr (attributes f) yearField) maxYear in
  if negb hasQuarter then yearMatch
  else yearMatch && num_eqb (parseInt (attr (attributes f) "quarter")) (Int maxQuarter).

(** [options?.yearField || 'fiscal_year'] *)
Definition option_yearField (options : option FilterOptions) : string :=
  match options with
  | Some o =>
      match yearField o with
      | Some name => if String.eqb name EmptyString then "fiscal_year" else name
      | None => "fiscal_year"
      end
  | None => "fiscal_year"
  end.

(** [options?.hasQuarter !== false] *)
Definition option_hasQuarter (options : option FilterOptions) : bool :=
  match options with
  | Some o =>
      match hasQuarter o with
      | Some false => false
      | _ => true
      end
  | None => true
  end.

(** Nothing in the body throws on rows that are objects, so the [catch]
    that returns the rows unfiltered is not reached. *)
Definition filterForHighestFiscalYearAndQuarter
    (features : list ArcGISFeature) (options : option FilterOptions)
  : option (list ArcGISFeature) :=
  if (Z.of_nat (length features) =? 0)%Z then Some []
  else
    let yearField := option_yearField options in
    let hasQuarter := option_hasQuarter options in
    let batchSize := 1000%nat in
    let found :=
      fold_left
        (fun state batch => fold_left (highest_step yearField hasQuarter) batch state)
        (batches (length features) batchSize features)
        (Some (0%Z, 0%Z)) in
    match found with
    | Some (maxYear, maxQuarter) =>
        Some (concat
                (List.map
                   (fun batch =>
                      List.filter (highest_keep yearField hasQuarter maxYear maxQuarter)
                        batch)
                   (batches (length features) batchSize features)))
    | None => None
    end.

(** ** Buildings and complexes of a property *)

(** [a === b] on attribute values *)
Definition strictly_equals (a b : AttrValue) : bool :=
  match a, b with
  | Null, Null => true
  | Undefined, Undefined => true
  | Num x, Num y => (x =? y)%Z
  | Str s, Str t => String.eqb s t
  | _, _ => false
  end.

(** The attributes two rows are compared on, each with the name pushed to
    [differences] when the rows differ on it. *)
Definition comparedAttributes : list (string * string) :=
  [ ("composite_land_use", "land_use"); ("gross_area", "gross_area");
    ("building_style", "style"); ("story_height", "story_height");
    ("floor", "floor"); ("penthouse_unit", "penthouse");
    ("orientation", "orientation"); ("bedrooms", "bedrooms");
    ("full_bath", "full_bath"); ("half_bath", "half_bath");
    ("bath_style_1", "bath_style_1"); ("bath_style_2", "bath_style_2");
    ("bath_style_3", "bath_style_3"); ("kitchens", "kitchens");
    ("kitchen_type", "kitchen_type"); ("kitchen_style_1", "kitchen_style_1");
    ("kitchen_style_2", "kitchen_style_2"); ("kitchen_style_3", "kitchen_style_3");
    ("year_built", "year_built"); ("exterior_finish", "exterior_finish");
    ("exterior_condition", "exterior_condition"); ("roof_cover", "roof_cover");
    ("roof_structure", "roof_structure"); ("foundation", "foundation");
    ("num_of_parking_spots", "parking"); ("heat_type", "heat");
    ("ac_type", "ac"); ("fireplaces", "fireplaces") ].

(** The array [differences] of two consecutive rows. *)
Definition differences (prev curr : gmap string AttrValue) : list string :=
  List.map snd
    (List.filter
       (fun compared => negb (strictly_equals (attr prev compared.1) (attr curr compared.1)))
       comparedAttributes).

(** [arr.some((element, i) => callback(element, i))], from index [i] on. *)
Fixpoint Array_some {A : Type} (callback : A -> nat -> bool) (i : nat) (arr : list A)
  : bool :=
  match arr with
  | [] => false
  | element :: rest => callback element i || Array_some callback (S i) rest
  end.

Definition hasMultipleBuildings (residentialPropertyFeatures : list ArcGISFeature) : bool :=
  (1 <? length residentialPropertyFeatures)%nat
  && Array_some
       (fun feature i =>
          if (i =? 0)%nat then false
          else
            match residentialPropertyFeatures !! (i - 1)%nat with
            | Some previous =>
                let prev := attributes previous in
                let curr := attributes feature in
                (0 <? length (differences prev curr))%nat
            | None => false   (* not reached: [i - 1] is an index of the array *)
            end)
       0%nat residentialPropertyFeatures.

(** [!!condoAttrs?.complex?.trim()], for a [complex] attribute that is a
    string or is missing. *)
Definition isPartOfComplex (complex : option string) : bool :=
  match complex with
  | Some s => negb (String.eqb (trim s) EmptyString)
  | None => false
  end.

Definition isAlphanumeric (c : ascii) : bool := isUpper c || isLower c || isDigit c.

(** The longest prefix of [s] whose characters satisfy [p]. *)
Fixpoint takeWhile (p : ascii -> bool) (s : string) : string :=
  match s with
  | EmptyString => EmptyString
  | String c r => if p c then String c (takeWhile p r) else EmptyString
  end.

(** [complexIdentifier.match(/^[A-Za-z0-9]+/)] gives the longest prefix of
    letters and digits when it is not empty. *)
Definition extractMasterParcelId (complexIdentifier : option string) : option string :=
  match complexIdentifier with
  | None => None
  | Some s =>
      if String.eqb s EmptyString || String.eqb (trim s) EmptyString then None
      else
        let matched := takeWhile isAlphanumeric s in
        if String.eqb matched EmptyString then None else Some matched
  end.

(** The layout of the record of a property. *)
Definition layout (residentialPropertyFeatures : list ArcGISFeature)
    (isPartOfComplex : bool) : string :=
  if (1 <? length residentialPropertyFeatures)%nat then "multiple_buildings"
  else if isPartOfComplex then "condo_unit_split"
  else "standard".

(** A page of a layer: the rows of the given parcels. *)
Definition example_page (parcel_ids : list string) (exceeded : option bool)
  : EGISQueryResponse :=
  {| features :=
       Some (List.map
               (fun parcel_id =>
                  {| attributes := {[ "parcel_id" := Str parcel_id ]}; geometry := None |})
               parcel_ids);
     exceededTransferLimit := exceeded |}.

(** A row of the residential attributes layer. *)
Definition example_building (building_style : string) (bedrooms : Z) : ArcGISFeature :=
  {| attributes := {[ "building_style" := Str building_style; "bedrooms" := Num bedrooms ]};
     geometry := None |}.

(** Rows of the owners layer, and rows of a layer that has no quarter. *)
Definition example_owner_row (fiscal_year quarter : AttrValue) (owner_name : string)
  : ArcGISFeature :=
  {| attributes := {[ "fiscal_year" := fiscal_year; "quarter" := quarter;
                      "owner_name" := Str owner_name ]};
     geometry := None |}.

Definition example_owner_rows : list ArcGISFeature :=
  [ example_owner_row (Num 2025) (Str "3") "DOE JOHN";
    example_owner_row (Num 2026) (Str "1") "DOE JOHN";
    example_owner_row (Num 2026) (Str "3") "DOE JANE" ].

Definition example_address_row (fiscal_year : AttrValue) (parcel_id : string)
  : ArcGISFeature :=
  {| attributes := {[ "fiscal_year" := fiscal_year; "parcel_id" := Str parcel_id ]};
     geometry := None |}.

Definition example_address_rows : list ArcGISFeature :=
  [ example_address_row (Num 2025) "0100001000";
    example_address_row (Num 2026) "0100002000" ].

End EGISClient.

(* ===================================================================== *)
(** * Abatement sequence numbers (functions/src/lib/SequenceClient.ts)     *)
(* ===================================================================== *)

Module SequenceClient.

(** The value [FieldValue.serverTimestamp()] writes. *)
Inductive Timestamp : Type :=
| serverTimestamp.

(** A document of the collection "abatement_sequences"; a field that the
    document does not have is [None]. *)
Record SequenceDoc : Type := {
  counter : option Z;
  year : option Z;
  createdAt : option Timestamp;
  lastUpdatedAt : option Timestamp
}.

(** The collection, by document id. *)
Definition Collection : Type := gmap string SequenceDoc.

(** [data?.counter || fallback] *)
Definition counter_or (data : SequenceDoc) (fallback : Z) : Z :=
  match counter data with
  | Some c => if c =? 0 then fallback else c
  | None => fallback
  end.

(** The transaction of [getNextAbatementSequenceNumber], which Firestore
    runs atomically: the number returned and the collection afterwards.  A
    transaction that fails leaves the collection as it is and makes the
    function throw; that is not part of the model. *)
Definition getNextAbatementSequenceNumber (fiscalYear : Z) (db : Collection)
  : Z * Collection :=
  let sequenceDocRef := pretty fiscalYear in
  match db !! sequenceDocRef with
  | None =>
      let currentCounter := 10001 in
      (currentCounter,
       <[ sequenceDocRef :=
            {| counter := Some (currentCounter + 1);
               year := Some fiscalYear;
               createdAt := Some serverTimestamp;
               lastUpdatedAt := Some serverTimestamp |} ]> db)
  | Some data =>
      let currentCounter := counter_or data 10001 in
      (currentCounter,
       <[ sequenceDocRef :=
            {| counter := Some (currentCounter + 1);
               year := year data;
               createdAt := createdAt data;
               lastUpdatedAt := Some serverTimestamp |} ]> db)
  end.

(** [getCurrentCounter]: [None] is null. *)
Definition getCurrentCounter (fiscalYear : Z) (db : Collection) : option Z :=
  let sequenceDocRef := pretty fiscalYear in
  match db !! sequenceDocRef with
  | None => None
  | Some data =>
      match counter data with
      | Some c => if c =? 0 then None else Some c
      | None => None
      end
  end.

(** [n] calls of [getNextAbatementSequenceNumber] for a year, one after the
    other: the numbers returned and the collection afterwards. *)
Fixpoint nextSequenceNumbers (n : nat) (fiscalYear : Z) (db : Collection)
  : list Z * Collection :=
  match n with
  | O => ([], db)
  | S k =>
      let '(sequenceNumber, db) := getNextAbatementSequenceNumber fiscalYear db in
      let '(sequenceNumbers, db) := nextSequenceNumbers k fiscalYear db in
      (sequenceNumber :: sequenceNumbers, db)
  end.

End SequenceClient.

(* ===================================================================== *)
(** * Days of the year (frontend/src/components/TimeChanger/TimeChanger.tsx) *)
(* ===================================================================== *)

Module TimeChanger.
Import JS.

(** [Date.UTC(year, month, date)]: a time value, or NaN. *)
Definition Date_UTC (year month date : number) : number :=
  match year, month, date with
  | Int y, Int m, Int dt =>
      match TimeClip (MakeDate (MakeDay (MakeFullYear y) m dt) 0) with
      | TimeValue t => Int t
      | InvalidDate => NaN
      end
  | _, _, _ => NaN
  end.

Definition Date_getUTCFullYear (d : Date) : number :=
  match d with
  | InvalidDate => NaN
  | TimeValue t => Int (YearFromTime t)
  end.

Definition Date_getUTCMonth (d : Date) : number :=
  match d with
  | InvalidDate => NaN
  | TimeValue t => Int (MonthFromTime t)
  end.

Definition Date_getUTCDate (d : Date) : number :=
  match d with
  | InvalidDate => NaN
  | TimeValue t => Int (DateFromTime t)
  end.

Definition num_sub (a b : number) : number :=
  match a, b with
  | Int x, Int y => Int (x - y)
  | _, _ => NaN
  end.

(** [Math.floor(a / b)] for a divisor [b] that is positive *)
Definition Math_floor_div (a : number) (b : Z) : number :=
  match a with
  | Int x => Int (x / b)
  | NaN => NaN
  end.

Definition getDayOfYear (date : Date) : number :=
  let start := Date_UTC (Date_getUTCFullYear date) (Int 0) (Int 1) in
  let current :=
    Date_UTC (Date_getUTCFullYear date) (Date_getUTCMonth date) (Date_getUTCDate date) in
  num_add (Math_floor_div (num_sub current start) (1000 * 60 * 60 * 24)) (Int 1).

Definition getDateFromDayOfYear (year day : number) : Date :=
  let d := new_Date year 0 1 in
  Date_setDate d (num_sub (num_add (Date_getDate d) day) (Int 1)).

End TimeChanger.

(* ===================================================================== *)
(** * Validation of requests (functions/src/callables)                    *)
(* ===================================================================== *)

Module Callables.
Import JS EGISClient.
Local Open Scope string_scope.

(** [/^[a-zA-Z0-9\-_.]+$/.test(parcelId)] *)
Definition isParcelIdChar (c : ascii) : bool :=
  isLower c || isUpper c || isDigit c
  || (code c =? 45)%Z || (code c =? 95)%Z || (code c =? 46)%Z.

Definition testParcelId (parcelId : string) : bool :=
  negb (String.eqb parcelId EmptyString) && allChars isParcelIdChar parcelId.

(** [s.includes(c)] for a character [c] *)
Fixpoint includes (s : string) (c : ascii) : bool :=
  match s with
  | EmptyString => false
  | String x r => Ascii.eqb x c || includes r c
  end.

(** The body of the loop of [fetchPropertySummariesByParcelIds] over the
    parcel ids: the message of the error thrown for [parcelId], if any. *)
Definition validateParcelId (parcelId : string) : option string :=
  if String.eqb (trim parcelId) EmptyString
  then Some "All parcelIds must be non-empty strings"
  else if (20 <? Z.of_nat (String.length parcelId))%Z
  then Some "ParcelId too long"
  else if negb (testParcelId parcelId)
  then Some "ParcelId contains invalid characters"
  else if includes parcelId "'" || includes parcelId "034" || includes parcelId ";"
  then Some "ParcelId contains invalid characters"
  else None.

(** The validation of [fetchPropertySummariesByParcelIds], for a request
    whose [parcelIds] is an array of strings: the message of the error
    thrown, if any. *)
Fixpoint validateEach (parcelIds : list string) : option string :=
  match parcelIds with
  | [] => None
  | parcelId :: rest =>
      match validateParcelId parcelId with
      | Some message => Some message
      | None => validateEach rest
      end
  end.

Definition validateParcelIds (parcelIds : list string) : option string :=
  if (Z.of_nat (length parcelIds) =? 0)%Z then Some "parcelIds array cannot be empty"
  else if (500 <? Z.of_nat (length parcelIds))%Z
  then Some "Maximum 500 parcelIds allowed per request"
  else validateEach parcelIds.

(** [/^\d{4}-\d{2}-\d{2}$/.test(date)] *)
Definition testDateFormat (date : string) : bool :=
  match date with
  | String y1 (String y2 (String y3 (String y4 (String dash1
      (String m1 (String m2 (String dash2 (String d1 (String d2 EmptyString))))))))) =>
      isDigit y1 && isDigit y2 && isDigit y3 && isDigit y4 && Ascii.eqb dash1 "-"
      && isDigit m1 && isDigit m2 && Ascii.eqb dash2 "-"
      && isDigit d1 && isDigit d2
  | _ => false
  end.

(** [Number(s)] for a string of decimal digits that is not empty; other
    strings are not needed here and read as NaN. *)
Definition Number (s : string) : number :=
  if negb (String.eqb s EmptyString) && allChars isDigit s then
    match readDigits 10 None s with
    | Some n => Int n
    | None => NaN
    end
  else NaN.

(** [parseYamlDate] of periodsLanguage.ts: the groups of
    [/^(\d{4})-(\d{2})-(\d{2})$/] are read by [parseInt]; [None] is null. *)
Definition parseYamlDate (dateStr : string) : option Date :=
  match dateStr with
  | String y1 (String y2 (String y3 (String y4 (String dash1
      (String m1 (String m2 (String dash2 (String d1 (String d2 EmptyString))))))))) =>
      if testDateFormat dateStr then
        let year := String y1 (String y2 (String y3 (String y4 EmptyString))) in
        let month := String m1 (String m2 EmptyString) in
        let day := String d1 (String d2 EmptyString) in
        let date :=
          match parseInt_string month, parseInt_string day with
          | Int m, Int d => new_Date (parseInt_string year) (m - 1) d
          | _, _ => InvalidDate
          end in
        match date with
        | InvalidDate => None
        | TimeValue _ => Some date
        end
      else None
  | _ => None
  end.

(** A request of [generatePdf]; a field that is missing is [None]. *)
Record PdfGenerationRequest : Type := {
  parcelId : option string;
  formType : option string;
  date : option string
}.

Definition validFormTypes : list string := ["residential"; "personal"; "abatement"].

(** The validation at the head of [generatePdf]: the message of the error
    thrown, or the date the form is generated for.  [now] is the date
    [new Date()] gives. *)
Definition generatePdf_validate (now : Date) (data : PdfGenerationRequest)
  : string + Date :=
  match parcelId data with
  | None => inl "parcelId must be a string"
  | Some id =>
      if String.eqb id EmptyString then inl "parcelId must be a string"
      else if String.eqb (trim id) EmptyString then inl "parcelId cannot be empty"
      else if (20 <? Z.of_nat (String.length id))%Z then inl "ParcelId too long"
      else if negb (testParcelId id) then inl "ParcelId contains invalid characters"
      else
        match formType data with
        | None => inl "formType must be one of: residential, personal, abatement"
        | Some type =>
            if String.eqb type EmptyString
               || negb (existsb (String.eqb type) validFormTypes)
            then inl "formType must be one of: residential, personal, abatement"
            else
              match date data with
              | None => inr now
              | Some text =>
                  if String.eqb text EmptyString then inr now
                  else if negb (testDateFormat text)
                  then inl "date must be in YYYY-MM-DD format"
                  else
                    let date :=
                      match List.map Number (split "-" text) with
                      | year :: Int month :: Int day :: _ =>
                          new_Date year (month - 1) day
                      | _ => InvalidDate   (* a part that is missing or NaN *)
                      end in
                    match date with
                    | InvalidDate => inl "Invalid date provided"
                    | TimeValue _ => inr date
                    end
              end
        end
  end.

(** The fiscal year of the form, the key of its cache entry and of its
    sequence number. *)
Definition generatePdf_fiscalYear (now : Date) (data : PdfGenerationRequest)
  : string + number :=
  match generatePdf_validate now data with
  | inl message => inl message
  | inr date => inr (year (getFiscalYearAndQuarter date))
  end.

End Callables.

(* ===================================================================== *)
(** * The calendar of ECMAScript                                          *)
(* ===================================================================== *)

Section Calendar.
Import JS.

Lemma DaysInYear_cases y : DaysInYear y = 365 \/ DaysInYear y = 366.
Proof. unfold DaysInYear. repeat destruct (_ =? _); simpl; auto. Qed.

Lemma DayFromYear_succ y : DayFromYear (y + 1) = DayFromYear y + DaysInYear y.
Proof.
  unfold DayFromYear, DaysInYear.
  repeat match goal with |- context [?a =? ?b] => destruct (Z.eqb_spec a b) end;
    simpl; Z.div_mod_to_equations; lia.
Qed.

(** Every year has at least 365 days: [DayFromYear] grows by that much. *)
Lemma DayFromYear_mono y1 y2 :
  y1 <= y2 -> DayFromYear y1 + 365 * (y2 - y1) <= DayFromYear y2.
Proof. unfold DayFromYear. intros H. Z.div_mod_to_equations. lia. Qed.

Lemma DayFromYear_lt y1 y2 : y1 < y2 -> DayFromYear y1 < DayFromYear y2.
Proof. intros H. pose proof (DayFromYear_mono y1 y2). lia. Qed.

Lemma YearFromTime_Day t :
  DayFromYear (YearFromTime t) <= Day t < DayFromYear (YearFromTime t + 1).
Proof.
  unfold YearFromTime. generalize (Day t) as d. intros d. cbv zeta.
  destruct (Z.ltb_spec d (DayFromYear (1970 + 400 * d / 146097))) as [H1|H1];
    [|destruct (Z.leb_spec (DayFromYear (1970 + 400 * d / 146097 + 1)) d) as [H2|H2]].
  - revert H1. unfold DayFromYear. Z.div_mod_to_equations. lia.
  - revert H2. unfold DayFromYear. Z.div_mod_to_equations. lia.
  - lia.
Qed.

Lemma Day_le d t : d <= Day t <-> msPerDay * d <= t.
Proof. unfold Day, msPerDay. split; intros H; Z.div_mod_to_equations; lia. Qed.

Lemma Day_lt d t : Day t < d <-> t < msPerDay * d.
Proof. unfold Day, msPerDay. split; intros H; Z.div_mod_to_equations; lia. Qed.

(** [YearFromTime t] is a year [y] with [TimeFromYear y <= t] ... *)
Lemma YearFromTime_spec t :
  TimeFromYear (YearFromTime t) <= t < TimeFromYear (YearFromTime t + 1).
Proof.
  unfold TimeFromYear. pose proof (YearFromTime_Day t) as [H1 H2].
  split; [apply Day_le | apply Day_lt]; assumption.
Qed.

(** ... and the only one whose year holds [t], hence the largest. *)
Lemma YearFromTime_unique t y :
  TimeFromYear y <= t < TimeFromYear (y + 1) -> YearFromTime t = y.
Proof.
  unfold TimeFromYear. intros [H1 H2].
  apply Day_le in H1. apply Day_lt in H2.
  pose proof (YearFromTime_Day t) as [H3 H4].
  destruct (Z.lt_trichotomy (YearFromTime t) y) as [L|[E|G]]; [|exact E|].
  - pose proof (DayFromYear_mono (YearFromTime t + 1) y). lia.
  - pose proof (DayFromYear_mono (y + 1) (YearFromTime t)). lia.
Qed.

Lemma YearFromTime_largest t y : TimeFromYear y <= t -> y <= YearFromTime t.
Proof.
  unfold TimeFromYear. intros H. apply Day_le in H.
  pose proof (YearFromTime_Day t) as [_ H4].
  destruct (Z.le_gt_cases y (YearFromTime t)) as [L|G]; [exact L|].
  pose proof (DayFromYear_mono (YearFromTime t + 1) y). lia.
Qed.

Lemma DayWithinYear_bounds t :
  0 <= DayWithinYear t < DaysInYear (YearFromTime t).
Proof.
  unfold DayWithinYear. pose proof (YearFromTime_Day t) as [H1 H2].
  rewrite DayFromYear_succ in H2. lia.
Qed.

Lemma InLeapYear_cases t :
  (InLeapYear t = 0 /\ DaysInYear (YearFromTime t) = 365) \/
  (InLeapYear t = 1 /\ DaysInYear (YearFromTime t) = 366).
Proof.
  unfold InLeapYear, LeapDays. destruct (DaysInYear_cases (YearFromTime t)) as [E|E];
    rewrite E; simpl; auto.
Qed.

Lemma MonthFromTime_bounds t : 0 <= MonthFromTime t <= 11.
Proof. unfold MonthFromTime. cbv zeta. repeat destruct (_ <? _); lia. Qed.

(** Rebuilding a day from its year, month and date, moved by [n] days. *)
Lemma MakeDay_fields t n :
  MakeDay (YearFromTime t) (MonthFromTime t) (DateFromTime t + n) = Day t + n.
Proof.
  pose proof (MonthFromTime_bounds t) as Hm.
  unfold MakeDay. cbv zeta.
  rewrite Z.div_small, Z.mod_small by lia.
  rewrite Z.add_0_r. fold (InLeapYear t).
  unfold DateFromTime, DayWithinYear. lia.
Qed.

Lemma MakeDate_shift t n :
  MakeDate (Day t + n) (TimeWithinDay t) = t + n * msPerDay.
Proof.
  unfold MakeDate, Day, TimeWithinDay, msPerDay. Z.div_mod_to_equations. lia.
Qed.

Lemma WeekDay_shift t n : WeekDay (t + n * msPerDay) = (WeekDay t + n) mod 7.
Proof.
  unfold WeekDay, Day. rewrite Z.div_add by (unfold msPerDay; lia).
  rewrite Zplus_mod_idemp_l. f_equal. lia.
Qed.

Lemma LeapDays_cases y : LeapDays y = 0 \/ LeapDays y = 1.
Proof. unfold LeapDays. destruct (_ =? _); auto. Qed.

Lemma monthStart_bounds l m : 0 <= l <= 1 -> 0 <= monthStart l m <= 335.
Proof. intros H. unfold monthStart. repeat destruct (_ =? _); lia. Qed.

Lemma DaysInYear_LeapDays Y : DaysInYear Y = 365 + LeapDays Y.
Proof.
  unfold LeapDays. destruct (DaysInYear_cases Y) as [E|E]; rewrite E; reflexivity.
Qed.

(** A time between the days [lo] and [hi] of the year [Y] has year [Y] and a
    day within the year between [lo] and [hi]. *)
Lemma year_and_day_of t Y lo hi :
  0 <= lo -> hi <= DaysInYear Y ->
  msPerDay * (DayFromYear Y + lo) <= t < msPerDay * (DayFromYear Y + hi) ->
  YearFromTime t = Y /\ lo <= DayWithinYear t < hi.
Proof.
  intros Hlo Hhi [H1 H2].
  assert (YearFromTime t = Y) as E.
  { apply YearFromTime_unique. unfold TimeFromYear.
    rewrite DayFromYear_succ. unfold msPerDay in *. lia. }
  split; [exact E|]. unfold DayWithinYear. rewrite E.
  apply Day_le in H1. apply Day_lt in H2. lia.
Qed.

Lemma first_of_month_time Y m :
  0 <= m <= 11 ->
  MakeDate (MakeDay Y m 1) 0 = msPerDay * (DayFromYear Y + monthStart (LeapDays Y) m).
Proof.
  intros Hm. unfold MakeDay, MakeDate. cbv zeta.
  rewrite Z.div_small, Z.mod_small by lia. rewrite !Z.add_0_r. ring.
Qed.

(** [MakeDay] is the day ECMA-262 asks for: the first of month [m] of the
    year [y] is the day of a time whose year is [y] (with the months beyond
    December carried over), whose month is [m] and whose date is 1. *)
Lemma MakeDay_first y m :
  YearFromTime (MakeDate (MakeDay y m 1) 0) = y + m / 12 /\
  MonthFromTime (MakeDate (MakeDay y m 1) 0) = m mod 12 /\
  DateFromTime (MakeDate (MakeDay y m 1) 0) = 1 /\
  Day (MakeDate (MakeDay y m 1) 0) = MakeDay y m 1.
Proof.
  pose proof (Z.mod_pos_bound m 12 ltac:(lia)) as Hm.
  unfold MakeDay, MakeDate. cbv zeta.
  set (ym := y + m / 12). set (mn := m mod 12) in *.
  pose proof (LeapDays_cases ym) as Hl.
  pose proof (monthStart_bounds (LeapDays ym) mn ltac:(lia)) as Hs.
  replace ((DayFromYear ym + monthStart (LeapDays ym) mn + 1 - 1) * msPerDay + 0)
    with (msPerDay * (DayFromYear ym + monthStart (LeapDays ym) mn)) by ring.
  set (t := msPerDay * (DayFromYear ym + monthStart (LeapDays ym) mn)).
  destruct (year_and_day_of t ym (monthStart (LeapDays ym) mn)
              (monthStart (LeapDays ym) mn + 1)) as [EY Hd].
  { lia. }
  { rewrite DaysInYear_LeapDays. unfold monthStart in *.
    repeat destruct (_ =? _); lia. }
  { unfold t, msPerDay. lia. }
  assert (DayWithinYear t = monthStart (LeapDays ym) mn) as Ed by lia.
  assert (MonthFromTime t = mn) as EM.
  { unfold MonthFromTime, InLeapYear. cbv zeta. rewrite Ed, EY.
    assert (mn = 0 \/ mn = 1 \/ mn = 2 \/ mn = 3 \/ mn = 4 \/ mn = 5 \/ mn = 6 \/
            mn = 7 \/ mn = 8 \/ mn = 9 \/ mn = 10 \/ mn = 11) as Hcases by lia.
    destruct Hl as [-> | ->];
      repeat (destruct Hcases as [-> | Hcases]; [reflexivity|]);
      rewrite Hcases; reflexivity. }
  split; [exact EY|]. split; [exact EM|]. split.
  - unfold DateFromTime, InLeapYear. rewrite Ed, EY, EM. lia.
  - unfold DayWithinYear in Ed. rewrite EY in Ed. lia.
Qed.

End Calendar.

(* ===================================================================== *)
(** * Dates built by the anchors                                          *)
(* ===================================================================== *)

Section Anchors.
Import JS Periods.

Lemma TimeClip_valid t : validTime t -> TimeClip t = TimeValue t.
Proof.
  unfold validTime, TimeClip. intros H.
  destruct (Z.leb_spec (Z.abs t) maxTimeValue); [reflexivity | lia].
Qed.

Lemma TimeClip_TimeValue t u : TimeClip t = TimeValue u -> u = t /\ validTime t.
Proof.
  unfold validTime, TimeClip.
  destruct (Z.leb_spec (Z.abs t) maxTimeValue); [|discriminate].
  intros [= <-]. auto.
Qed.

Lemma validTime_days d : -100000000 <= d <= 100000000 <-> validTime (msPerDay * d).
Proof. unfold validTime, msPerDay, maxTimeValue. lia. Qed.

(** [d.setDate(d.getDate() + n)] moves [d] by [n] days. *)
Lemma setDate_shift t n :
  Date_setDate (TimeValue t) (num_add (Date_getDate (TimeValue t)) (Int n))
  = TimeClip (t + n * msPerDay).
Proof.
  cbn [Date_setDate Date_getDate num_add]. unfold LocalTime, UTC.
  rewrite MakeDay_fields, MakeDate_shift. reflexivity.
Qed.

Lemma getNextMonday_TimeValue t :
  getNextMonday (TimeValue t) =
  if WeekDay t =? 6 then TimeClip (t + 2 * msPerDay)
  else if WeekDay t =? 0 then TimeClip (t + 1 * msPerDay)
  else TimeValue t.
Proof.
  unfold getNextMonday. cbv zeta. rewrite !setDate_shift.
  cbn [Date_getDay num_eqb]. unfold LocalTime. reflexivity.
Qed.

Lemma getNextMonday_InvalidDate : getNextMonday InvalidDate = InvalidDate.
Proof. reflexivity. Qed.

(** [getNextMonday] never returns a Saturday or a Sunday. *)
Lemma getNextMonday_weekday d u :
  getNextMonday d = TimeValue u -> 1 <= WeekDay u <= 5.
Proof.
  destruct d as [|t]; [discriminate|]. rewrite getNextMonday_TimeValue.
  destruct (Z.eqb_spec (WeekDay t) 6) as [E6|N6];
    [|destruct (Z.eqb_spec (WeekDay t) 0) as [E0|N0]].
  - intros H. apply TimeClip_TimeValue in H as [-> _].
    rewrite WeekDay_shift, E6. change ((6 + 2) mod 7) with 1. lia.
  - intros H. apply TimeClip_TimeValue in H as [-> _].
    rewrite WeekDay_shift, E0. change ((0 + 1) mod 7) with 1. lia.
  - intros [= <-]. unfold WeekDay in *.
    pose proof (Z.mod_pos_bound (Day t + 4) 7 ltac:(lia)). lia.
Qed.

(** Before the last representable instant, a date that falls on a Saturday
    has a representable date two days later, and a date that falls on a
    Sunday one a day later: the last instant is the midnight that starts a
    Saturday. *)
Lemma weekend_shift_valid t n :
  validTime t -> t <> maxTimeValue ->
  (WeekDay t = 6 /\ n = 2) \/ (WeekDay t = 0 /\ n = 1) ->
  validTime (t + n * msPerDay).
Proof.
  unfold validTime, WeekDay, Day, maxTimeValue, msPerDay.
  intros Hv Hne H. Z.div_mod_to_equations. lia.
Qed.

(** The next Monday of a valid date is at most two days later. *)
Lemma getNextMonday_within t :
  validTime t ->
  exists k, 0 <= k <= 2 /\ getNextMonday (TimeValue t) = TimeClip (t + k * msPerDay).
Proof.
  intros Hv. rewrite getNextMonday_TimeValue.
  destruct (WeekDay t =? 6); [exists 2; split; [lia | reflexivity]|].
  destruct (WeekDay t =? 0); [exists 1; split; [lia | reflexivity]|].
  exists 0. split; [lia|]. rewrite Z.add_0_r. symmetry. apply TimeClip_valid, Hv.
Qed.

(** The first day of a month, as [new Date(year, m, 1)] builds it. *)
Lemma new_Date_first y m :
  0 <= m <= 11 ->
  new_Date (Int y) m 1
  = TimeClip (msPerDay * (DayFromYear (MakeFullYear y)
                          + monthStart (LeapDays (MakeFullYear y)) m)).
Proof.
  intros Hm. unfold new_Date, MakeDay, MakeDate, UTC. cbv zeta.
  rewrite Z.div_small, Z.mod_small by lia. rewrite !Z.add_0_r. f_equal. ring.
Qed.

(** The date [new Date(year, m, 1)] builds, when it is a date, is the
    midnight of the first of month [m] of the year [MakeFullYear year]. *)
Lemma new_Date_fields y m t :
  0 <= m <= 11 ->
  new_Date (Int y) m 1 = TimeValue t ->
  Date_getFullYear (TimeValue t) = Int (MakeFullYear y) /\
  Date_getMonth (TimeValue t) = Int m /\
  Date_getDate (TimeValue t) = Int 1 /\
  TimeWithinDay t = 0.
Proof.
  intros Hm H. unfold new_Date, UTC in H. cbv zeta in H.
  apply TimeClip_TimeValue in H as [-> _].
  cbn [Date_getFullYear Date_getMonth Date_getDate]. unfold LocalTime.
  destruct (MakeDay_first (MakeFullYear y) m) as (EY & EM & ED & _).
  rewrite EY, EM, ED, Z.div_small, Z.mod_small, Z.add_0_r by lia.
  repeat split. unfold MakeDate, TimeWithinDay.
  rewrite Z.add_0_r. apply Z.mod_mul. unfold msPerDay. lia.
Qed.

Lemma DayFromYear_first_year : DayFromYear (-271821) = -100000109.
Proof. reflexivity. Qed.

Lemma DayFromYear_last_year : DayFromYear 275760 = 99999744.
Proof. reflexivity. Qed.

(** The years whose first of January is a representable date. *)
Lemma DayFromYear_range yr :
  -271820 <= yr <= 275760 -> -99999744 <= DayFromYear yr <= 99999744.
Proof.
  intros H.
  pose proof (DayFromYear_mono (-271821) yr).
  pose proof (DayFromYear_mono yr 275760).
  rewrite DayFromYear_first_year in *. rewrite DayFromYear_last_year in *. lia.
Qed.

Lemma DayFromYear_range_inv yr :
  -100000000 - 335 <= DayFromYear yr <= 100000000 -> -271821 <= yr <= 275760.
Proof.
  intros H.
  destruct (Z.le_gt_cases (-271821) yr) as [L|G].
  - split; [exact L|]. destruct (Z.le_gt_cases yr 275760) as [L'|G']; [exact L'|].
    pose proof (DayFromYear_mono 275760 yr). rewrite DayFromYear_last_year in *. lia.
  - pose proof (DayFromYear_mono yr (-271821)). rewrite DayFromYear_first_year in *. lia.
Qed.

Lemma MakeFullYear_range y :
  -271820 <= y <= 275760 -> -271820 <= MakeFullYear y <= 275760.
Proof.
  unfold MakeFullYear. intros H.
  destruct (Z.leb_spec 0 y); destruct (Z.leb_spec y 99); simpl; lia.
Qed.

Lemma monthStart_0 l : monthStart l 0 = 0. Proof. reflexivity. Qed.
Lemma monthStart_1 l : monthStart l 1 = 31. Proof. reflexivity. Qed.
Lemma monthStart_2 l : monthStart l 2 = 59 + l. Proof. reflexivity. Qed.
Lemma monthStart_3 l : monthStart l 3 = 90 + l. Proof. reflexivity. Qed.
Lemma monthStart_6 l : monthStart l 6 = 181 + l. Proof. reflexivity. Qed.

(** A date at midnight of day [d], when that day is representable. *)
Lemma TimeClip_day d :
  -100000000 <= d <= 100000000 -> TimeClip (msPerDay * d) = TimeValue (msPerDay * d).
Proof. intros H. apply TimeClip_valid, validTime_days, H. Qed.

Lemma TimeClip_day_shift d k :
  -100000000 <= d + k <= 100000000 ->
  TimeClip (msPerDay * d + k * msPerDay) = TimeValue (msPerDay * (d + k)).
Proof.
  intros H. replace (msPerDay * d + k * msPerDay) with (msPerDay * (d + k)) by ring.
  apply TimeClip_day, H.
Qed.

(** The next Monday on or after the midnight of day [d]. *)
Lemma getNextMonday_day d :
  -100000000 <= d <= 100000000 - 2 ->
  exists k, 0 <= k <= 2 /\
    getNextMonday (TimeValue (msPerDay * d)) = TimeValue (msPerDay * (d + k)).
Proof.
  intros H.
  destruct (getNextMonday_within (msPerDay * d)) as (k & Hk & E).
  { apply validTime_days. lia. }
  exists k. split; [exact Hk|]. rewrite E. apply TimeClip_day_shift. lia.
Qed.

End Anchors.

(* ===================================================================== *)
(** * Anchors and the next-Monday rule                                    *)
(* ===================================================================== *)

Section AnchorClaims.
Import JS Periods.

(** C6. In every year whose anchors are representable dates (from -271820
    to 275760, which covers 2020 to 2035), the anchors are ordered: the first
    of January is strictly before the abatement deadline, the abatement
    deadline is on or before the grace-period deadline and strictly before the
    first of March, and the abatement deadline and the exemption deadline are
    strictly before the first of July. *)
Theorem anchors_ordered (y : Z) :
  -271820 <= y <= 275760 ->
  let jan1 := getDate NEW_APPLICATION_PERIOD_BEGINS (Int y) in
  let abatementDeadline := getDate ABATEMENT_APPLICATION_DEADLINE (Int y) in
  let graceDeadline := getDate ABATEMENT_GRACE_PERIOD_DEADLINE (Int y) in
  let exemptionsInProgress := getDate EXEMPTIONS_IN_PROGRESS (Int y) in
  let exemptionDeadline := getDate EXEMPTION_APPLICATION_DEADLINE (Int y) in
  let fiscalYearStart := getDate NEW_FY_PRELIMINARY_TAX_PERIOD_BEGINS (Int y) in
  date_ltb jan1 abatementDeadline = true /\
  date_leb abatementDeadline graceDeadline = true /\
  date_ltb abatementDeadline exemptionsInProgress = true /\
  date_ltb abatementDeadline fiscalYearStart = true /\
  date_ltb exemptionDeadline fiscalYearStart = true.
Proof.
  intros Hy.
  pose proof (DayFromYear_range _ (MakeFullYear_range y Hy)) as HD.
  pose proof (LeapDays_cases (MakeFullYear y)) as Hl.
  cbn [getDate NEW_APPLICATION_PERIOD_BEGINS ABATEMENT_APPLICATION_DEADLINE
       ABATEMENT_GRACE_PERIOD_DEADLINE EXEMPTIONS_IN_PROGRESS
       EXEMPTION_APPLICATION_DEADLINE NEW_FY_PRELIMINARY_TAX_PERIOD_BEGINS].
  cbv zeta. rewrite !new_Date_first by lia.
  rewrite monthStart_0, monthStart_1, monthStart_2, monthStart_3, monthStart_6.
  set (D := DayFromYear (MakeFullYear y)) in *.
  set (l := LeapDays (MakeFullYear y)) in *.
  rewrite !TimeClip_day by lia.
  destruct (getNextMonday_day (D + 31)) as (k & Hk & ->); [lia|].
  destruct (getNextMonday_day (D + (90 + l))) as (k' & Hk' & ->); [lia|].
  rewrite setDate_shift, TimeClip_day_shift by lia.
  cbn [date_ltb date_leb]. unfold msPerDay.
  repeat split; first [apply Z.ltb_lt | apply Z.leb_le]; lia.
Qed.

Lemma anchors_ordered_witness :
  date_ltb (getDate NEW_APPLICATION_PERIOD_BEGINS (Int 2026))
           (getDate ABATEMENT_APPLICATION_DEADLINE (Int 2026)) = true /\
  date_ltb (getDate EXEMPTION_APPLICATION_DEADLINE (Int 2026))
           (getDate NEW_FY_PRELIMINARY_TAX_PERIOD_BEGINS (Int 2026)) = true.
Proof.
  destruct (anchors_ordered 2026) as (H1 & _ & _ & _ & H5); [lia|].
  split; [exact H1 | exact H5].
Defined.




(** C2. The phase and the deadline that [getAbatementPhase] returns do not
    depend on its year argument: the windows are computed from the year of
    the date, and the year argument reaches the message only. *)
Theorem getAbatementPhase_year_independent
    (now : Date) (y1 y2 : number) (parcelId : option string) :
  phase (getAbatementPhase now y1 parcelId) = phase (getAbatementPhase now y2 parcelId) /\
  deadline (getAbatementPhase now y1 parcelId)
  = deadline (getAbatementPhase now y2 parcelId).
Proof.
  unfold getAbatementPhase. cbv zeta.
  repeat destruct (_ && _); split; reflexivity.
Qed.

End AnchorClaims.

(* ===================================================================== *)
(** * Phase resolution                                                    *)
(* ===================================================================== *)

Section PhaseClaims.
Import JS Periods.

Ltac decide_comparisons :=
  repeat match goal with
    | |- context [?a <? ?b] => destruct (Z.ltb_spec a b); try lia
    | |- context [?a <=? ?b] => destruct (Z.leb_spec a b); try lia
    end.

(** A year with a representable day among its first 109 days starts on a
    representable day: the first representable day is the 110th day of the
    year -271821. *)
Lemma first_of_year_representable yr k :
  0 <= k <= 108 ->
  -100000000 <= DayFromYear yr + k <= 100000000 ->
  -271820 <= yr <= 275760.
Proof.
  intros Hk H.
  destruct (DayFromYear_range_inv yr) as [L U]; [lia|].
  destruct (Z.eq_dec yr (-271821)) as [->|Hne]; [|lia].
  rewrite DayFromYear_first_year in H. lia.
Qed.

Lemma getNextMonday_TimeValue_inv d u :
  getNextMonday d = TimeValue u -> exists t, d = TimeValue t.
Proof. destruct d as [|t]; [discriminate|]. eauto. Qed.

(** C1. At the instant of the exemption deadline of a year,
    [getExemptionPhase] answers [open]: the deadline passes the test of
    [open] and that of [after_deadline], and [open] is tested first.  At any
    instant after the deadline and before the first of July it answers
    [after_deadline]. *)
Theorem getExemptionPhase_deadline_open (y : Z) (opts : ExemptionOpts) (dl : Z) :
  getDate EXEMPTION_APPLICATION_DEADLINE_DATE (Int y) = TimeValue dl ->
  phase (getExemptionPhase (TimeValue dl) (Int y) opts) = open /\
  (forall july1,
      getDate NEW_FY_PRELIMINARY_TAX_PERIOD_BEGINS (Int y) = TimeValue july1 ->
      date_geb (TimeValue dl) (getDate EXEMPTION_APPLICATION_DEADLINE_DATE (Int y))
      && date_ltb (TimeValue dl) (getDate NEW_FY_PRELIMINARY_TAX_PERIOD_BEGINS (Int y))
      = true /\
      forall t,
        dl < t < july1 ->
        phase (getExemptionPhase (TimeValue t) (Int y) opts) = after_deadline).
Proof.
  intros Hdl.
  assert (exists jan1,
             getDate NEW_APPLICATION_PERIOD_BEGINS (Int y) = TimeValue jan1 /\
             jan1 <= dl /\
             forall july1,
               getDate NEW_FY_PRELIMINARY_TAX_PERIOD_BEGINS (Int y) = TimeValue july1 ->
               dl < july1) as (jan1 & Hjan1 & Hle & Hjuly).
  { revert Hdl.
    cbn [getDate EXEMPTION_APPLICATION_DEADLINE_DATE NEW_APPLICATION_PERIOD_BEGINS
         NEW_FY_PRELIMINARY_TAX_PERIOD_BEGINS].
    rewrite !new_Date_first by lia.
    rewrite monthStart_0, monthStart_3, monthStart_6, Z.add_0_r.
    pose proof (LeapDays_cases (MakeFullYear y)) as Hl.
    set (D := DayFromYear (MakeFullYear y)). set (l := LeapDays (MakeFullYear y)) in *.
    intros Hdl.
    destruct (getNextMonday_TimeValue_inv _ _ Hdl) as (a & Ha).
    apply TimeClip_TimeValue in Ha as [-> Hv]. apply validTime_days in Hv.
    pose proof (first_of_year_representable (MakeFullYear y) (90 + l) ltac:(lia) Hv) as Hyr.
    pose proof (DayFromYear_range _ Hyr) as HD. fold D in HD.
    rewrite TimeClip_day in Hdl by lia.
    destruct (getNextMonday_day (D + (90 + l))) as (k & Hk & E); [lia|].
    rewrite E in Hdl. injection Hdl as <-.
    exists (msPerDay * D). split; [apply TimeClip_day; lia|].
    split; [unfold msPerDay; lia|].
    intros july1 Hjul. apply TimeClip_TimeValue in Hjul as [-> _].
    unfold msPerDay. lia. }
  split.
  - unfold getExemptionPhase. cbv zeta. rewrite Hdl, Hjan1.
    cbn [date_ltb date_leb date_geb]. decide_comparisons. reflexivity.
  - intros july1 Hjul. specialize (Hjuly july1 Hjul). split.
    + rewrite Hdl, Hjul. cbn [date_ltb date_leb date_geb].
      apply andb_true_intro. split; [apply Z.leb_le | apply Z.ltb_lt]; lia.
    + intros t Ht.
      unfold getExemptionPhase. cbv zeta. rewrite Hdl, Hjan1, Hjul.
      cbn [date_ltb date_leb date_geb]. decide_comparisons. reflexivity.
Qed.

Lemma getExemptionPhase_deadline_open_witness :
  phase (getExemptionPhase (getDate EXEMPTION_APPLICATION_DEADLINE_DATE (Int 2026))
           (Int 2026) {| grantedCount := Int 0; type := Residential |}) = open /\
  phase (getExemptionPhase (TimeValue (1775001600000 + 1))
           (Int 2026) {| grantedCount := Int 0; type := Residential |}) = after_deadline.
Proof.
  destruct (getExemptionPhase_deadline_open 2026
              {| grantedCount := Int 0; type := Residential |} 1775001600000 eq_refl)
    as [Hopen Hafter].
  split.
  - exact Hopen.
  - apply (Hafter 1782864000000 eq_refl). lia.
Defined.

Lemma MakeFullYear_id y : ~ (0 <= y <= 99) -> MakeFullYear y = y.
Proof.
  unfold MakeFullYear. intros H.
  destruct (Z.leb_spec 0 y); destruct (Z.leb_spec y 99); simpl; lia.
Qed.

Lemma MakeFullYear_ge y : y <= MakeFullYear y.
Proof.
  unfold MakeFullYear.
  destruct (Z.leb_spec 0 y); destruct (Z.leb_spec y 99); simpl; lia.
Qed.

Lemma MakeFullYear_century y : 0 <= y <= 99 -> MakeFullYear y = 1900 + y.
Proof.
  unfold MakeFullYear. intros H.
  destruct (Z.leb_spec 0 y); destruct (Z.leb_spec y 99); simpl; lia.
Qed.

Lemma DayFromYear_100 : DayFromYear 100 = -683003.
Proof. reflexivity. Qed.

Lemma DayFromYear_1900 : DayFromYear 1900 = -25567.
Proof. reflexivity. Qed.

(** C10, as the code has it.  For a date whose year is not one of 0..99, and
    is neither the first nor the last year with representable dates,
    [getAbatementPhase] returns through one of its three dated branches: the
    date lies between the first of January of its year and that of the next
    year, the result carries the abatement deadline, and its phase is [open]
    up to the deadline, [after_deadline] between the deadline and the first
    of July, and [preliminary] from the first of July on.  For a date in one
    of the years 0..99 the anchors are those of the year 1900 + year, none of
    the three tests holds, and the final catch-all branch is taken. *)
Theorem getAbatementPhase_dated_branch
    (t : Z) (year : number) (parcelId : option string) :
  (-271820 <= YearFromTime t <= 275759 ->
   ~ (0 <= YearFromTime t <= 99) ->
   exists jan1 abatementDeadline july1 nextJan1,
     getDate NEW_APPLICATION_PERIOD_BEGINS (Date_getFullYear (TimeValue t))
     = TimeValue jan1 /\
     getDate ABATEMENT_APPLICATION_DEADLINE (Date_getFullYear (TimeValue t))
     = TimeValue abatementDeadline /\
     getDate NEW_FY_PRELIMINARY_TAX_PERIOD_BEGINS (Date_getFullYear (TimeValue t))
     = TimeValue july1 /\
     getDate NEW_APPLICATION_PERIOD_BEGINS
       (num_add (Date_getFullYear (TimeValue t)) (Int 1))
     = TimeValue nextJan1 /\
     jan1 <= t < nextJan1 /\
     jan1 < abatementDeadline < july1 /\
     deadline (getAbatementPhase (TimeValue t) year parcelId)
     = Some (TimeValue abatementDeadline) /\
     (t <= abatementDeadline ->
      phase (getAbatementPhase (TimeValue t) year parcelId) = open) /\
     (abatementDeadline < t < july1 ->
      phase (getAbatementPhase (TimeValue t) year parcelId) = after_deadline) /\
     (july1 <= t ->
      phase (getAbatementPhase (TimeValue t) year parcelId) = preliminary)) /\
  (0 <= YearFromTime t <= 99 ->
   getAbatementPhase (TimeValue t) year parcelId
   = {| phase := preliminary;
        message := getAbatementPhaseMessage (phase_key preliminary) [] None;
        deadline := None |}).
Proof.
  pose proof (YearFromTime_Day t) as [Hlo Hhi].
  apply Day_le in Hlo. apply Day_lt in Hhi.
  unfold getAbatementPhase. cbv zeta.
  cbn [Date_getFullYear num_add]. unfold LocalTime.
  set (Y := YearFromTime t) in *.
  cbn [getDate NEW_APPLICATION_PERIOD_BEGINS ABATEMENT_APPLICATION_DEADLINE
       NEW_FY_PRELIMINARY_TAX_PERIOD_BEGINS].
  rewrite !new_Date_first by lia.
  rewrite monthStart_0, monthStart_1, monthStart_6, !Z.add_0_r.
  split.
  - intros Hrange Hcentury.
    rewrite (MakeFullYear_id Y Hcentury).
    pose proof (MakeFullYear_ge (Y + 1)) as Hnext.
    assert (-271820 <= MakeFullYear (Y + 1) <= 275760) as Hnext'
      by (apply MakeFullYear_range; lia).
    pose proof (DayFromYear_mono (Y + 1) (MakeFullYear (Y + 1)) Hnext) as Hmono.
    pose proof (DayFromYear_range Y ltac:(lia)) as HD.
    pose proof (DayFromYear_range _ Hnext') as HD'.
    pose proof (LeapDays_cases Y) as Hl.
    set (D := DayFromYear Y) in *. set (l := LeapDays Y) in *.
    set (D' := DayFromYear (MakeFullYear (Y + 1))) in *.
    rewrite !TimeClip_day by lia.
    destruct (getNextMonday_day (D + 31)) as (k & Hk & ->); [lia|].
    exists (msPerDay * D), (msPerDay * (D + 31 + k)),
           (msPerDay * (D + (181 + l))), (msPerDay * D').
    cbn [date_ltb date_leb date_geb date_gtb]. unfold msPerDay in *.
    repeat (split; [first [reflexivity | lia]|]).
    split; [|split; [|split]].
    + decide_comparisons; reflexivity.
    + intros H. decide_comparisons. reflexivity.
    + intros H. decide_comparisons. reflexivity.
    + intros H. decide_comparisons. reflexivity.
  - intros Hcentury.
    rewrite (MakeFullYear_century Y Hcentury).
    pose proof (DayFromYear_mono (Y + 1) 100 ltac:(lia)) as Hbefore.
    pose proof (DayFromYear_mono 1900 (1900 + Y) ltac:(lia)) as Hafter.
    pose proof (DayFromYear_range (1900 + Y) ltac:(lia)) as HD.
    pose proof (LeapDays_cases (1900 + Y)) as Hl.
    rewrite DayFromYear_100 in Hbefore. rewrite DayFromYear_1900 in Hafter.
    set (D := DayFromYear (1900 + Y)) in *. set (l := LeapDays (1900 + Y)) in *.
    rewrite !TimeClip_day by lia.
    destruct (getNextMonday_day (D + 31)) as (k & Hk & ->); [lia|].
    cbn [date_ltb date_leb date_geb date_gtb]. unfold msPerDay in *.
    decide_comparisons. reflexivity.
Qed.

Lemma getAbatementPhase_dated_branch_witness :
  phase (getAbatementPhase (TimeValue 1773532800000) (Int 2025) None) = after_deadline /\
  deadline (getAbatementPhase (TimeValue 1773532800000) (Int 2025) None)
  = Some (TimeValue 1769990400000) /\
  deadline (getAbatementPhase (TimeValue (-60576249600000)) (Int 2025) None) = None.
Proof.
  destruct (getAbatementPhase_dated_branch 1773532800000 (Int 2025) None)
    as [Hdated _].
  destruct (getAbatementPhase_dated_branch (-60576249600000) (Int 2025) None)
    as [_ Hcatch].
  destruct Hdated
    as (jan1 & dl & july1 & nextJan1 & H1 & H2 & H3 & H4 & _ & _ & Hd & _ & Hafter & _).
  - vm_compute. split; discriminate.
  - vm_compute. intros [_ H]. apply H. reflexivity.
  - vm_compute in H2, H3. injection H2 as <-. injection H3 as <-.
    split; [|split].
    + apply Hafter. lia.
    + exact Hd.
    + rewrite Hcatch; [reflexivity|]. vm_compute. split; discriminate.
Defined.

(** C10, as stated, fails.  The first of June of the year 50 is a valid date;
    [new Date(50, 0, 1)] is the first of January 1950, so the date is before
    the "first of January of its year" that the code computes, and
    [getAbatementPhase] returns through its final catch-all branch. *)
Lemma getAbatementPhase_catch_all_reached :
  validTime (-60576249600000) /\
  Date_getFullYear (TimeValue (-60576249600000)) = Int 50 /\
  Date_getMonth (TimeValue (-60576249600000)) = Int 5 /\
  Date_getDate (TimeValue (-60576249600000)) = Int 1 /\
  getDate NEW_APPLICATION_PERIOD_BEGINS (Int 50) = TimeValue (-631152000000) /\
  date_geb (TimeValue (-60576249600000))
           (getDate NEW_APPLICATION_PERIOD_BEGINS (Int 50)) = false /\
  getAbatementPhase (TimeValue (-60576249600000)) (Int 2026) None
  = {| phase := preliminary;
       message := getAbatementPhaseMessage "preliminary" [] None;
       deadline := None |}.
Proof.
  split; [unfold validTime; vm_compute; discriminate|].
  repeat split; reflexivity.
Qed.

End PhaseClaims.

(* ===================================================================== *)
(** * Fiscal year and quarter                                             *)
(* ===================================================================== *)

Section FiscalYearClaims.
Import JS Periods EGISClient.




Lemma MonthFromTime_first_half t l :
  InLeapYear t = l -> 0 <= l <= 1 ->
  DayWithinYear t < 181 + l -> MonthFromTime t < 6.
Proof.
  intros El Hl H. unfold MonthFromTime. cbv zeta. rewrite El.
  repeat match goal with
         | |- context [?a <? ?b] => destruct (Z.ltb_spec a b); try lia
         end.
Qed.

Lemma MonthFromTime_second_half t l :
  InLeapYear t = l -> 0 <= l <= 1 ->
  181 + l <= DayWithinYear t -> 6 <= MonthFromTime t.
Proof.
  intros El Hl H. unfold MonthFromTime. cbv zeta. rewrite El.
  repeat match goal with
         | |- context [?a <? ?b] => destruct (Z.ltb_spec a b); try lia
         end.
Qed.

(** C3. For a valid date, [getFiscalYear] and [getFiscalYearAndQuarter]
    return the year of the date plus one when its month index is 6 (July) or
    more and the year of the date otherwise, and the quarter is "1" in the
    first case and "3" in the second.  Hence from the first of January to the
    end of June of a year [Y] the fiscal year is [Y] and the quarter "3", and
    from the first of July to the end of December it is [Y + 1] and "1". *)
Theorem fiscal_year_and_quarter (t : Z) :
  getFiscalYear (TimeValue t)
  = Int (if 6 <=? MonthFromTime t then YearFromTime t + 1 else YearFromTime t) /\
  getFiscalYearAndQuarter (TimeValue t)
  = {| year := Int (if 6 <=? MonthFromTime t then YearFromTime t + 1 else YearFromTime t);
       quarter := if 6 <=? MonthFromTime t then "1" else "3" |} /\
  (forall Y,
      MakeDate (MakeDay Y 0 1) 0 <= t < MakeDate (MakeDay Y 6 1) 0 ->
      getFiscalYear (TimeValue t) = Int Y /\
      getFiscalYearAndQuarter (TimeValue t) = {| year := Int Y; quarter := "3" |}) /\
  (forall Y,
      MakeDate (MakeDay Y 6 1) 0 <= t < MakeDate (MakeDay (Y + 1) 0 1) 0 ->
      getFiscalYear (TimeValue t) = Int (Y + 1) /\
      getFiscalYearAndQuarter (TimeValue t) = {| year := Int (Y + 1); quarter := "1" |}).
Proof.
  assert (getFiscalYear (TimeValue t)
          = Int (if 6 <=? MonthFromTime t then YearFromTime t + 1 else YearFromTime t))
    as HF.
  { unfold getFiscalYear. cbv zeta. cbn [Date_getFullYear Date_getMonth num_geb num_add].
    unfold LocalTime. destruct (6 <=? MonthFromTime t); reflexivity. }
  assert (getFiscalYearAndQuarter (TimeValue t)
          = {| year := Int (if 6 <=? MonthFromTime t then YearFromTime t + 1
                            else YearFromTime t);
               quarter := if 6 <=? MonthFromTime t then "1" else "3" |})
    as HQ.
  { unfold getFiscalYearAndQuarter. cbv zeta.
    cbn [Date_getFullYear Date_getMonth num_ltb num_add]. unfold LocalTime.
    destruct (Z.ltb_spec (MonthFromTime t) 6); destruct (Z.leb_spec 6 (MonthFromTime t));
      try lia; reflexivity. }
  split; [exact HF|]. split; [exact HQ|]. rewrite HF, HQ. split.
  - intros Y. rewrite !first_of_month_time by lia.
    rewrite monthStart_0, monthStart_6. intros H.
    pose proof (LeapDays_cases Y) as Hl.
    destruct (year_and_day_of t Y 0 (181 + LeapDays Y)) as [EY Hd];
      [lia | rewrite DaysInYear_LeapDays; lia | lia |].
    assert (MonthFromTime t < 6) as Hm.
    { apply (MonthFromTime_first_half t (LeapDays Y));
        [unfold InLeapYear; rewrite EY; reflexivity | lia | lia]. }
    destruct (Z.leb_spec 6 (MonthFromTime t)); [lia|]. rewrite EY. split; reflexivity.
  - intros Y. rewrite !first_of_month_time by lia.
    rewrite monthStart_0, monthStart_6, DayFromYear_succ, DaysInYear_LeapDays. intros H.
    pose proof (LeapDays_cases Y) as Hl.
    destruct (year_and_day_of t Y (181 + LeapDays Y) (365 + LeapDays Y)) as [EY Hd];
      [lia | rewrite DaysInYear_LeapDays; lia | unfold msPerDay in *; lia |].
    assert (6 <= MonthFromTime t) as Hm.
    { apply (MonthFromTime_second_half t (LeapDays Y));
        [unfold InLeapYear; rewrite EY; reflexivity | lia | lia]. }
    destruct (Z.leb_spec 6 (MonthFromTime t)); [|lia]. rewrite EY. split; reflexivity.
Qed.

Lemma fiscal_year_and_quarter_witness :
  getFiscalYear (TimeValue 1782863999999) = Int 2026 /\
  getFiscalYearAndQuarter (TimeValue 1782864000000) = {| year := Int 2027; quarter := "1" |}.
Proof.
  destruct (fiscal_year_and_quarter 1782863999999) as (_ & _ & H1 & _).
  destruct (fiscal_year_and_quarter 1782864000000) as (_ & _ & _ & H2).
  split.
  - apply (H1 2026). vm_compute. split; [discriminate | reflexivity].
  - apply (H2 2026). vm_compute. split; [discriminate | reflexivity].
Defined.

End FiscalYearClaims.

(* ===================================================================== *)
(** * Tax-rate lookup                                                     *)
(* ===================================================================== *)

Section TaxRateClaims.
Import FiscalData.

Lemma Math_max_nil xs : Math_max xs = NegInfinity -> xs = [].
Proof.
  destruct xs as [|x xs]; [reflexivity|].
  cbn [Math_max fold_right]. destruct (fold_right _ _ xs); discriminate.
Qed.

(** [Math.max] returns an argument that no argument exceeds. *)
Lemma Math_max_Finite xs m :
  Math_max xs = Finite m -> m ∈ xs /\ forall x, x ∈ xs -> x <= m.
Proof.
  revert m. induction xs as [|x xs IH]; intros m; [discriminate|].
  cbn [Math_max fold_right]. fold (Math_max xs).
  destruct (Math_max xs) as [|a] eqn:E; intros [= <-].
  - apply Math_max_nil in E. subst xs. split; [apply list_elem_of_here|].
    intros z Hz. apply list_elem_of_singleton in Hz. lia.
  - destruct (IH a eq_refl) as [Ha Hle]. split.
    + apply elem_of_cons.
      destruct (Z.max_spec x a) as [[_ ->]|[_ ->]]; [right; exact Ha | left; reflexivity].
    + intros z Hz. apply elem_of_cons in Hz as [->|Hz]; [lia|].
      specialize (Hle z Hz). lia.
Qed.

Lemma elem_of_Object_keys (obj : gmap Z FiscalYearData) k :
  k ∈ Object_keys obj <-> is_Some (obj !! k).
Proof.
  unfold Object_keys. rewrite list_elem_of_fmap. split.
  - intros [[k' v] [-> H]]. apply elem_of_map_to_list in H. eauto.
  - intros [v H]. exists (k, v). split; [reflexivity|].
    apply elem_of_map_to_list. exact H.
Qed.

(** The latest fiscal year is the largest configured year. *)
Lemma getLatestFiscalYear_Finite config m :
  getLatestFiscalYear config = Finite m <->
  is_Some (fiscalYears config !! m) /\
  forall k, is_Some (fiscalYears config !! k) -> k <= m.
Proof.
  unfold getLatestFiscalYear. cbv zeta. split.
  - intros H. apply Math_max_Finite in H as [Hin Hle]. split.
    + apply elem_of_Object_keys, Hin.
    + intros k Hk. apply Hle, elem_of_Object_keys, Hk.
  - intros [Hin Hle].
    destruct (Math_max (Object_keys (fiscalYears config))) as [|a] eqn:E.
    + apply Math_max_nil in E. apply elem_of_Object_keys in Hin.
      rewrite E in Hin. apply elem_of_nil in Hin. contradiction.
    + apply Math_max_Finite in E as [Ha Hle'].
      apply elem_of_Object_keys in Ha. apply elem_of_Object_keys in Hin.
      f_equal. apply Z.le_antisymm; [apply Hle, Ha | apply Hle', Hin].
Qed.

(** C4. [getTaxRates] returns the rates of the entry of the requested
    fiscal year when the table has one; otherwise the rates of the largest
    configured year when the requested year is beyond it; otherwise (no year
    is configured, or the requested year is not beyond the largest configured
    one) the default rates.  With 2026 as the only configured year, 2030 gets
    the rates of 2026 and 2015 the defaults. *)
Theorem getTaxRates_cases (config : FiscalDataConfig) (fiscalYear : Z) :
  (forall yearData,
      fiscalYears config !! fiscalYear = Some yearData ->
      getTaxRates config fiscalYear = taxRates yearData) /\
  (forall latestYear latestYearData,
      fiscalYears config !! fiscalYear = None ->
      fiscalYears config !! latestYear = Some latestYearData ->
      (forall k, is_Some (fiscalYears config !! k) -> k <= latestYear) ->
      latestYear < fiscalYear ->
      getTaxRates config fiscalYear = taxRates latestYearData) /\
  (fiscalYears config !! fiscalYear = None ->
   (forall latestYear,
       is_Some (fiscalYears config !! latestYear) ->
       (forall k, is_Some (fiscalYears config !! k) -> k <= latestYear) ->
       fiscalYear <= latestYear) ->
   getTaxRates config fiscalYear = defaults_taxRates (defaults config)) /\
  (forall data2026 : FiscalYearData,
      fiscalYears config = {[ 2026 := data2026 ]} ->
      getTaxRates config 2030 = taxRates data2026 /\
      getTaxRates config 2015 = defaults_taxRates (defaults config)).
Proof.
  assert (forall fy latestYear latestYearData,
             fiscalYears config !! fy = None ->
             fiscalYears config !! latestYear = Some latestYearData ->
             (forall k, is_Some (fiscalYears config !! k) -> k <= latestYear) ->
             getTaxRates config fy
             = if latestYear <? fy then taxRates latestYearData
               else defaults_taxRates (defaults config)) as Hlatest.
  { intros fy m d Hnone Hm Hmax. unfold getTaxRates. rewrite Hnone.
    assert (getLatestFiscalYear config = Finite m) as ->
      by (apply getLatestFiscalYear_Finite; eauto).
    rewrite Hm. reflexivity. }
  split; [|split; [|split]].
  - intros yearData H. unfold getTaxRates. rewrite H. reflexivity.
  - intros m d Hnone Hm Hmax Hlt. rewrite (Hlatest _ m d Hnone Hm Hmax).
    destruct (Z.ltb_spec m fiscalYear); [reflexivity | lia].
  - intros Hnone Hnot. unfold getTaxRates. rewrite Hnone.
    destruct (getLatestFiscalYear config) as [|m] eqn:E; [reflexivity|].
    apply getLatestFiscalYear_Finite in E as [Hm Hmax].
    specialize (Hnot m Hm Hmax).
    destruct (Z.ltb_spec m fiscalYear); [lia | reflexivity].
  - intros data2026 Hcfg.
    assert (forall k, is_Some (fiscalYears config !! k) -> k <= 2026) as Hmax.
    { intros k [v Hk]. rewrite Hcfg in Hk.
      apply lookup_singleton_Some in Hk as [<- _]. lia. }
    assert (fiscalYears config !! 2026 = Some data2026) as H2026
      by (rewrite Hcfg; apply lookup_singleton_eq).
    split.
    + rewrite (Hlatest 2030 2026 data2026); [reflexivity | | exact H2026 | exact Hmax].
      rewrite Hcfg. apply lookup_singleton_ne. lia.
    + rewrite (Hlatest 2015 2026 data2026); [reflexivity | | exact H2026 | exact Hmax].
      rewrite Hcfg. apply lookup_singleton_ne. lia.
Qed.

Lemma getTaxRates_cases_witness :
  getTaxRates example_config 2026 = taxRates example_2026 /\
  getTaxRates example_config 2030 = taxRates example_2026 /\
  getTaxRates example_config 2015 = defaults_taxRates example_defaults /\
  getTaxRates {| fiscalYears := {[ 2026 := example_2026 ]};
                 defaults := example_defaults |} 2030 = taxRates example_2026.
Proof.
  assert (forall k, is_Some (fiscalYears example_config !! k) -> k <= 2026) as Hmax.
  { intros k [v Hk]. cbn [fiscalYears example_config] in Hk.
    apply lookup_insert_Some in Hk as [[<- _]|[_ Hk]]; [lia|].
    apply lookup_singleton_Some in Hk as [<- _]. lia. }
  destruct (getTaxRates_cases example_config 2026) as (Hexact & _).
  destruct (getTaxRates_cases example_config 2030) as (_ & Hforward & _).
  destruct (getTaxRates_cases example_config 2015) as (_ & _ & Hpast & _).
  destruct (getTaxRates_cases
              {| fiscalYears := {[ 2026 := example_2026 ]};
                 defaults := example_defaults |} 0) as (_ & _ & _ & Honly).
  split; [|split; [|split]].
  - exact (Hexact example_2026 eq_refl).
  - apply (Hforward 2026 example_2026); [reflexivity | reflexivity | exact Hmax | lia].
  - apply Hpast; [reflexivity|].
    intros m [v Hm] _. cbn [fiscalYears example_config] in Hm.
    apply lookup_insert_Some in Hm as [[<- _]|[_ Hm]]; [lia|].
    apply lookup_singleton_Some in Hm as [<- _]. lia.
  - apply (Honly example_2026 eq_refl).
Defined.

End TaxRateClaims.

(* ===================================================================== *)
(** * Merge priority and text normalisation                               *)
(* ===================================================================== *)

Section MergeClaims.
Import EGISClient.

(** [isValid] is the presence test: not null, not undefined and not the
    empty string. *)
Lemma isValid_present v :
  isValid v = true <-> v <> Null /\ v <> Undefined /\ v <> Str EmptyString.
Proof.
  destruct v as [| |n|s]; cbn [isValid].
  - split; [discriminate | intros (H & _); congruence].
  - split; [discriminate | intros (_ & H & _); congruence].
  - split; [intros _; repeat split; discriminate | reflexivity].
  - destruct (String.eqb_spec s EmptyString) as [->|Hne]; cbn [negb].
    + split; [discriminate | intros (_ & _ & H); congruence].
    + split; [intros _; repeat split; congruence | reflexivity].
Qed.

(** C7. [prioritizeValue] returns the residential value when it is present
    (not null, not undefined and not the empty string; the number zero is
    present), otherwise the condo value when that is present, and otherwise
    [undefined].  In the merged record, an empty residential foundation and a
    condo foundation "Brick" give "Brick", and a residential foundation
    "Concrete" gives "Concrete" whatever the condo row holds. *)
Theorem prioritizeValue_priority (residentialValue condoValue : AttrValue) :
  (residentialValue <> Null /\ residentialValue <> Undefined /\ residentialValue <> Str EmptyString ->
   prioritizeValue residentialValue condoValue = residentialValue) /\
  (~ (residentialValue <> Null /\ residentialValue <> Undefined /\ residentialValue <> Str EmptyString) ->
   condoValue <> Null /\ condoValue <> Undefined /\ condoValue <> Str EmptyString ->
   prioritizeValue residentialValue condoValue = condoValue) /\
  (~ (residentialValue <> Null /\ residentialValue <> Undefined /\ residentialValue <> Str EmptyString) ->
   ~ (condoValue <> Null /\ condoValue <> Undefined /\ condoValue <> Str EmptyString) ->
   prioritizeValue residentialValue condoValue = Undefined) /\
  prioritizeValue (Num 0) condoValue = Num 0 /\
  (forall primaryResidentialAttrs condoAttrs : gmap string AttrValue,
      primaryResidentialAttrs !! "foundation" = Some (Str EmptyString) ->
      condoAttrs !! "foundation" = Some (Str "Brick") ->
      merged_foundation primaryResidentialAttrs condoAttrs = Str "Brick") /\
  (forall primaryResidentialAttrs condoAttrs : gmap string AttrValue,
      primaryResidentialAttrs !! "foundation" = Some (Str "Concrete") ->
      merged_foundation primaryResidentialAttrs condoAttrs = Str "Concrete").
Proof.
  unfold prioritizeValue.
  split; [|split; [|split; [|split; [|split]]]].
  - intros H. apply isValid_present in H. rewrite H. reflexivity.
  - intros Hr Hc. rewrite <- isValid_present in Hr, Hc.
    apply not_true_is_false in Hr. rewrite Hr, Hc. reflexivity.
  - intros Hr Hc. rewrite <- isValid_present in Hr, Hc.
    apply not_true_is_false in Hr. apply not_true_is_false in Hc.
    rewrite Hr, Hc. reflexivity.
  - reflexivity.
  - intros res condo Hres Hcondo. unfold merged_foundation, attr.
    rewrite Hres, Hcondo. reflexivity.
  - intros res condo Hres. unfold merged_foundation, attr.
    rewrite Hres. reflexivity.
Qed.

Lemma prioritizeValue_priority_witness :
  prioritizeValue (Num 0) (Num 3) = Num 0 /\
  prioritizeValue (Str EmptyString) (Str "Brick") = Str "Brick" /\
  prioritizeValue Null (Str EmptyString) = Undefined /\
  merged_foundation {[ "foundation" := Str EmptyString ]} {[ "foundation" := Str "Brick" ]}
  = Str "Brick" /\
  merged_foundation {[ "foundation" := Str "Concrete" ]} {[ "foundation" := Str "Brick" ]}
  = Str "Concrete".
Proof.
  destruct (prioritizeValue_priority (Num 0) (Num 3)) as (Hres & _).
  destruct (prioritizeValue_priority (Str EmptyString) (Str "Brick"))
    as (_ & Hcondo & _ & _ & Hbrick & Hconcrete).
  destruct (prioritizeValue_priority Null (Str EmptyString)) as (_ & _ & Hnone & _).
  split; [|split; [|split; [|split]]].
  - apply Hres. repeat split; discriminate.
  - apply Hcondo; [intros (_ & _ & H); congruence | repeat split; discriminate].
  - apply Hnone; [intros (H & _); congruence | intros (_ & _ & H); congruence].
  - apply Hbrick; reflexivity.
  - apply Hconcrete; reflexivity.
Defined.

(** C8.  [parseAfterDash] cuts at the first " - " ([indexOf]), not at the
    last one: of "A - B - C" it keeps "B - C", where the text after the last
    separator (at index 5) is "C".  With one separator, with none, and on
    null, undefined and the empty string it does what its comment says. *)
Theorem parseAfterDash_cuts_at_first_separator :
  indexOf "A - B - C" " - " = 1 /\
  parseAfterDash (Str "A - B - C") = "B - C" /\
  toProperCase (Str (trim (slice "A - B - C" (5 + 3)))) = "C" /\
  parseAfterDash (Str "A - B - C") <> "C" /\
  parseAfterDash (Str "R1 - residential one family") = "Residential One Family" /\
  parseAfterDash (Str "  brick veneer ") = "Brick Veneer" /\
  parseAfterDash Null = EmptyString /\
  parseAfterDash Undefined = EmptyString /\
  parseAfterDash (Str EmptyString) = EmptyString.
Proof. repeat split; try reflexivity. discriminate. Qed.

End MergeClaims.

(* ===================================================================== *)
(** * Paginated fetch                                                     *)
(* ===================================================================== *)

Section FetchClaims.
Import EGISClient.

Lemma push_batches_app {A : Type} (n : nat) (features allFeatures : list A) :
  (length features <= n)%nat -> push_batches n features allFeatures = allFeatures ++ features.
Proof.
  revert features allFeatures.
  induction n as [|n IH]; intros features allFeatures Hn.
  - destruct features; [|cbn in Hn; lia]. cbn. rewrite app_nil_r. reflexivity.
  - destruct features as [|f features]; [cbn; rewrite app_nil_r; reflexivity|].
    cbn [push_batches]. rewrite IH.
    + rewrite <- app_assoc, firstn_skipn. reflexivity.
    + rewrite length_skipn. unfold batchSize. cbn [length] in *. lia.
Qed.

(** An attempt that is answered at once by an ok response with body [data]
    ends the retry loop after one request. *)
Lemma fetchWithRetries_ok fullUrl data rest log :
  interp_state serve (fetchWithRetries fullUrl)
    {| script := OkJson data :: rest; requested := log |}
  ≈ Ret ({| script := rest; requested := log ++ [fullUrl] |}, inr (Some true, data)).
Proof.
  unfold fetchWithRetries. rewrite unfold_iter. cbn.
  rewrite bind_bind, interp_state_bind, interp_state_trigger. cbn.
  rewrite !bind_ret_l. cbn.
  rewrite interp_state_bind, interp_state_ret, bind_ret_l. cbn.
  rewrite interp_state_ret. reflexivity.
Qed.

Lemma pageUrl_eq (url query : string) (resultOffset : Z) :
  (url ++ "/query" ++ (query ++ "&resultOffset=" ++ pretty resultOffset
                             ++ "&resultRecordCount=" ++ pretty recordCount))%string
  = pageUrl url query resultOffset.
Proof. reflexivity. Qed.

(** One round of the page loop on a page that is answered at once. *)
Lemma pageRound_ok url query allFeatures resultOffset requestCount page rest log :
  default [] (features page) <> [] ->
  interp_state serve (pageRound url query (allFeatures, resultOffset, requestCount))
    {| script := OkJson (Some page) :: rest; requested := log |}
  ≈ Ret ({| script := rest; requested := log ++ [pageUrl url query resultOffset] |},
         if negb (default false (exceededTransferLimit page))
         then inr (inr (allFeatures ++ default [] (features page)))
         else inl (allFeatures ++ default [] (features page),
                   resultOffset + Z.of_nat (length (default [] (features page))),
                   requestCount + 1)).
Proof.
  intros Hne. unfold pageRound. cbv zeta. rewrite pageUrl_eq.
  rewrite interp_state_bind, fetchWithRetries_ok, bind_ret_l.
  cbn -[pageUrl push_batches].
  destruct (default [] (features page)) as [|f fs] eqn:E; [congruence|].
  cbn [length Nat2Z.inj_succ]. rewrite Nat2Z.inj_succ.
  destruct (Z.eqb_spec (Z.succ (Z.of_nat (length fs))) 0) as [H0|_]; [lia|].
  rewrite push_batches_app by reflexivity.
  destruct (negb (default false (exceededTransferLimit page)));
    rewrite interp_state_ret; reflexivity.
Qed.

(** The page loop, started in any state, on [pages] that report more data
    followed by a page [last] that does not. *)
Lemma pageLoop_pages url query pages :
  forall allFeatures resultOffset requestCount log last rest,
    Forall (fun p => default [] (features p) <> [] /\
                     default false (exceededTransferLimit p) = true) pages ->
    default [] (features last) <> [] ->
    default false (exceededTransferLimit last) = false ->
    interp_state serve
      (ITree.iter (pageRound url query) (allFeatures, resultOffset, requestCount))
      {| script := List.map (fun p => OkJson (Some p)) (pages ++ [last]) ++ rest;
         requested := log |}
    ≈ Ret ({| script := rest;
              requested := log ++ List.map (pageUrl url query)
                                      (pageOffsets resultOffset (pages ++ [last])) |},
           inr (allFeatures
                ++ concat (List.map (fun p => default [] (features p)) (pages ++ [last])))).
Proof.
  induction pages as [|page pages IH];
    intros allFeatures resultOffset requestCount log last rest Hpages Hlast Hstop.
  - cbn [app List.map pageOffsets concat].
    rewrite unfold_iter, interp_state_bind, pageRound_ok by exact Hlast.
    rewrite bind_ret_l, Hstop. cbn [negb fst snd].
    rewrite interp_state_ret, app_nil_r. reflexivity.
  - apply Forall_cons in Hpages as [[Hne Hmore] Hpages].
    cbn [app List.map pageOffsets concat].
    rewrite unfold_iter, interp_state_bind, pageRound_ok by exact Hne.
    rewrite bind_ret_l, Hmore. cbn [negb fst snd].
    rewrite interp_state_tau, tau_eutt.
    rewrite IH by assumption.
    rewrite <- !app_assoc. reflexivity.
Qed.

Lemma pageOffsets_length resultOffset pages :
  length (pageOffsets resultOffset pages) = length pages.
Proof.
  revert resultOffset. induction pages as [|p pages IH]; intros resultOffset;
    [reflexivity|]. cbn [pageOffsets length]. rewrite IH. reflexivity.
Qed.

Lemma pageOffsets_lower resultOffset pages :
  Forall (fun x => resultOffset <= x) (pageOffsets resultOffset pages).
Proof.
  revert resultOffset. induction pages as [|p pages IH]; intros resultOffset;
    cbn [pageOffsets]; [constructor|].
  constructor; [lia|].
  eapply Forall_impl; [apply IH|]. cbn. intros x Hx. lia.
Qed.

(** Offsets grow strictly along pages that are not empty. *)
Lemma pageOffsets_increasing resultOffset pages :
  Forall (fun p => default [] (features p) <> []) pages ->
  StronglySorted Z.lt (pageOffsets resultOffset pages).
Proof.
  revert resultOffset. induction pages as [|p pages IH]; intros resultOffset Hne;
    cbn [pageOffsets]; [constructor|]. constructor.
  - apply IH. apply Forall_cons in Hne as [_ Hne]. exact Hne.
  - apply Forall_cons in Hne as [Hp _].
    eapply Forall_impl; [apply pageOffsets_lower|]. cbn. intros x Hx.
    destruct (default [] (features p)); [congruence|]. cbn [length] in Hx. lia.
Qed.

(** C9.  Against a server that answers the first [k] page requests with
    pages that are not empty and report [exceededTransferLimit = true], and
    the next one with a page that is not empty and does not report it,
    [fetchEGISData] returns, having issued exactly [k + 1] requests, at the
    offsets 0, the size of the first page, the size of the first two pages,
    and so on (strictly increasing); it returns the features of all these
    pages in page order, and it leaves the rest of the server's script
    untouched: the loop ends at the first page without the flag. *)
Theorem fetchEGISData_pagination
    (url query : string) (pages : list EGISQueryResponse) (last : EGISQueryResponse)
    (rest : list FetchResult) :
  Forall (fun p => default [] (features p) <> [] /\
                   exceededTransferLimit p = Some true) pages ->
  default [] (features last) <> [] ->
  exceededTransferLimit last = None \/ exceededTransferLimit last = Some false ->
  interp_state serve (fetchEGISData url query)
    {| script := List.map (fun p => OkJson (Some p)) (pages ++ [last]) ++ rest;
       requested := [] |}
  ≈ Ret ({| script := rest;
            requested := List.map (pageUrl url query)
                                  (pageOffsets 0 (pages ++ [last])) |},
         inr (concat (List.map (fun p => default [] (features p)) (pages ++ [last])))) /\
  length (List.map (pageUrl url query) (pageOffsets 0 (pages ++ [last])))
  = S (length pages) /\
  StronglySorted Z.lt (pageOffsets 0 (pages ++ [last])).
Proof.
  intros Hpages Hlast Hstop. split; [|split].
  - unfold fetchEGISData.
    rewrite (pageLoop_pages url query pages [] 0 0 [] last rest).
    + reflexivity.
    + eapply Forall_impl; [exact Hpages|]. cbn. intros p [Hne ->]. auto.
    + exact Hlast.
    + destruct Hstop as [-> | ->]; reflexivity.
  - rewrite length_map, pageOffsets_length, length_app. cbn [length]. lia.
  - apply pageOffsets_increasing, Forall_app. split.
    + eapply Forall_impl; [exact Hpages|]. cbn. intros p [Hne _]. exact Hne.
    + constructor; [exact Hlast | constructor].
Qed.

Lemma fetchEGISData_pagination_witness :
  interp_state serve (fetchEGISData "layer" "?where=1=1&f=json")
    {| script :=
         [OkJson (Some {| features :=
                            Some [ {| attributes := {[ "parcel_id" := Str "0100001000" ]};
                                      geometry := None |};
                                   {| attributes := {[ "parcel_id" := Str "0100002000" ]};
                                      geometry := None |} ];
                          exceededTransferLimit := Some true |});
          OkJson (Some {| features :=
                            Some [ {| attributes := {[ "parcel_id" := Str "0100003000" ]};
                                      geometry := None |} ];
                          exceededTransferLimit := Some true |});
          OkJson (Some {| features :=
                            Some [ {| attributes := {[ "parcel_id" := Str "0100004000" ]};
                                      geometry := None |} ];
                          exceededTransferLimit := Some false |})];
       requested := [] |}
  ≈ Ret ({| script := [];
            requested :=
              ["layer/query?where=1=1&f=json&resultOffset=0&resultRecordCount=1000";
               "layer/query?where=1=1&f=json&resultOffset=2&resultRecordCount=1000";
               "layer/query?where=1=1&f=json&resultOffset=3&resultRecordCount=1000"]%string |},
         inr [ {| attributes := {[ "parcel_id" := Str "0100001000" ]}; geometry := None |};
               {| attributes := {[ "parcel_id" := Str "0100002000" ]}; geometry := None |};
               {| attributes := {[ "parcel_id" := Str "0100003000" ]}; geometry := None |};
               {| attributes := {[ "parcel_id" := Str "0100004000" ]}; geometry := None |} ]).
Proof.
  refine (proj1 (fetchEGISData_pagination "layer" "?where=1=1&f=json"
            [ {| features := Some [_; _]; exceededTransferLimit := Some true |};
              {| features := Some [_]; exceededTransferLimit := Some true |} ]
            {| features := Some [_]; exceededTransferLimit := Some false |}
            [] _ _ _)).
  - repeat constructor; discriminate.
  - discriminate.
  - right. reflexivity.
Defined.

End FetchClaims.

(* ===================================================================== *)
(** * The timeline of a year and the phases of its dates                  *)
(* ===================================================================== *)

Section TimelineProperties.
Import JS Periods Timepoints.

Ltac compare_times :=
  repeat match goal with
    | |- context [?a <? ?b] => destruct (Z.ltb_spec a b); try lia
    | |- context [?a <=? ?b] => destruct (Z.leb_spec a b); try lia
    end.

(** The anchors of a year whose dates are representable, as day numbers:
    with [D] the day of the first of January and [l] the leap day of the
    year, the abatement deadline is the day [D + 31 + k] and the exemption
    deadline the day [D + 90 + l + k'], where [k] and [k'] are the moves to
    the next Monday. *)
Lemma anchor_days y :
  -271820 <= y <= 275760 ->
  exists D l k k',
    D = DayFromYear (MakeFullYear y) /\ l = LeapDays (MakeFullYear y) /\
    -99999744 <= D <= 99999744 /\ 0 <= l <= 1 /\ 0 <= k <= 2 /\ 0 <= k' <= 2 /\
    getDate NEW_APPLICATION_PERIOD_BEGINS (Int y) = TimeValue (msPerDay * D) /\
    getDate ABATEMENT_APPLICATION_DEADLINE (Int y)
    = TimeValue (msPerDay * (D + 31 + k)) /\
    getDate ABATEMENT_GRACE_PERIOD_DEADLINE (Int y)
    = TimeValue (msPerDay * (D + 31 + k + 28)) /\
    getDate EXEMPTIONS_IN_PROGRESS (Int y) = TimeValue (msPerDay * (D + 59 + l)) /\
    getDate EXEMPTION_APPLICATION_DEADLINE (Int y)
    = TimeValue (msPerDay * (D + 90 + l + k')) /\
    getDate EXEMPTION_APPLICATION_DEADLINE_DATE (Int y)
    = TimeValue (msPerDay * (D + 90 + l + k')) /\
    getDate NEW_FY_PRELIMINARY_TAX_PERIOD_BEGINS (Int y)
    = TimeValue (msPerDay * (D + 181 + l)).
Proof.
  intros Hy.
  pose proof (DayFromYear_range _ (MakeFullYear_range y Hy)) as HD.
  pose proof (LeapDays_cases (MakeFullYear y)) as Hl.
  cbn [getDate NEW_APPLICATION_PERIOD_BEGINS ABATEMENT_APPLICATION_DEADLINE
       ABATEMENT_GRACE_PERIOD_DEADLINE EXEMPTIONS_IN_PROGRESS
       EXEMPTION_APPLICATION_DEADLINE EXEMPTION_APPLICATION_DEADLINE_DATE
       NEW_FY_PRELIMINARY_TAX_PERIOD_BEGINS].
  cbv zeta. rewrite !new_Date_first by lia.
  rewrite monthStart_0, monthStart_1, monthStart_2, monthStart_3, monthStart_6.
  set (D := DayFromYear (MakeFullYear y)) in *.
  set (l := LeapDays (MakeFullYear y)) in *.
  rewrite !TimeClip_day by lia.
  destruct (getNextMonday_day (D + 31)) as (k & Hk & ->); [lia|].
  destruct (getNextMonday_day (D + (90 + l))) as (k' & Hk' & ->); [lia|].
  rewrite setDate_shift, TimeClip_day_shift by lia.
  exists D, l, k, k'.
  repeat (split; [first [reflexivity | lia | f_equal; f_equal; lia]|]).
  f_equal; f_equal; lia.
Qed.

Lemma getCurrentPeriod_loop_Some d prev rest period :
  getCurrentPeriod_loop d prev rest = Some period ->
  exists i tp,
    rest !! i = Some tp /\ to period = Some tp /\
    from period = match i with O => prev | S i' => rest !! i' end /\
    date_ltb d (date tp) = true /\
    forall j tq, (j < i)%nat -> rest !! j = Some tq -> date_ltb d (date tq) = false.
Proof.
  revert prev. induction rest as [|tp rest IH]; intros prev; [discriminate|].
  cbn [getCurrentPeriod_loop]. destruct (date_ltb d (date tp)) eqn:E.
  - intros [= <-]. exists O, tp. repeat split; try assumption. intros j tq Hj. lia.
  - intros H. destruct (IH _ H) as (i & tq & Hi & Hto & Hfrom & Hlt & Hbefore).
    exists (S i), tq. split; [exact Hi|]. split; [exact Hto|].
    split; [|split; [exact Hlt|]].
    + rewrite Hfrom. destruct i; reflexivity.
    + intros j tr Hj. destruct j as [|j]; cbn.
      * intros [= <-]. exact E.
      * apply Hbefore. lia.
Qed.

Lemma getCurrentPeriod_loop_None d prev rest :
  getCurrentPeriod_loop d prev rest = None ->
  forall j tq, rest !! j = Some tq -> date_ltb d (date tq) = false.
Proof.
  revert prev. induction rest as [|tp rest IH]; intros prev; cbn [getCurrentPeriod_loop].
  - intros _ j tq. rewrite lookup_nil. discriminate.
  - destruct (date_ltb d (date tp)) eqn:E; [discriminate|].
    intros H j tq. destruct j as [|j]; cbn.
    + intros [= <-]. exact E.
    + apply (IH _ H).
Qed.

(** Between two dates that are not invalid, [a < b] fails exactly when
    [b <= a] holds. *)
Lemma date_ltb_false a b :
  a <> InvalidDate -> b <> InvalidDate -> date_ltb a b = false -> date_leb b a = true.
Proof.
  destruct a as [|x], b as [|z]; try congruence. intros _ _. cbn.
  intros H. apply Z.ltb_ge in H. apply Z.leb_le. lia.
Qed.

(** X1. [getCurrentPeriod] returns two neighbours of the array: [to] is the
    first element after the one at index 0 that lies strictly after the date,
    and [from] the element before it; when no such element exists, [to] is
    null and [from] is the last element.  When no date is invalid and the date
    is not before the first element, the period holds the date
    ([from.date <= date < to.date]), whether the array is sorted or not. *)
Theorem getCurrentPeriod_bracket (t : Z) (timepoints : list Timepoint) :
  let period := getCurrentPeriod (TimeValue t) timepoints in
  (forall tp,
      to period = Some tp ->
      exists i,
        timepoints !! S i = Some tp /\ from period = timepoints !! i /\
        date_ltb (TimeValue t) (date tp) = true /\
        forall j tq, (1 <= j <= i)%nat -> timepoints !! j = Some tq ->
                     date_ltb (TimeValue t) (date tq) = false) /\
  (to period = None ->
   from period = last timepoints /\
   forall j tq, (1 <= j)%nat -> timepoints !! j = Some tq ->
                date_ltb (TimeValue t) (date tq) = false) /\
  (Forall (fun tp => date tp <> InvalidDate) timepoints ->
   forall first,
     head timepoints = Some first ->
     date_leb (date first) (TimeValue t) = true ->
     exists f, from period = Some f /\ date_leb (date f) (TimeValue t) = true).
Proof.
  cbv zeta. unfold getCurrentPeriod.
  destruct (getCurrentPeriod_loop (TimeValue t) (head timepoints) (tail timepoints))
    as [period|] eqn:E.
  - destruct (getCurrentPeriod_loop_Some _ _ _ _ E)
      as (i & tp & Hi & Hto & Hfrom & Hlt & Hbefore).
    assert (forall j, tail timepoints !! j = timepoints !! S j) as Htail
      by (intros j; destruct timepoints; [rewrite !lookup_nil|]; reflexivity).
    assert (from period = timepoints !! i) as Hfrom'.
    { rewrite Hfrom. destruct i as [|i]; [|apply Htail].
      destruct timepoints; reflexivity. }
    split; [|split].
    + intros tq. rewrite Hto. intros [= <-]. exists i.
      rewrite <- Htail. repeat split; try assumption.
      intros j tq [Hj1 Hj2]. destruct j as [|j]; [lia|].
      rewrite <- Htail. apply Hbefore. lia.
    + rewrite Hto. discriminate.
    + intros Hvalid first Hfirst Hle. rewrite Hfrom'.
      destruct i as [|i].
      * exists first. split; [|exact Hle]. destruct timepoints; [discriminate|].
        cbn in *. congruence.
      * destruct (timepoints !! S i) as [f|] eqn:Ef.
        -- exists f. split; [reflexivity|].
           apply date_ltb_false; [discriminate| |].
           ++ rewrite Forall_forall in Hvalid. apply Hvalid.
              eapply list_elem_of_lookup_2. exact Ef.
           ++ rewrite <- Htail in Ef. apply (Hbefore i f); [lia | exact Ef].
        -- rewrite <- Htail in Ef. apply lookup_lt_Some in Hi.
           apply lookup_ge_None in Ef. lia.
  - pose proof (getCurrentPeriod_loop_None _ _ _ E) as Hnone.
    cbn [from to]. split; [discriminate|]. split.
    + intros _. split; [reflexivity|].
      intros j tq Hj. destruct j as [|j]; [lia|].
      destruct timepoints as [|tp0 tps]; [rewrite lookup_nil; discriminate|].
      cbn. apply Hnone.
    + intros Hvalid first Hfirst Hle.
      destruct timepoints as [|tp0 tps]; [discriminate|].
      cbn in Hfirst. injection Hfirst as ->.
      destruct (last (first :: tps)) as [f|] eqn:Ef.
      * exists f. split; [reflexivity|].
        rewrite last_lookup in Ef. cbn [length Nat.pred] in Ef.
        destruct tps as [|tp1 tps'].
        -- cbn in Ef. injection Ef as <-. exact Hle.
        -- apply date_ltb_false; [discriminate| |].
           ++ rewrite Forall_forall in Hvalid. apply Hvalid.
              eapply list_elem_of_lookup_2. exact Ef.
           ++ cbn [length] in Ef. apply (Hnone (length tps') f). exact Ef.
      * rewrite last_None in Ef. discriminate.
Qed.

Lemma getCurrentPeriod_bracket_witness :
  exists f,
    from (getCurrentPeriod (TimeValue 1773532800000) (getAllTimepoints (Int 2026)))
    = Some f /\
    date_leb (date f) (TimeValue 1773532800000) = true.
Proof.
  destruct (getCurrentPeriod_bracket 1773532800000 (getAllTimepoints (Int 2026)))
    as (_ & _ & H).
  apply (H ltac:(repeat constructor; vm_compute; discriminate)
           {| label := Periods.label NEW_APPLICATION_PERIOD_BEGINS;
              date := getDate NEW_APPLICATION_PERIOD_BEGINS (Int 2026) |}
           eq_refl eq_refl).
Defined.

(** X2. Over the timeline of a year with representable dates: a date before
    the first of January is reported in the first period (first of January to
    abatement deadline) although it lies before it; a date from the first of
    January up to the first of July lies within the period returned; from the
    first of July on the period starts at the first of July and is open
    ([to] is null). *)
Theorem getCurrentPeriod_of_year (y t : Z) :
  -271820 <= y <= 275760 ->
  let timepoints := getAllTimepoints (Int y) in
  let period := getCurrentPeriod (TimeValue t) timepoints in
  exists jan1 july1,
    getDate NEW_APPLICATION_PERIOD_BEGINS (Int y) = TimeValue jan1 /\
    getDate NEW_FY_PRELIMINARY_TAX_PERIOD_BEGINS (Int y) = TimeValue july1 /\
    jan1 < july1 /\
    (t < jan1 ->
     from period = timepoints !! 0%nat /\ to period = timepoints !! 1%nat) /\
    (jan1 <= t < july1 ->
     exists f tp a b,
       from period = Some f /\ to period = Some tp /\
       date f = TimeValue a /\ date tp = TimeValue b /\ a <= t < b) /\
    (july1 <= t ->
     from period = timepoints !! 5%nat /\ to period = None).
Proof.
  intros Hy. cbv zeta.
  destruct (anchor_days y Hy)
    as (D & l & k & k' & _ & _ & HD & Hl & Hk & Hk' & E0 & E1 & E2 & E3 & E4 & _ & E5).
  exists (msPerDay * D), (msPerDay * (D + 181 + l)).
  split; [exact E0|]. split; [exact E5|]. split; [unfold msPerDay; lia|].
  unfold getCurrentPeriod, getAllTimepoints.
  rewrite E0, E1, E2, E3, E4, E5.
  cbn [head tail getCurrentPeriod_loop date date_ltb lookup list_lookup].
  unfold msPerDay. split; [|split].
  - intros H. compare_times. split; reflexivity.
  - intros H. compare_times; cbn [from to];
      eexists _, _, _, _;
      (split; [reflexivity|]; split; [reflexivity|]; split; [reflexivity|];
       split; [reflexivity|]; cbn [date]; lia).
  - intros H. compare_times. split; reflexivity.
Qed.

Lemma getCurrentPeriod_of_year_witness :
  getCurrentPeriod (TimeValue 1773532800000) (getAllTimepoints (Int 2026))
  = {| from := getAllTimepoints (Int 2026) !! 3%nat;
       to := getAllTimepoints (Int 2026) !! 4%nat |} /\
  to (getCurrentPeriod (TimeValue 1782864000000) (getAllTimepoints (Int 2026))) = None.
Proof.
  destruct (getCurrentPeriod_of_year 2026 1782864000000 ltac:(lia))
    as (jan1 & july1 & H1 & H2 & _ & _ & _ & Hopen).
  vm_compute in H2. injection H2 as <-.
  split; [reflexivity|]. apply Hopen. lia.
Defined.

(** The first of January that [getExemptionPhase] takes for the next year
    lies after the first of July of the year, except for the year 99, whose
    successor 100 is not read as a year of the twentieth century. *)
Lemma next_year_days y :
  -271820 <= y <= 275759 -> y <> 99 ->
  exists D',
    getDate NEW_APPLICATION_PERIOD_BEGINS (num_add (Int y) (Int 1))
    = TimeValue (msPerDay * D') /\
    DayFromYear (MakeFullYear y) + 365 + LeapDays (MakeFullYear y) <= D'.
Proof.
  intros Hy H99.
  cbn [num_add getDate NEW_APPLICATION_PERIOD_BEGINS].
  rewrite new_Date_first by lia. rewrite monthStart_0, Z.add_0_r.
  assert (-271820 <= MakeFullYear (y + 1) <= 275760) as Hnext
    by (apply MakeFullYear_range; lia).
  pose proof (DayFromYear_range _ Hnext) as HD'.
  rewrite TimeClip_day by lia.
  exists (DayFromYear (MakeFullYear (y + 1))). split; [reflexivity|].
  assert (MakeFullYear y + 1 <= MakeFullYear (y + 1)) as Hle.
  { unfold MakeFullYear.
    destruct (Z.leb_spec 0 y); destruct (Z.leb_spec y 99);
      destruct (Z.leb_spec 0 (y + 1)); destruct (Z.leb_spec (y + 1) 99); simpl; lia. }
  pose proof (DayFromYear_mono _ _ Hle) as Hmono.
  rewrite DayFromYear_succ, DaysInYear_LeapDays in Hmono. lia.
Qed.

(** X3. The windows of [getExemptionPhase].  For a year [y] with
    representable dates, other than 99, the anchors are ordered
    [jan1 < deadline < july1 < nextJan1] and cut the time line into five
    windows: [before_jan1] before the first of January, [open] up to the
    deadline, [after_deadline] up to the first of July, [preliminary] up to
    the next first of January, and from then on the final branch, which
    answers [before_jan1] with an empty message and no deadline.  An invalid
    date takes the final branch as well. *)
Theorem getExemptionPhase_windows (y : Z) (opts : ExemptionOpts) :
  -271820 <= y <= 275759 -> y <> 99 ->
  exists jan1 deadline' july1 nextJan1,
    getDate NEW_APPLICATION_PERIOD_BEGINS (Int y) = TimeValue jan1 /\
    getDate EXEMPTION_APPLICATION_DEADLINE_DATE (Int y) = TimeValue deadline' /\
    getDate NEW_FY_PRELIMINARY_TAX_PERIOD_BEGINS (Int y) = TimeValue july1 /\
    getDate NEW_APPLICATION_PERIOD_BEGINS (num_add (Int y) (Int 1)) = TimeValue nextJan1 /\
    jan1 < deadline' < july1 /\ july1 < nextJan1 /\
    (forall t,
        (t < jan1 ->
         phase (getExemptionPhase (TimeValue t) (Int y) opts) = before_jan1 /\
         deadline (getExemptionPhase (TimeValue t) (Int y) opts) = None /\
         message (getExemptionPhase (TimeValue t) (Int y) opts) <> Literal EmptyString) /\
        (jan1 <= t <= deadline' ->
         phase (getExemptionPhase (TimeValue t) (Int y) opts) = open) /\
        (deadline' < t < july1 ->
         phase (getExemptionPhase (TimeValue t) (Int y) opts) = after_deadline) /\
        (july1 <= t < nextJan1 ->
         phase (getExemptionPhase (TimeValue t) (Int y) opts) = preliminary /\
         deadline (getExemptionPhase (TimeValue t) (Int y) opts)
         = Some (TimeValue deadline')) /\
        (nextJan1 <= t ->
         getExemptionPhase (TimeValue t) (Int y) opts
         = {| phase := before_jan1; message := Literal EmptyString; deadline := None |})) /\
    getExemptionPhase InvalidDate (Int y) opts
    = {| phase := before_jan1; message := Literal EmptyString; deadline := None |}.
Proof.
  intros Hy H99.
  destruct (anchor_days y ltac:(lia))
    as (D & l & k & k' & -> & -> & HD & Hl & Hk & Hk' & E0 & _ & _ & _ & _ & E4 & E5).
  destruct (next_year_days y Hy H99) as (D' & E6 & HD').
  set (D := DayFromYear (MakeFullYear y)) in *.
  set (l := LeapDays (MakeFullYear y)) in *.
  exists (msPerDay * D), (msPerDay * (D + 90 + l + k')),
         (msPerDay * (D + 181 + l)), (msPerDay * D').
  split; [exact E0|]. split; [exact E4|]. split; [exact E5|]. split; [exact E6|].
  split; [unfold msPerDay; lia|]. split; [unfold msPerDay; lia|].
  unfold getExemptionPhase. cbv zeta. rewrite E0, E4, E5, E6.
  cbn [date_ltb date_leb date_geb]. unfold msPerDay.
  split; [|reflexivity].
  intros t. split; [|split; [|split; [|split]]]; intros H; compare_times;
    cbn [phase deadline message andb]; try reflexivity.
  - repeat split. discriminate.
  - split; reflexivity.
Qed.

Lemma getExemptionPhase_windows_witness :
  phase (getExemptionPhase (TimeValue 1782864000000) (Int 2026)
           {| grantedCount := Int 0; type := Personal |}) = preliminary /\
  getExemptionPhase (TimeValue 1798761600000) (Int 2026)
    {| grantedCount := Int 0; type := Personal |}
  = {| phase := before_jan1; message := Literal EmptyString; deadline := None |}.
Proof.
  destruct (getExemptionPhase_windows 2026 {| grantedCount := Int 0; type := Personal |})
    as (jan1 & dl & july1 & nextJan1 & H1 & H2 & H3 & H4 & _ & _ & Hw & _);
    [lia | lia |].
  vm_compute in H3, H4. injection H3 as <-. injection H4 as <-.
  destruct (Hw 1782864000000) as (_ & _ & _ & Hprelim & _).
  destruct (Hw 1798761600000) as (_ & _ & _ & _ & Hafter).
  split.
  - apply Hprelim. lia.
  - apply Hafter. lia.
Defined.

(** X4. The preliminary phase of abatements is the first half of the next
    fiscal year: for a date whose year is not one of 0..99 (and is neither the
    first nor the last year with representable dates), [getAbatementPhase]
    answers [preliminary] exactly when [getFiscalYear] answers the year after
    the calendar year of the date. *)
Theorem getAbatementPhase_preliminary_iff_next_fiscal_year
    (t : Z) (year : number) (parcelId : option string) :
  -271820 <= YearFromTime t <= 275759 ->
  ~ (0 <= YearFromTime t <= 99) ->
  (phase (getAbatementPhase (TimeValue t) year parcelId) = preliminary <->
   getFiscalYear (TimeValue t) = num_add (Date_getFullYear (TimeValue t)) (Int 1)).
Proof.
  intros Hrange Hcentury.
  pose proof (YearFromTime_Day t) as [Hlo Hhi].
  pose proof (InLeapYear_cases t) as Hleap.
  pose proof (MonthFromTime_first_half t (InLeapYear t) eq_refl) as Hfirst.
  pose proof (MonthFromTime_second_half t (InLeapYear t) eq_refl) as Hsecond.
  unfold DayWithinYear in Hfirst, Hsecond. unfold InLeapYear in *.
  apply Day_le in Hlo as Hlo'. apply Day_lt in Hhi as Hhi'.
  unfold getFiscalYear, getAbatementPhase. cbv zeta.
  cbn [Date_getFullYear Date_getMonth num_add num_geb]. unfold LocalTime.
  set (Y := YearFromTime t) in *.
  cbn [getDate NEW_APPLICATION_PERIOD_BEGINS ABATEMENT_APPLICATION_DEADLINE
       NEW_FY_PRELIMINARY_TAX_PERIOD_BEGINS].
  rewrite !new_Date_first by lia.
  rewrite monthStart_0, monthStart_1, monthStart_6, !Z.add_0_r.
  rewrite (MakeFullYear_id Y Hcentury).
  pose proof (MakeFullYear_ge (Y + 1)) as Hnext.
  assert (-271820 <= MakeFullYear (Y + 1) <= 275760) as Hnext'
    by (apply MakeFullYear_range; lia).
  pose proof (DayFromYear_mono (Y + 1) (MakeFullYear (Y + 1)) Hnext) as Hmono.
  pose proof (DayFromYear_range Y ltac:(lia)) as HD.
  pose proof (DayFromYear_range _ Hnext') as HD'.
  pose proof (LeapDays_cases Y) as Hl.
  set (D := DayFromYear Y) in *. set (l := LeapDays Y) in *.
  set (D' := DayFromYear (MakeFullYear (Y + 1))) in *.
  rewrite !TimeClip_day by lia.
  destruct (getNextMonday_day (D + 31)) as (k & Hk & ->); [lia|].
  cbn [date_ltb date_leb date_geb date_gtb].
  assert (msPerDay * (D + (181 + l)) <= t <-> D + (181 + l) <= Day t) as Hjuly
    by (symmetry; apply Day_le).
  destruct (Z.leb_spec 6 (MonthFromTime t)) as [Hm|Hm].
  - assert (msPerDay * (D + (181 + l)) <= t) as Hge by (apply Hjuly; lia).
    unfold msPerDay in *. split; [reflexivity|]. intros _.
    compare_times. reflexivity.
  - assert (t < msPerDay * (D + (181 + l))) as Hlt.
    { apply Day_lt. destruct (Z.lt_ge_cases (Day t) (D + (181 + l))); lia. }
    unfold msPerDay in *. split.
    + compare_times; cbn [phase]; discriminate.
    + intros [= H]. lia.
Qed.

Lemma getAbatementPhase_preliminary_iff_next_fiscal_year_witness :
  phase (getAbatementPhase (TimeValue 1782864000000) (Int 2026) None) = preliminary <->
  getFiscalYear (TimeValue 1782864000000) = Int 2027.
Proof.
  apply (getAbatementPhase_preliminary_iff_next_fiscal_year 1782864000000 (Int 2026) None).
  - vm_compute. split; discriminate.
  - vm_compute. intros [_ H]. apply H. reflexivity.
Defined.

End TimelineProperties.

(* ===================================================================== *)
(** * Fiscal configuration: available years and owner disclaimer dates    *)
(* ===================================================================== *)

Section FiscalDataProperties.
Import JS Periods FiscalData.

(** The calendar year and the month of a date in the first and in the second
    half of a year. *)
Lemma first_half_fields t Y :
  MakeDate (MakeDay Y 0 1) 0 <= t < MakeDate (MakeDay Y 6 1) 0 ->
  YearFromTime t = Y /\ 0 <= MonthFromTime t < 6.
Proof.
  rewrite !first_of_month_time by lia.
  rewrite monthStart_0, monthStart_6. intros H.
  pose proof (LeapDays_cases Y) as Hl.
  destruct (year_and_day_of t Y 0 (181 + LeapDays Y)) as [EY Hd];
    [lia | rewrite DaysInYear_LeapDays; lia | lia |].
  split; [exact EY|]. pose proof (MonthFromTime_bounds t). split; [lia|].
  apply (MonthFromTime_first_half t (LeapDays Y));
    [unfold InLeapYear; rewrite EY; reflexivity | lia | lia].
Qed.

Lemma second_half_fields t Y :
  MakeDate (MakeDay Y 6 1) 0 <= t < MakeDate (MakeDay (Y + 1) 0 1) 0 ->
  YearFromTime t = Y /\ 6 <= MonthFromTime t <= 11.
Proof.
  rewrite !first_of_month_time by lia.
  rewrite monthStart_0, monthStart_6, DayFromYear_succ, DaysInYear_LeapDays. intros H.
  pose proof (LeapDays_cases Y) as Hl.
  destruct (year_and_day_of t Y (181 + LeapDays Y) (365 + LeapDays Y)) as [EY Hd];
    [lia | rewrite DaysInYear_LeapDays; lia | unfold msPerDay in *; lia |].
  split; [exact EY|]. pose proof (MonthFromTime_bounds t). split; [|lia].
  apply (MonthFromTime_second_half t (LeapDays Y));
    [unfold InLeapYear; rewrite EY; reflexivity | lia | lia].
Qed.

Lemma truthy_string_true s : truthy_string s = true <-> s <> EmptyString.
Proof.
  unfold truthy_string. destruct (String.eqb_spec s EmptyString); simpl; split; congruence.
Qed.

(** X5. Within a configured fiscal year [Y] whose two disclaimer dates are
    not empty, [getOwnerDisclaimerDate] answers the [q1] date of [Y] from the
    first of July of [Y - 1] to the end of that year, and the [q3] date of [Y]
    from the first of January of [Y] to the end of June. *)
Theorem getOwnerDisclaimerDate_quarters
    (config : FiscalDataConfig) (Y : Z) (yearData : FiscalYearData) (t : Z) :
  fiscalYears config !! Y = Some yearData ->
  q1 (ownerDisclaimerDates yearData) <> EmptyString ->
  q3 (ownerDisclaimerDates yearData) <> EmptyString ->
  (MakeDate (MakeDay (Y - 1) 6 1) 0 <= t < MakeDate (MakeDay Y 0 1) 0 ->
   getOwnerDisclaimerDate config (TimeValue t) = q1 (ownerDisclaimerDates yearData)) /\
  (MakeDate (MakeDay Y 0 1) 0 <= t < MakeDate (MakeDay Y 6 1) 0 ->
   getOwnerDisclaimerDate config (TimeValue t) = q3 (ownerDisclaimerDates yearData)).
Proof.
  intros Hyear H1 H3. apply truthy_string_true in H1, H3.
  unfold getOwnerDisclaimerDate. cbv zeta.
  cbn [Date_getFullYear Date_getMonth num_geb num_leb num_add]. unfold LocalTime.
  split; intros Ht.
  - replace Y with (Y - 1 + 1) in Ht at 2 by lia.
    destruct (second_half_fields t (Y - 1) Ht) as [EY [Hm1 Hm2]].
    destruct (Z.leb_spec 6 (MonthFromTime t)); [|lia].
    destruct (Z.leb_spec (MonthFromTime t) 11); [|lia].
    cbn [andb fiscalYears_at]. rewrite EY. replace (Y - 1 + 1) with Y by lia.
    rewrite Hyear, H1. reflexivity.
  - destruct (first_half_fields t Y Ht) as [EY [Hm1 Hm2]].
    destruct (Z.leb_spec 6 (MonthFromTime t)); [lia|].
    cbn [andb fiscalYears_at]. rewrite EY, Hyear, H3. reflexivity.
Qed.

Lemma getOwnerDisclaimerDate_quarters_witness :
  getOwnerDisclaimerDate example_config (TimeValue 1764547200000 (* 1 December 2025 *))
  = "April 25, 2025"%string /\
  getOwnerDisclaimerDate example_config (TimeValue 1773532800000 (* 15 March 2026 *))
  = "October 25, 2025"%string.
Proof.
  assert (q1 (ownerDisclaimerDates example_2026) <> EmptyString) as H1 by discriminate.
  assert (q3 (ownerDisclaimerDates example_2026) <> EmptyString) as H3 by discriminate.
  split.
  - apply (getOwnerDisclaimerDate_quarters example_config 2026 example_2026
             1764547200000 eq_refl H1 H3).
    vm_compute. split; [discriminate | reflexivity].
  - apply (getOwnerDisclaimerDate_quarters example_config 2026 example_2026
             1773532800000 eq_refl H1 H3).
    vm_compute. split; [discriminate | reflexivity].
Defined.

(** X6. Outside the configured entries.  For a date whose fiscal year lies
    beyond the latest configured year, [getOwnerDisclaimerDate] answers the
    [q3] date of the latest year, or its [q1] date when [q3] is empty, or the
    default when both are: the quarter of the date plays no part.  For a
    fiscal year that has no entry and is not beyond the latest one, for an
    empty table and for an invalid date it answers the default. *)
Theorem getOwnerDisclaimerDate_fallback (config : FiscalDataConfig) (t fiscalYear : Z) :
  getFiscalYear (TimeValue t) = Int fiscalYear ->
  (forall latestYear latestYearData,
      getLatestFiscalYear config = Finite latestYear ->
      fiscalYears config !! latestYear = Some latestYearData ->
      latestYear < fiscalYear ->
      getOwnerDisclaimerDate config (TimeValue t)
      = if truthy_string (q3 (ownerDisclaimerDates latestYearData))
        then q3 (ownerDisclaimerDates latestYearData)
        else if truthy_string (q1 (ownerDisclaimerDates latestYearData))
        then q1 (ownerDisclaimerDates latestYearData)
        else ownerDisclaimerDate (defaults config)) /\
  (fiscalYears config !! fiscalYear = None ->
   (forall latestYear,
       getLatestFiscalYear config = Finite latestYear -> fiscalYear <= latestYear) ->
   getOwnerDisclaimerDate config (TimeValue t) = ownerDisclaimerDate (defaults config)) /\
  getOwnerDisclaimerDate config InvalidDate = ownerDisclaimerDate (defaults config).
Proof.
  intros Hfy. unfold getFiscalYear in Hfy. cbv zeta in Hfy.
  unfold getOwnerDisclaimerDate. cbv zeta.
  split; [|split].
  - intros latestYear latestYearData Hlatest Hdata Hlt. rewrite Hfy, Hlatest.
    cbn [fiscalYears_at fiscalYears_at_maximum num_gt_maximum].
    apply getLatestFiscalYear_Finite in Hlatest as [_ Hmax].
    destruct (fiscalYears config !! fiscalYear) as [yearData|] eqn:E.
    { specialize (Hmax fiscalYear ltac:(rewrite E; eauto)). lia. }
    rewrite Hdata. destruct (Z.ltb_spec latestYear fiscalYear); [reflexivity | lia].
  - intros Hnone Hle. rewrite Hfy. cbn [fiscalYears_at]. rewrite Hnone.
    destruct (getLatestFiscalYear config) as [|latestYear] eqn:Hlatest;
      cbn [num_gt_maximum fiscalYears_at_maximum]; [reflexivity|].
    specialize (Hle latestYear eq_refl).
    destruct (Z.ltb_spec latestYear fiscalYear); [lia | reflexivity].
  - cbn. destruct (getLatestFiscalYear config); reflexivity.
Qed.

Lemma getOwnerDisclaimerDate_fallback_witness :
  getOwnerDisclaimerDate example_config (TimeValue 1893456000000 (* 1 January 2030 *))
  = "October 25, 2025"%string /\
  getOwnerDisclaimerDate example_config (TimeValue 1909094400000 (* 1 July 2030 *))
  = "October 25, 2025"%string /\
  getOwnerDisclaimerDate example_config (TimeValue 1420070400000 (* 1 January 2015 *))
  = "October 25, 2024"%string.
Proof.
  destruct (getOwnerDisclaimerDate_fallback example_config 1893456000000 2030 eq_refl)
    as (H1 & _ & _).
  destruct (getOwnerDisclaimerDate_fallback example_config 1909094400000 2031 eq_refl)
    as (H2 & _ & _).
  destruct (getOwnerDisclaimerDate_fallback example_config 1420070400000 2015 eq_refl)
    as (_ & H3 & _).
  split; [|split].
  - apply (H1 2026 example_2026 eq_refl eq_refl). lia.
  - apply (H2 2026 example_2026 eq_refl eq_refl). lia.
  - apply H3; [reflexivity|]. intros latestYear H. vm_compute in H.
    injection H as <-. lia.
Defined.

(** X7. [getOwnerDisclaimerDate] never answers the empty string when the
    default date of the configuration is not empty: a date of an entry is
    returned only when it is not empty. *)
Theorem getOwnerDisclaimerDate_not_empty (config : FiscalDataConfig) (date : Date) :
  ownerDisclaimerDate (defaults config) <> EmptyString ->
  getOwnerDisclaimerDate config date <> EmptyString.
Proof.
  intros Hdefault. unfold getOwnerDisclaimerDate. cbv zeta.
  repeat match goal with
         | |- context [if truthy_string ?s then _ else _] =>
             let E := fresh "E" in
             destruct (truthy_string s) eqn:E;
             [apply truthy_string_true in E|]
         | |- context [match ?x with _ => _ end] => destruct x
         end; assumption.
Qed.

Lemma getOwnerDisclaimerDate_not_empty_witness :
  getOwnerDisclaimerDate example_config InvalidDate <> EmptyString.
Proof.
  apply (getOwnerDisclaimerDate_not_empty example_config InvalidDate). discriminate.
Defined.

Lemma StronglySorted_le_lt (l : list Z) :
  StronglySorted (fun a b => a - b <= 0) l -> NoDup l -> StronglySorted Z.lt l.
Proof.
  induction 1 as [|x l Hsorted IH Hall]; intros Hnodup; constructor.
  - apply IH. apply NoDup_cons in Hnodup as [_ H]. exact H.
  - apply NoDup_cons in Hnodup as [Hx _].
    rewrite Forall_forall in Hall |- *. intros z Hz.
    specialize (Hall z Hz). cbn in Hall.
    assert (x <> z) by (intros ->; contradiction). lia.
Qed.

Lemma StronglySorted_last_max (l : list Z) (m : Z) :
  StronglySorted Z.lt l -> last l = Some m -> forall x, x ∈ l -> x <= m.
Proof.
  induction 1 as [|x l Hsorted IH Hall]; [discriminate|].
  intros Hlast z Hz. destruct l as [|x' l'].
  - cbn in Hlast. injection Hlast as <-.
    apply elem_of_cons in Hz as [->|Hz]; [lia|]. apply elem_of_nil in Hz as [].
  - change (last (x' :: l') = Some m) in Hlast.
    apply elem_of_cons in Hz as [->|Hz]; [|apply IH; assumption].
    rewrite Forall_forall in Hall.
    assert (m ∈ x' :: l') as Hm.
    { rewrite last_lookup in Hlast. eapply list_elem_of_lookup_2. exact Hlast. }
    specialize (Hall m Hm). lia.
Qed.

(** X8. [getAvailableFiscalYears] lists the configured fiscal years in
    strictly increasing order: a year is listed exactly when
    [hasTaxRatesForYear] holds for it, the last year listed is the one
    [getLatestFiscalYear] answers, and the list is empty exactly when
    [getLatestFiscalYear] answers -Infinity. *)
Theorem getAvailableFiscalYears_sorted (config : FiscalDataConfig) :
  StronglySorted Z.lt (getAvailableFiscalYears config) /\
  (forall y, y ∈ getAvailableFiscalYears config <-> hasTaxRatesForYear config y = true) /\
  (forall y, last (getAvailableFiscalYears config) = Some y <->
             getLatestFiscalYear config = Finite y) /\
  (getAvailableFiscalYears config = [] <-> getLatestFiscalYear config = NegInfinity).
Proof.
  set (R := fun a b : Z => a - b <= 0).
  assert (Transitive R) as HT by (intros a b c; unfold R; lia).
  assert (Total R) as Htot by (intros a b; unfold R; lia).
  assert (getAvailableFiscalYears config ≡ₚ Object_keys (fiscalYears config)) as Hperm
    by apply merge_sort_Permutation.
  assert (StronglySorted Z.lt (getAvailableFiscalYears config)) as Hsorted.
  { apply StronglySorted_le_lt.
    - apply (StronglySorted_merge_sort R).
    - rewrite Hperm. apply NoDup_fst_map_to_list. }
  assert (forall y, y ∈ getAvailableFiscalYears config <-> is_Some (fiscalYears config !! y))
    as Hmem by (intros y; rewrite Hperm; apply elem_of_Object_keys).
  split; [exact Hsorted|]. split; [|split].
  - intros y. rewrite Hmem. unfold hasTaxRatesForYear.
    destruct (fiscalYears config !! y); split; intros H;
      first [reflexivity | discriminate | solve [eauto] | destruct H; discriminate].
  - intros y. rewrite getLatestFiscalYear_Finite. split.
    + intros Hlast. split.
      * apply Hmem. rewrite last_lookup in Hlast.
        eapply list_elem_of_lookup_2. exact Hlast.
      * intros k Hk. apply (StronglySorted_last_max _ _ Hsorted Hlast).
        apply Hmem, Hk.
    + intros [Hy Hmax].
      destruct (last (getAvailableFiscalYears config)) as [m|] eqn:Hlast.
      * f_equal. apply Z.le_antisymm.
        -- apply Hmax, Hmem. rewrite last_lookup in Hlast.
           eapply list_elem_of_lookup_2. exact Hlast.
        -- apply (StronglySorted_last_max _ _ Hsorted Hlast), Hmem, Hy.
      * apply last_None in Hlast. apply Hmem in Hy. rewrite Hlast in Hy.
        apply elem_of_nil in Hy as [].
  - split.
    + intros Hnil. destruct (getLatestFiscalYear config) as [|m] eqn:E; [reflexivity|].
      apply getLatestFiscalYear_Finite in E as [Hm _]. apply Hmem in Hm.
      rewrite Hnil in Hm. apply elem_of_nil in Hm as [].
    + intros Hneg. apply Math_max_nil in Hneg.
      apply Permutation_nil_r. rewrite <- Hneg. exact Hperm.
Qed.

Lemma getAvailableFiscalYears_sorted_witness :
  last (getAvailableFiscalYears example_config) = Some 2026 /\
  hasTaxRatesForYear example_config 2026 = true.
Proof.
  destruct (getAvailableFiscalYears_sorted example_config) as (_ & Hmem & Hlast & _).
  split.
  - apply Hlast. reflexivity.
  - apply Hmem. vm_compute. apply list_elem_of_further, list_elem_of_here.
Defined.

End FiscalDataProperties.

(* ===================================================================== *)
(** * Text normalisation                                                  *)
(* ===================================================================== *)

Section TextProperties.
Import EGISClient.

Ltac each_character c :=
  destruct c as [[] [] [] [] [] [] [] []]; vm_compute; reflexivity.

Lemma charToLower_idempotent c : charToLower (charToLower c) = charToLower c.
Proof. each_character c. Qed.

Lemma charToLower_charToUpper c :
  charToLower (charToUpper (charToLower c)) = charToLower c.
Proof. each_character c. Qed.

Lemma isWordChar_charToLower c : isWordChar (charToLower c) = isWordChar c.
Proof. each_character c. Qed.

Lemma isWordChar_charToUpper c : isWordChar (charToUpper c) = isWordChar c.
Proof. each_character c. Qed.

Lemma isWhiteSpace_charToLower c : isWhiteSpace (charToLower c) = isWhiteSpace c.
Proof. each_character c. Qed.

Lemma isWhiteSpace_charToUpper c : isWhiteSpace (charToUpper c) = isWhiteSpace c.
Proof. each_character c. Qed.

(** A string is trimmed to the empty string exactly when it consists of
    white space. *)
Lemma trimEnd_empty s : trimEnd s = EmptyString <-> allChars isWhiteSpace s = true.
Proof.
  induction s as [|c r IH]; cbn [trimEnd allChars]; [tauto|].
  destruct (trimEnd r) as [|c' r'] eqn:E.
  - destruct (isWhiteSpace c); cbn [andb]; [|split; discriminate].
    split; intros _; [apply IH|]; reflexivity.
  - split; [discriminate|]. intros H. apply andb_true_iff in H as [_ H].
    apply IH in H. discriminate.
Qed.

Lemma allChars_trimStart s :
  allChars isWhiteSpace (trimStart s) = allChars isWhiteSpace s.
Proof.
  induction s as [|c r IH]; cbn [trimStart allChars]; [reflexivity|].
  destruct (isWhiteSpace c) eqn:E; cbn [andb allChars]; [exact IH|].
  rewrite E. reflexivity.
Qed.

Lemma trim_empty s : trim s = EmptyString <-> allChars isWhiteSpace s = true.
Proof. unfold trim. rewrite trimEnd_empty, allChars_trimStart. reflexivity. Qed.

Lemma toLowerCase_capitalizeWords b s :
  toLowerCase (capitalizeWords b (toLowerCase s)) = toLowerCase s.
Proof.
  revert b. induction s as [|c r IH]; intros b; cbn [toLowerCase capitalizeWords];
    [reflexivity|].
  rewrite IH. f_equal.
  destruct (isWordChar (charToLower c) && negb b);
    [apply charToLower_charToUpper | apply charToLower_idempotent].
Qed.

Lemma allChars_isWhiteSpace_proper b s :
  allChars isWhiteSpace (capitalizeWords b (toLowerCase s)) = allChars isWhiteSpace s.
Proof.
  revert b. induction s as [|c r IH]; intros b;
    cbn [toLowerCase capitalizeWords allChars]; [reflexivity|].
  rewrite IH. f_equal.
  destruct (isWordChar (charToLower c) && negb b);
    rewrite ?isWhiteSpace_charToUpper; apply isWhiteSpace_charToLower.
Qed.

Lemma eqb_empty_false s : String.eqb s EmptyString = false <-> s <> EmptyString.
Proof. destruct (String.eqb_spec s EmptyString); split; congruence. Qed.

(** [toProperCase] on a string, by cases. *)
Lemma toProperCase_Str s :
  toProperCase (Str s) =
  if String.eqb s EmptyString || String.eqb (trim s) EmptyString then EmptyString
  else if testAbbreviation s && (Z.of_nat (String.length s) <=? 6)%Z then s
  else capitalizeWords false (toLowerCase s).
Proof. reflexivity. Qed.

Lemma toProperCase_Str_idempotent s :
  toProperCase (Str (toProperCase (Str s))) = toProperCase (Str s).
Proof.
  rewrite (toProperCase_Str s).
  destruct (String.eqb s EmptyString || String.eqb (trim s) EmptyString) eqn:Eblank;
    [reflexivity|].
  destruct (testAbbreviation s && (Z.of_nat (String.length s) <=? 6)%Z) eqn:Eabbr.
  - rewrite toProperCase_Str, Eblank, Eabbr. reflexivity.
  - set (r := capitalizeWords false (toLowerCase s)).
    rewrite toProperCase_Str.
    apply orb_false_iff in Eblank as [Hne Hnb].
    assert (String.eqb r EmptyString || String.eqb (trim r) EmptyString = false) as ->.
    { apply orb_false_iff. split.
      - apply eqb_empty_false. apply eqb_empty_false in Hne.
        destruct s; [congruence|]. discriminate.
      - apply eqb_empty_false. apply eqb_empty_false in Hnb.
        rewrite trim_empty in *. unfold r. rewrite allChars_isWhiteSpace_proper.
        exact Hnb. }
    destruct (testAbbreviation r && (Z.of_nat (String.length r) <=? 6)%Z); [reflexivity|].
    unfold r. rewrite toLowerCase_capitalizeWords. reflexivity.
Qed.

(** [toProperCase] of a value is [toProperCase] of its text. *)
Lemma toProperCase_String_of v :
  v <> Null -> v <> Undefined -> toProperCase v = toProperCase (Str (String_of v)).
Proof. destruct v; try congruence; reflexivity. Qed.

(** X9. [toProperCase] is idempotent, and so is its composition with
    [parseAfterDash]: the record of a property applies [toProperCase] to the
    result of [parseAfterDash], which has applied it already; the second
    application changes nothing. *)
Theorem toProperCase_idempotent (v : AttrValue) :
  toProperCase (Str (toProperCase v)) = toProperCase v /\
  toProperCase (Str (parseAfterDash v)) = parseAfterDash v.
Proof.
  split.
  - destruct v as [| |n|s]; try reflexivity.
    + rewrite (toProperCase_String_of (Num n)) by discriminate.
      apply toProperCase_Str_idempotent.
    + apply toProperCase_Str_idempotent.
  - unfold parseAfterDash. destruct v as [| |n|s]; try reflexivity.
    + destruct (_ || _); [reflexivity|]. cbv zeta.
      apply toProperCase_Str_idempotent.
    + destruct (_ || _); [reflexivity|]. cbv zeta.
      apply toProperCase_Str_idempotent.
Qed.

(** ** [toCamelCase] *)

Lemma split_not_nil sep s : split sep s <> [].
Proof.
  destruct s as [|c r]; cbn [split]; [discriminate|].
  destruct (Ascii.eqb c sep); [discriminate|].
  destruct (split sep r); discriminate.
Qed.

Lemma join_String sep c part parts :
  join sep (String c part :: parts) = String c (join sep (part :: parts)).
Proof. cbn [join]. destruct parts; reflexivity. Qed.

Lemma isWordChar_space : isWordChar " " = false.
Proof. reflexivity. Qed.

(** Capitalising the words of a string is capitalising those of its parts
    between spaces. *)
Lemma capitalizeWords_split b s :
  match split " " s with
  | part :: parts =>
      capitalizeWords b s
      = join " " (capitalizeWords b part :: List.map (capitalizeWords false) parts)
  | [] => False
  end.
Proof.
  revert b. induction s as [|c r IH]; intros b; cbn [split]; [reflexivity|].
  destruct (Ascii.eqb_spec c " ") as [->|Hc].
  - specialize (IH false). pose proof (split_not_nil " " r) as Hnil.
    destruct (split " " r) as [|part parts]; [congruence|].
    cbn [capitalizeWords List.map]. rewrite isWordChar_space. cbn [andb].
    rewrite IH. reflexivity.
  - specialize (IH (isWordChar c)). pose proof (split_not_nil " " r) as Hnil.
    destruct (split " " r) as [|part parts]; [congruence|].
    cbn [capitalizeWords]. rewrite join_String, IH. reflexivity.
Qed.

Lemma takeWord_spec s :
  forall word rest,
    takeWord s = (word, rest) ->
    s = (word ++ rest)%string /\
    allChars isWordChar word = true /\
    (String.length rest <= String.length s)%nat /\
    capitalizeWords true rest = capitalizeWords false rest.
Proof.
  induction s as [|c r IH]; intros word rest; cbn [takeWord].
  - intros [= <- <-]. repeat split; reflexivity.
  - destruct (isWordChar c) eqn:Ec.
    + destruct (takeWord r) as [w rest'] eqn:E. intros [= <- <-].
      destruct (IH w rest' eq_refl) as (-> & Hw & Hlen & Hcap).
      cbn [allChars String.length]. rewrite Ec, Hw. repeat split; try assumption.
      lia.
    + intros [= <- <-]. repeat split; try reflexivity.
      cbn [capitalizeWords]. rewrite Ec. reflexivity.
Qed.

Lemma append_String c s1 s2 : (String c s1 ++ s2)%string = String c (s1 ++ s2)%string.
Proof. reflexivity. Qed.

Lemma append_EmptyString s : (EmptyString ++ s)%string = s.
Proof. reflexivity. Qed.

Lemma capitalizeWords_word word rest :
  allChars isWordChar word = true ->
  capitalizeWords true (word ++ rest) = (word ++ capitalizeWords true rest)%string.
Proof.
  induction word as [|c w IH]; cbn [allChars]; [reflexivity|].
  intros H. apply andb_true_iff in H as [Hc Hw].
  rewrite !append_String. cbn [capitalizeWords]. rewrite Hc. cbn [andb negb].
  rewrite IH by exact Hw. reflexivity.
Qed.

Lemma replaceWords_capitalizeWords n part :
  (String.length part <= n)%nat ->
  replaceWords capitalizeFirst n part = capitalizeWords false part.
Proof.
  revert part. induction n as [|n IH]; intros part Hlen.
  - destruct part; [reflexivity | cbn in Hlen; lia].
  - destruct part as [|c r]; [reflexivity|]. cbn [replaceWords].
    destruct (isWordChar c) eqn:Ec.
    + destruct (takeWord (String c r)) as [word rest] eqn:E.
      pose proof (takeWord_spec _ _ _ E) as (Hs & Hw & Hl & Hcap).
      cbn [takeWord] in E. rewrite Ec in E.
      destruct (takeWord r) as [w rest'] eqn:E'. injection E as <- <-.
      pose proof (takeWord_spec _ _ _ E') as (-> & Hw' & Hl' & Hcap').
      cbn [capitalizeFirst]. rewrite !append_String. cbn [capitalizeWords].
      rewrite Ec. cbn [andb negb].
      rewrite capitalizeWords_word, Hcap' by exact Hw'.
      rewrite IH by (cbn [String.length] in Hlen; lia). reflexivity.
    + cbn [capitalizeWords]. rewrite Ec. cbn [andb].
      rewrite IH by (cbn [String.length] in Hlen; lia). reflexivity.
Qed.

(** X10. [toCamelCase] and [toProperCase] are the same function: splitting at
    spaces and capitalising the first letter of each run of word characters
    of each part gives what capitalising every word character that follows a
    word boundary gives. *)
Theorem toCamelCase_toProperCase (v : AttrValue) : toCamelCase v = toProperCase v.
Proof.
  unfold toCamelCase, toProperCase.
  destruct v as [| |n|s]; try reflexivity;
    (destruct (_ || _); [reflexivity|]; destruct (_ && _); [reflexivity|]).
  - cbv zeta.
    pose proof (capitalizeWords_split false (toLowerCase (String_of (Num n)))) as H.
    destruct (split " " (toLowerCase (String_of (Num n)))) as [|part parts];
      [contradiction|].
    rewrite H. f_equal. cbn [List.map]. f_equal.
    + apply replaceWords_capitalizeWords. lia.
    + apply List.map_ext. intros p. apply replaceWords_capitalizeWords. lia.
  - pose proof (capitalizeWords_split false (toLowerCase s)) as H.
    destruct (split " " (toLowerCase s)) as [|part parts]; [contradiction|].
    rewrite H. f_equal. cbn [List.map]. f_equal.
    + apply replaceWords_capitalizeWords. lia.
    + apply List.map_ext. intros p. apply replaceWords_capitalizeWords. lia.
Qed.

(** ** [parseAfterDash] on a code and its description *)

Lemma allChars_app p s1 s2 :
  allChars p (s1 ++ s2)%string = allChars p s1 && allChars p s2.
Proof.
  induction s1 as [|c r IH]; [reflexivity|].
  rewrite append_String. cbn [allChars]. rewrite IH, andb_assoc. reflexivity.
Qed.

Lemma indexOf_from_code code rest :
  allChars (fun c => negb (Ascii.eqb c " ")) code = true ->
  forall i,
    indexOf_from " - " (code ++ " - " ++ rest) i = (i + Z.of_nat (String.length code))%Z.
Proof.
  induction code as [|c r IH]; intros Hcode i.
  - rewrite append_EmptyString. cbn [String.length].
    change (" - " ++ rest)%string with (String " " (String "-" (String " " rest))).
    assert (String.prefix " - " (String " " (String "-" (String " " rest))) = true) as Hp.
    { cbn [String.prefix]. repeat (destruct (ascii_dec _ _); [|congruence]).
      destruct rest; reflexivity. }
    unfold indexOf_from. rewrite Hp. lia.
  - cbn [allChars] in Hcode. apply andb_true_iff in Hcode as [Hc Hr].
    rewrite append_String. cbn [String.length].
    assert (String.prefix " - " (String c (r ++ " - " ++ rest)) = false) as Hp.
    { cbn [String.prefix]. destruct (ascii_dec " " c) as [<-|_]; [discriminate Hc|].
      reflexivity. }
    change (indexOf_from " - " (String c (r ++ " - " ++ rest)) i)
      with (if String.prefix " - " (String c (r ++ " - " ++ rest)) then i
            else indexOf_from " - " (r ++ " - " ++ rest) (i + 1)).
    rewrite Hp, IH by exact Hr. lia.
Qed.

Lemma drop_app s1 s2 n : drop (String.length s1 + n) (s1 ++ s2) = drop n s2.
Proof. induction s1 as [|c r IH]; [reflexivity|]. rewrite append_String. exact IH. Qed.

(** X11. On a text of the form "CODE - description", where the code has no
    space, [parseAfterDash] answers [toProperCase] of the description,
    trimmed: the part in front of the first separator is dropped, whatever
    the description holds. *)
Theorem parseAfterDash_code_description (code description : string) :
  allChars (fun c => negb (Ascii.eqb c " ")) code = true ->
  parseAfterDash (Str (code ++ " - " ++ description))
  = toProperCase (Str (trim description)).
Proof.
  intros Hcode. unfold parseAfterDash.
  set (strValue := (code ++ " - " ++ description)%string).
  assert (String.eqb strValue EmptyString || String.eqb (trim strValue) EmptyString
          = false) as ->.
  { apply orb_false_iff. split.
    - apply eqb_empty_false. unfold strValue. destruct code; discriminate.
    - apply eqb_empty_false. rewrite trim_empty. unfold strValue.
      rewrite !allChars_app.
      change (allChars isWhiteSpace " - ") with false.
      rewrite andb_false_l, andb_false_r. discriminate. }
  cbv zeta. unfold indexOf, strValue. rewrite indexOf_from_code by exact Hcode.
  destruct (Z.eqb_spec (0 + Z.of_nat (String.length code)) (-1)); [lia|].
  cbn [negb]. unfold slice.
  replace (Z.to_nat (0 + Z.of_nat (String.length code) + 3))
    with (String.length code + 3)%nat by lia.
  rewrite drop_app. reflexivity.
Qed.

Lemma parseAfterDash_code_description_witness :
  parseAfterDash (Str "101 - SINGLE FAM DWELLING - DETACHED")
  = "Single Fam Dwelling - Detached"%string.
Proof.
  apply (parseAfterDash_code_description "101" "SINGLE FAM DWELLING - DETACHED").
  reflexivity.
Defined.

End TextProperties.

(* ===================================================================== *)
(** * The rows of the latest fiscal year and quarter                      *)
(* ===================================================================== *)

Section LatestRows.
Import JS EGISClient.

Lemma batches_concat {A : Type} (n batchSize : nat) (features : list A) :
  (0 < batchSize)%nat -> (length features <= n)%nat ->
  concat (batches n batchSize features) = features.
Proof.
  intros Hb. revert features. induction n as [|n IH]; intros features Hn.
  - destruct features; [reflexivity | cbn in Hn; lia].
  - destruct features as [|x l]; [reflexivity|].
    cbn [batches concat]. rewrite IH; [apply firstn_skipn|].
    rewrite length_skipn. cbn [length] in *. lia.
Qed.

Lemma fold_left_batches {A S : Type} (step : S -> A -> S) (bs : list (list A)) (st : S) :
  fold_left (fun state batch => fold_left step batch state) bs st
  = fold_left step (concat bs) st.
Proof.
  revert st. induction bs as [|b bs IH]; intros st; [reflexivity|].
  cbn [fold_left concat]. rewrite fold_left_app. apply IH.
Qed.

Lemma filter_batches {A : Type} (keep : A -> bool) (bs : list (list A)) :
  concat (List.map (fun batch => List.filter keep batch) bs)
  = List.filter keep (concat bs).
Proof.
  induction bs as [|b bs IH]; [reflexivity|].
  cbn [List.map concat]. rewrite List.filter_app, IH. reflexivity.
Qed.

(** The function without its batches: one pass for the latest year and
    quarter, one pass to keep their rows. *)
Lemma filterForHighestFiscalYearAndQuarter_passes features options :
  filterForHighestFiscalYearAndQuarter features options =
  match fold_left (highest_step (option_yearField options) (option_hasQuarter options))
                  features (Some (0, 0)) with
  | Some (maxYear, maxQuarter) =>
      Some (List.filter
              (highest_keep (option_yearField options) (option_hasQuarter options)
                 maxYear maxQuarter) features)
  | None => None
  end.
Proof.
  unfold filterForHighestFiscalYearAndQuarter.
  destruct features as [|f fs]; [reflexivity|].
  change (Z.of_nat (length (f :: fs)) =? 0) with false. cbv zeta.
  rewrite fold_left_batches, batches_concat by lia.
  destruct (fold_left _ (f :: fs) (Some (0, 0))) as [[maxYear maxQuarter]|];
    [|reflexivity].
  rewrite filter_batches, batches_concat by lia. reflexivity.
Qed.

Lemma highest_step_None yearField hasQuarter features :
  fold_left (highest_step yearField hasQuarter) features None = None.
Proof. induction features as [|f fs IH]; [reflexivity | exact IH]. Qed.

Lemma highest_fold yearField hasQuarter features :
  forall start found,
    fold_left (highest_step yearField hasQuarter) features (Some start) = Some found ->
    (start.1 < found.1 \/ (start.1 = found.1 /\ start.2 <= found.2)) /\
    (forall f, f ∈ features ->
       exists year,
         year_or_0 (attr (attributes f) yearField) = Some year /\
         (year < found.1 \/
          (year = found.1 /\
           quarter_or_0 hasQuarter (attr (attributes f) "quarter") <= found.2))) /\
    (found = start \/
     exists f, f ∈ features /\
       year_or_0 (attr (attributes f) yearField) = Some found.1 /\
       quarter_or_0 hasQuarter (attr (attributes f) "quarter") = found.2).
Proof.
  induction features as [|f fs IH]; intros [y0 q0] found.
  - cbn [fold_left]. intros [= <-]. cbn. split; [lia|].
    split; [|left; reflexivity]. intros f Hf. apply elem_of_nil in Hf as [].
  - cbn [fold_left]. unfold highest_step at 2.
    destruct (year_or_0 (attr (attributes f) yearField)) as [year|] eqn:Ey;
      [|rewrite highest_step_None; discriminate].
    cbv zeta.
    set (quarter := quarter_or_0 hasQuarter (attr (attributes f) "quarter")) in *.
    destruct ((y0 <? year) || ((year =? y0) && (q0 <? quarter))) eqn:Ecmp.
    + intros H. destruct (IH _ _ H) as (Hstart & Hall & Hfound).
      assert (y0 < year \/ (y0 = year /\ q0 <= quarter)) as Hstep.
      { cbn. apply orb_true_iff in Ecmp as [Hlt|Heq].
        - apply Z.ltb_lt in Hlt. lia.
        - apply andb_true_iff in Heq as [He Hq].
          apply Z.eqb_eq in He. apply Z.ltb_lt in Hq. lia. }
      cbn in *. split; [lia|]. split.
      * intros g Hg. apply elem_of_cons in Hg as [->|Hg]; [|apply Hall, Hg].
        exists year. split; [exact Ey|]. cbn. fold quarter. lia.
      * right. destruct Hfound as [->|(g & Hg & Hgy & Hgq)].
        -- exists f. split; [apply list_elem_of_here|]. split; [exact Ey | reflexivity].
        -- exists g. split; [apply list_elem_of_further, Hg|]. split; assumption.
    + intros H. destruct (IH _ _ H) as (Hstart & Hall & Hfound).
      split; [exact Hstart|]. split.
      * intros g Hg. apply elem_of_cons in Hg as [->|Hg]; [|apply Hall, Hg].
        exists year. split; [exact Ey|]. fold quarter.
        apply orb_false_iff in Ecmp as [Hlt Heq]. apply Z.ltb_ge in Hlt.
        cbn in *.
        destruct (Z.eqb_spec year y0) as [->|Hne]; cbn [andb] in Heq.
        -- apply Z.ltb_ge in Heq. lia.
        -- lia.
      * destruct Hfound as [->|(g & Hg & Hgy & Hgq)]; [left; reflexivity|].
        right. exists g. split; [apply list_elem_of_further, Hg|]. split; assumption.
Qed.

Lemma highest_keep_true yearField hasQuarter maxYear maxQuarter f :
  highest_keep yearField hasQuarter maxYear maxQuarter f = true <->
  attr (attributes f) yearField = Num maxYear /\
  (hasQuarter = true -> parseInt (attr (attributes f) "quarter") = Int maxQuarter).
Proof.
  unfold highest_keep. cbv zeta.
  assert (strictly_equals_number (attr (attributes f) yearField) maxYear = true
          <-> attr (attributes f) yearField = Num maxYear) as Hyear.
  { destruct (attr (attributes f) yearField) as [| |m|s]; cbn;
      try (split; [discriminate | congruence]).
    rewrite Z.eqb_eq. split; congruence. }
  destruct hasQuarter; cbn [negb].
  - rewrite andb_true_iff, Hyear.
    destruct (parseInt (attr (attributes f) "quarter")) as [|q]; cbn.
    + split; [intros [_ H]; discriminate | intros [_ H]; specialize (H eq_refl); discriminate].
    + rewrite Z.eqb_eq. split.
      * intros [H1 ->]. auto.
      * intros [H1 H2]. specialize (H2 eq_refl). split; congruence.
  - rewrite Hyear. split; [intros H; split; [exact H | discriminate] | tauto].
Qed.

Lemma filter_sublist {A : Type} (keep : A -> bool) (l : list A) :
  sublist (List.filter keep l) l.
Proof.
  induction l as [|x l IH]; cbn [List.filter]; [constructor|].
  destruct (keep x); constructor; exact IH.
Qed.

Lemma filter_all {A : Type} (keep : A -> bool) (l : list A) :
  (forall x, x ∈ l -> keep x = true) -> List.filter keep l = l.
Proof.
  induction l as [|x l IH]; intros H; cbn [List.filter]; [reflexivity|].
  rewrite (H x) by apply list_elem_of_here. f_equal. apply IH.
  intros z Hz. apply H, list_elem_of_further, Hz.
Qed.

Lemma elem_of_filter {A : Type} (keep : A -> bool) (l : list A) x :
  x ∈ List.filter keep l <-> x ∈ l /\ keep x = true.
Proof. rewrite !list_elem_of_In. apply filter_In. Qed.

Lemma highest_fold_total yearField hasQuarter features :
  (forall f, f ∈ features -> is_Some (year_or_0 (attr (attributes f) yearField))) ->
  forall start,
    is_Some (fold_left (highest_step yearField hasQuarter) features (Some start)).
Proof.
  induction features as [|f fs IH]; intros Hyears [y0 q0]; [cbn; eauto|].
  cbn [fold_left]. unfold highest_step at 2.
  destruct (Hyears f (list_elem_of_here _ _)) as [year ->]. cbv zeta.
  destruct (_ || _); apply IH; intros g Hg; apply Hyears, list_elem_of_further, Hg.
Qed.

(** Rows that all have the year and quarter [found] leave it as it is. *)
Lemma highest_fold_same yearField hasQuarter features found :
  (forall f, f ∈ features ->
     year_or_0 (attr (attributes f) yearField) = Some found.1 /\
     quarter_or_0 hasQuarter (attr (attributes f) "quarter") = found.2) ->
  fold_left (highest_step yearField hasQuarter) features (Some found) = Some found.
Proof.
  destruct found as [Y Q]. induction features as [|f fs IH]; intros H; [reflexivity|].
  cbn [fold_left]. unfold highest_step at 2.
  destruct (H f (list_elem_of_here _ _)) as [-> ->]. cbv zeta. cbn [fst snd].
  rewrite !Z.ltb_irrefl, Z.eqb_refl. cbn [orb andb].
  apply IH. intros g Hg. apply H, list_elem_of_further, Hg.
Qed.

Lemma highest_fold_reach yearField hasQuarter features start found :
  features <> [] ->
  (start.1 < found.1 \/ (start.1 = found.1 /\ start.2 <= found.2)) ->
  (forall f, f ∈ features ->
     year_or_0 (attr (attributes f) yearField) = Some found.1 /\
     quarter_or_0 hasQuarter (attr (attributes f) "quarter") = found.2) ->
  fold_left (highest_step yearField hasQuarter) features (Some start) = Some found.
Proof.
  destruct found as [Y Q], start as [y0 q0].
  destruct features as [|f fs]; [congruence|]. intros _ Hstart H. cbn in Hstart.
  cbn [fold_left]. unfold highest_step at 2.
  destruct (H f (list_elem_of_here _ _)) as [-> ->]. cbv zeta. cbn [fst snd].
  assert (forall g, g ∈ fs ->
            year_or_0 (attr (attributes g) yearField) = Some (Y, Q).1 /\
            quarter_or_0 hasQuarter (attr (attributes g) "quarter") = (Y, Q).2) as Hfs
    by (intros g Hg; apply H, list_elem_of_further, Hg).
  destruct ((y0 <? Y) || ((Y =? y0) && (q0 <? Q))) eqn:Ecmp.
  - apply highest_fold_same, Hfs.
  - apply orb_false_iff in Ecmp as [Hlt Heq]. apply Z.ltb_ge in Hlt.
    assert (y0 = Y) as -> by lia. rewrite Z.eqb_refl in Heq. cbn [andb] in Heq.
    apply Z.ltb_ge in Heq. assert (q0 = Q) as -> by lia.
    apply highest_fold_same, Hfs.
Qed.



(** X13. [filterForHighestFiscalYearAndQuarter] is idempotent: the rows it
    returns all have the latest year and quarter, so that filtering them
    again returns them all. *)
Theorem filterForHighestFiscalYearAndQuarter_idempotent
    (features : list ArcGISFeature) (options : option FilterOptions)
    (result : list ArcGISFeature) :
  filterForHighestFiscalYearAndQuarter features options = Some result ->
  filterForHighestFiscalYearAndQuarter result options = Some result.
Proof.
  rewrite !filterForHighestFiscalYearAndQuarter_passes.
  set (yearField := option_yearField options).
  set (hasQuarter := option_hasQuarter options).
  destruct (fold_left _ features (Some (0, 0))) as [[maxYear maxQuarter]|] eqn:E;
    [|discriminate].
  intros [= <-].
  set (result := List.filter (highest_keep yearField hasQuarter maxYear maxQuarter) features).
  destruct (highest_fold _ _ _ _ _ E) as (Hstart & _ & Hfound). cbn in Hstart, Hfound.
  assert (forall f, f ∈ result ->
            highest_keep yearField hasQuarter maxYear maxQuarter f = true) as Hkeep
    by (intros f Hf; apply elem_of_filter in Hf as [_ Hf]; exact Hf).
  destruct result as [|r rs] eqn:Eresult; [reflexivity|].
  rewrite (highest_fold_reach yearField hasQuarter (r :: rs) (0, 0) (maxYear, maxQuarter)).
  - rewrite filter_all by exact Hkeep. reflexivity.
  - discriminate.
  - exact Hstart.
  - intros f Hf. apply Hkeep, highest_keep_true in Hf as [Hy Hq]. cbn [fst snd].
    rewrite Hy. split; [reflexivity|]. unfold quarter_or_0.
    destruct hasQuarter eqn:Eq.
    + rewrite (Hq eq_refl). reflexivity.
    + destruct Hfound as [[= _ <-]|(g & _ & _ & Hg)]; [reflexivity|].
      unfold quarter_or_0 in Hg. exact Hg.
Qed.

Lemma filterForHighestFiscalYearAndQuarter_idempotent_witness :
  filterForHighestFiscalYearAndQuarter
    [example_owner_row (Num 2026) (Str "3") "DOE JANE"] None
  = Some [example_owner_row (Num 2026) (Str "3") "DOE JANE"].
Proof.
  apply (filterForHighestFiscalYearAndQuarter_idempotent example_owner_rows None).
  reflexivity.
Defined.

(** X14. Rows without a quarter.  With [hasQuarter] left at its default, a
    layer none of whose rows has a quarter that [parseInt] reads (the
    attribute is missing, null or not a number) is filtered to the empty
    list: the latest quarter found is 0, and [parseInt] of the quarter of a
    row, NaN, is not equal to it. *)
Theorem filterForHighestFiscalYearAndQuarter_without_quarter
    (features : list ArcGISFeature) (options : option FilterOptions) :
  option_hasQuarter options = true ->
  (forall f, f ∈ features ->
     is_Some (year_or_0 (attr (attributes f) (option_yearField options)))) ->
  (forall f, f ∈ features -> parseInt (attr (attributes f) "quarter") = NaN) ->
  filterForHighestFiscalYearAndQuarter features options = Some [].
Proof.
  intros Hq Hyears Hnan.
  rewrite filterForHighestFiscalYearAndQuarter_passes.
  destruct (highest_fold_total _ (option_hasQuarter options) _ Hyears (0, 0))
    as [[maxYear maxQuarter] E].
  rewrite E. f_equal.
  induction features as [|f fs IH] in Hnan |- *; [reflexivity|].
  cbn [List.filter].
  destruct (highest_keep _ _ maxYear maxQuarter f) eqn:Ek.
  - apply highest_keep_true in Ek as [_ Ek]. specialize (Ek Hq).
    rewrite Hnan in Ek by apply list_elem_of_here. discriminate.
  - apply IH. intros g Hg. apply Hnan, list_elem_of_further, Hg.
Qed.

Lemma filterForHighestFiscalYearAndQuarter_without_quarter_witness :
  filterForHighestFiscalYearAndQuarter example_address_rows None = Some [] /\
  filterForHighestFiscalYearAndQuarter example_address_rows
    (Some {| yearField := None; hasQuarter := Some false |})
  = Some [example_address_row (Num 2026) "0100002000"].
Proof.
  split; [|reflexivity].
  apply (filterForHighestFiscalYearAndQuarter_without_quarter example_address_rows None).
  - reflexivity.
  - intros f Hf.
    repeat (apply elem_of_cons in Hf as [->|Hf]; [vm_compute; eauto|]).
    apply elem_of_nil in Hf as [].
  - intros f Hf.
    repeat (apply elem_of_cons in Hf as [->|Hf]; [reflexivity|]).
    apply elem_of_nil in Hf as [].
Defined.

End LatestRows.

(* ===================================================================== *)
(** * Buildings and complexes                                             *)
(* ===================================================================== *)

Section BuildingProperties.
Import EGISClient.

Lemma strictly_equals_eq a b : strictly_equals a b = true <-> a = b.
Proof.
  destruct a as [| |x|s], b as [| |y|t]; cbn;
    try (split; [discriminate | congruence]); try tauto.
  - rewrite Z.eqb_eq. split; congruence.
  - rewrite String.eqb_eq. split; congruence.
Qed.

(** Two rows have no differences exactly when they agree on every compared
    attribute. *)
Lemma differences_nil prev curr :
  differences prev curr = [] <->
  forall name, name ∈ comparedAttributes.*1 -> attr prev name = attr curr name.
Proof.
  unfold differences.
  induction comparedAttributes as [|[name label] rest IH]; cbn [List.filter List.map fmap list_fmap].
  - split; [|reflexivity]. intros _ name H. apply elem_of_nil in H as [].
  - cbn [fst]. destruct (strictly_equals (attr prev name) (attr curr name)) eqn:E;
      cbn [negb List.map].
    + apply strictly_equals_eq in E. rewrite IH. split.
      * intros H n Hn. apply elem_of_cons in Hn as [->|Hn]; [exact E | apply H, Hn].
      * intros H n Hn. apply H, list_elem_of_further, Hn.
    + split; [discriminate|]. intros H.
      specialize (H name (list_elem_of_here _ _)).
      apply strictly_equals_eq in H. congruence.
Qed.

Lemma differences_not_nil prev curr :
  differences prev curr <> [] ->
  exists name, name ∈ comparedAttributes.*1 /\ attr prev name <> attr curr name.
Proof.
  unfold differences.
  induction comparedAttributes as [|[name label] rest IH];
    cbn [List.filter List.map fmap list_fmap]; [congruence|].
  cbn [fst]. destruct (strictly_equals (attr prev name) (attr curr name)) eqn:E;
    cbn [negb].
  - intros H. destruct (IH H) as (n & Hn & Hne).
    exists n. split; [apply list_elem_of_further, Hn | exact Hne].
  - intros _. exists name. split; [apply list_elem_of_here|].
    intros H. apply strictly_equals_eq in H. congruence.
Qed.

Lemma Array_some_true {A : Type} (callback : A -> nat -> bool) (arr : list A) :
  forall i,
    Array_some callback i arr = true <->
    exists j element, arr !! j = Some element /\ callback element (i + j)%nat = true.
Proof.
  induction arr as [|x rest IH]; intros i; cbn [Array_some].
  - split; [discriminate|]. intros (j & e & H & _). rewrite lookup_nil in H. discriminate.
  - rewrite orb_true_iff, IH. split.
    + intros [H|(j & e & Hj & He)].
      * exists O, x. rewrite Nat.add_0_r. auto.
      * exists (S j), e. rewrite Nat.add_succ_r. auto.
    + intros ([|j] & e & Hj & He).
      * cbn in Hj. injection Hj as <-. rewrite Nat.add_0_r in He. auto.
      * right. exists j, e. rewrite Nat.add_succ_r in He. auto.
Qed.

(** [hasMultipleBuildings] holds when two neighbours differ. *)
Lemma hasMultipleBuildings_neighbours features :
  hasMultipleBuildings features = true <->
  exists i previous feature,
    features !! i = Some previous /\ features !! S i = Some feature /\
    differences (attributes previous) (attributes feature) <> [].
Proof.
  unfold hasMultipleBuildings. rewrite andb_true_iff, Array_some_true. split.
  - intros (_ & j & feature & Hj & H). cbn [Nat.add] in H.
    destruct j as [|j]; [discriminate|]. cbn [Nat.eqb] in H.
    replace (S j - 1)%nat with j in H by lia.
    destruct (features !! j) as [previous|] eqn:Ep; [|discriminate].
    exists j, previous, feature. repeat split; try assumption.
    cbv zeta in H. apply Nat.ltb_lt in H. intros E. rewrite E in H. cbn in H. lia.
  - intros (i & previous & feature & Hi & Hs & Hd). split.
    + apply Nat.ltb_lt. apply lookup_lt_Some in Hs. lia.
    + exists (S i), feature. split; [exact Hs|]. cbn [Nat.add Nat.eqb].
      replace (S i - 1)%nat with i by lia. rewrite Hi. cbv zeta.
      apply Nat.ltb_lt. destruct (differences _ _); [congruence | cbn; lia].
Qed.

(** Rows whose neighbours have no differences all agree with the first. *)
Lemma neighbours_agree features first :
  head features = Some first ->
  (forall i previous feature,
      features !! i = Some previous -> features !! S i = Some feature ->
      differences (attributes previous) (attributes feature) = []) ->
  forall f, f ∈ features ->
    forall name, name ∈ comparedAttributes.*1 ->
      attr (attributes first) name = attr (attributes f) name.
Proof.
  revert first. induction features as [|x rest IH]; intros first; [discriminate|].
  intros [= ->] Hn f Hf name Hname.
  apply elem_of_cons in Hf as [->|Hf]; [reflexivity|].
  destruct rest as [|y rest']; [apply elem_of_nil in Hf as []|].
  pose proof (Hn O first y eq_refl eq_refl) as H0.
  rewrite differences_nil in H0. rewrite (H0 name Hname).
  apply (IH y eq_refl); [|exact Hf | exact Hname].
  intros i p g Hp Hg. apply (Hn (S i) p g); assumption.
Qed.

Lemma hasMultipleBuildings_true features :
  hasMultipleBuildings features = true <->
  exists f g name,
    f ∈ features /\ g ∈ features /\ name ∈ comparedAttributes.*1 /\
    attr (attributes f) name <> attr (attributes g) name.
Proof.
  split.
  - intros H. apply hasMultipleBuildings_neighbours in H
      as (i & previous & feature & Hi & Hs & Hd).
    destruct (differences_not_nil _ _ Hd) as (name & Hname & Hne).
    exists previous, feature, name.
    repeat split; try assumption; eapply list_elem_of_lookup_2; eassumption.
  - intros (f & g & name & Hf & Hg & Hname & Hne).
    destruct (hasMultipleBuildings features) eqn:E; [reflexivity|]. exfalso.
    destruct features as [|first rest]; [apply elem_of_nil in Hf as []|].
    assert (forall i previous feature,
               (first :: rest) !! i = Some previous ->
               (first :: rest) !! S i = Some feature ->
               differences (attributes previous) (attributes feature) = []) as Hn.
    { intros i p q Hp Hq.
      destruct (differences (attributes p) (attributes q)) eqn:Ed; [reflexivity|].
      assert (hasMultipleBuildings (first :: rest) = true) as Ht.
      { apply hasMultipleBuildings_neighbours. exists i, p, q.
        repeat split; try assumption. rewrite Ed. discriminate. }
      congruence. }
    pose proof (neighbours_agree (first :: rest) first eq_refl Hn) as Hagree.
    apply Hne. rewrite <- (Hagree f Hf name Hname). apply (Hagree g Hg name Hname).
Qed.

(** X15. [hasMultipleBuildings] compares each row with the one before it,
    yet it holds exactly when some two rows of the array, neighbours or not,
    differ on one of the compared attributes.  Hence it does not depend on
    the order of the rows. *)
Theorem hasMultipleBuildings_any_two_rows (features : list ArcGISFeature) :
  (hasMultipleBuildings features = true <->
   exists f g name,
     f ∈ features /\ g ∈ features /\ name ∈ comparedAttributes.*1 /\
     attr (attributes f) name <> attr (attributes g) name) /\
  (forall features', features ≡ₚ features' ->
                     hasMultipleBuildings features' = hasMultipleBuildings features).
Proof.
  split; [apply hasMultipleBuildings_true|].
  intros features' Hperm.
  destruct (hasMultipleBuildings features') eqn:E'; symmetry.
  - apply hasMultipleBuildings_true in E' as (f & g & name & Hf & Hg & Hname & Hne).
    apply hasMultipleBuildings_true. exists f, g, name. rewrite Hperm. auto.
  - destruct (hasMultipleBuildings features) eqn:E; [|reflexivity].
    apply hasMultipleBuildings_true in E as (f & g & name & Hf & Hg & Hname & Hne).
    rewrite <- E'. symmetry. apply hasMultipleBuildings_true.
    exists f, g, name. rewrite <- Hperm. auto.
Qed.

Lemma hasMultipleBuildings_any_two_rows_witness :
  hasMultipleBuildings
    [example_building "Colonial" 3; example_building "Colonial" 3;
     example_building "Ranch" 2]
  = hasMultipleBuildings
      [example_building "Ranch" 2; example_building "Colonial" 3;
       example_building "Colonial" 3].
Proof.
  destruct (hasMultipleBuildings_any_two_rows
              [example_building "Ranch" 2; example_building "Colonial" 3;
               example_building "Colonial" 3]) as [_ H].
  apply H.
  change ([example_building "Ranch" 2] ++ [example_building "Colonial" 3;
                                           example_building "Colonial" 3]
          ≡ₚ [example_building "Colonial" 3; example_building "Colonial" 3]
             ++ [example_building "Ranch" 2]).
  apply Permutation_app_comm.
Defined.

(** X16. The layout and the buildings of a record.  When
    [hasMultipleBuildings] holds the layout is "multiple_buildings"; the
    layout is "multiple_buildings" without [hasMultipleBuildings] (and the
    record has no [buildingAttributes]) exactly when there are two rows or
    more and all rows agree on every compared attribute. *)
Theorem layout_multiple_buildings
    (residentialPropertyFeatures : list ArcGISFeature) (partOfComplex : bool) :
  (hasMultipleBuildings residentialPropertyFeatures = true ->
   layout residentialPropertyFeatures partOfComplex = "multiple_buildings"%string) /\
  (layout residentialPropertyFeatures partOfComplex = "multiple_buildings"%string /\
   hasMultipleBuildings residentialPropertyFeatures = false <->
   (1 < length residentialPropertyFeatures)%nat /\
   forall f g name,
     f ∈ residentialPropertyFeatures -> g ∈ residentialPropertyFeatures ->
     name ∈ comparedAttributes.*1 ->
     attr (attributes f) name = attr (attributes g) name).
Proof.
  assert (layout residentialPropertyFeatures partOfComplex = "multiple_buildings"%string
          <-> (1 < length residentialPropertyFeatures)%nat) as Hlayout.
  { unfold layout. destruct (Nat.ltb_spec 1 (length residentialPropertyFeatures)).
    - tauto.
    - split; [|lia]. destruct partOfComplex; discriminate. }
  split.
  - intros H. apply Hlayout. unfold hasMultipleBuildings in H.
    apply andb_true_iff in H as [H _]. apply Nat.ltb_lt in H. exact H.
  - rewrite Hlayout. split.
    + intros [Hlen Hfalse]. split; [exact Hlen|]. intros f g name Hf Hg Hname.
      destruct (strictly_equals (attr (attributes f) name) (attr (attributes g) name))
        eqn:E; [apply strictly_equals_eq, E|].
      assert (hasMultipleBuildings residentialPropertyFeatures = true) as Ht.
      { apply hasMultipleBuildings_true. exists f, g, name.
        repeat split; try assumption. intros Heq. apply strictly_equals_eq in Heq.
        congruence. }
      congruence.
    + intros [Hlen Hall]. split; [exact Hlen|].
      destruct (hasMultipleBuildings residentialPropertyFeatures) eqn:E; [|reflexivity].
      apply hasMultipleBuildings_true in E as (f & g & name & Hf & Hg & Hname & Hne).
      exfalso. apply Hne, Hall; assumption.
Qed.

Lemma layout_multiple_buildings_witness :
  layout [example_building "Colonial" 3; example_building "Ranch" 2] false
  = "multiple_buildings"%string.
Proof.
  destruct (layout_multiple_buildings
              [example_building "Colonial" 3; example_building "Ranch" 2] false)
    as [H _].
  apply H. reflexivity.
Defined.

Lemma takeWhile_spec p s :
  exists rest,
    s = (takeWhile p s ++ rest)%string /\
    allChars p (takeWhile p s) = true /\
    match rest with
    | EmptyString => True
    | String c _ => p c = false
    end.
Proof.
  induction s as [|c r (rest & Hs & Hall & Hrest)]; cbn [takeWhile].
  - exists EmptyString. repeat split.
  - destruct (p c) eqn:E.
    + exists rest. cbn [allChars]. rewrite E, Hall. repeat split; [|exact Hrest].
      change (String c r = String c (takeWhile p r ++ rest)%string). rewrite <- Hs.
      reflexivity.
    + exists (String c r). repeat split. exact E.
Qed.

(** X17. [extractMasterParcelId] answers the longest prefix of letters and
    digits of the identifier of a complex, when that prefix is not empty; it
    answers [undefined] exactly when the identifier is empty or starts with
    another character.  An identifier that starts with a space is therefore
    part of a complex without a master parcel. *)
Theorem extractMasterParcelId_prefix (complexIdentifier : string) :
  (forall id,
      extractMasterParcelId (Some complexIdentifier) = Some id ->
      id <> EmptyString /\ allChars isAlphanumeric id = true /\
      exists rest,
        complexIdentifier = (id ++ rest)%string /\
        match rest with
        | EmptyString => True
        | String c _ => isAlphanumeric c = false
        end) /\
  (extractMasterParcelId (Some complexIdentifier) = None <->
   match complexIdentifier with
   | EmptyString => True
   | String c _ => isAlphanumeric c = false
   end) /\
  (forall c r,
      complexIdentifier = String c r -> isWhiteSpace c = true ->
      allChars isWhiteSpace complexIdentifier = false ->
      isPartOfComplex (Some complexIdentifier) = true /\
      extractMasterParcelId (Some complexIdentifier) = None).
Proof.
  assert (forall c, isWhiteSpace c = true -> isAlphanumeric c = false) as Hws.
  { intros c. destruct c as [[] [] [] [] [] [] [] []]; vm_compute; congruence. }
  assert (extractMasterParcelId (Some complexIdentifier) = None <->
          match complexIdentifier with
          | EmptyString => True
          | String c _ => isAlphanumeric c = false
          end) as Hnone.
  { unfold extractMasterParcelId. destruct complexIdentifier as [|c r]; [cbn; tauto|].
    cbn [String.eqb orb]. change (String.eqb (String c r) EmptyString) with false.
    cbn [orb].
    destruct (String.eqb (trim (String c r)) EmptyString) eqn:Et.
    - split; [|reflexivity]. intros _. apply String.eqb_eq, trim_empty in Et.
      cbn [allChars] in Et. apply andb_true_iff in Et as [Et _]. apply Hws, Et.
    - cbv zeta. cbn [takeWhile]. destruct (isAlphanumeric c); cbn; split; congruence. }
  split; [|split; [exact Hnone|]].
  - intros id. unfold extractMasterParcelId.
    destruct (_ || _); [discriminate|]. cbv zeta.
    destruct (String.eqb_spec (takeWhile isAlphanumeric complexIdentifier) EmptyString)
      as [|Hne]; [discriminate|].
    intros [= <-]. split; [exact Hne|].
    destruct (takeWhile_spec isAlphanumeric complexIdentifier) as (rest & Hs & Hall & Hrest).
    split; [exact Hall|]. exists rest. split; assumption.
  - intros c r -> Hc Hblank. split.
    + unfold isPartOfComplex. apply negb_true_iff.
      destruct (String.eqb_spec (trim (String c r)) EmptyString) as [E|]; [|reflexivity].
      apply trim_empty in E. congruence.
    + apply Hnone. apply Hws, Hc.
Qed.

Lemma extractMasterParcelId_prefix_witness :
  extractMasterParcelId (Some "0302951000 CONDO MAIN"%string) = Some "0302951000"%string /\
  isPartOfComplex (Some " 0302951000"%string) = true /\
  extractMasterParcelId (Some " 0302951000"%string) = None.
Proof.
  split; [reflexivity|].
  destruct (extractMasterParcelId_prefix " 0302951000"%string) as (_ & _ & H).
  apply (H " "%char "0302951000"%string); reflexivity.
Defined.

End BuildingProperties.

(* ===================================================================== *)
(** * Failed requests                                                     *)
(* ===================================================================== *)

Section RetryProperties.
Import EGISClient.

(** One round of the retry loop against the server, by the response it
    meets. *)
Lemma retryRound_OkJson fullUrl retryCount response data rest log waited :
  retryCount < 3 ->
  interp_state serve_timed (retryRound fullUrl (retryCount, response))
    {| responses := OkJson data :: rest; urls := log; delays := waited |}
  ≈ Ret ({| responses := rest; urls := log ++ [fullUrl]; delays := waited |},
         inr (inr (Some true, data))).
Proof.
  intros H. unfold retryRound, maxRetries.
  destruct (Z.ltb_spec retryCount 3); [|lia].
  rewrite interp_state_bind, interp_state_trigger. cbn.
  rewrite bind_ret_l. cbn. rewrite interp_state_ret. reflexivity.
Qed.

Lemma retryRound_NotOk fullUrl retryCount response rest log waited :
  retryCount < 3 ->
  interp_state serve_timed (retryRound fullUrl (retryCount, response))
    {| responses := NotOk :: rest; urls := log; delays := waited |}
  ≈ Ret ({| responses := rest; urls := log ++ [fullUrl];
            delays := waited ++ [1000 * (retryCount + 1)] |},
         inl (retryCount + 1, Some false)).
Proof.
  intros H. unfold retryRound, maxRetries.
  destruct (Z.ltb_spec retryCount 3); [|lia].
  rewrite interp_state_bind, interp_state_trigger. cbn.
  rewrite bind_ret_l. cbn.
  rewrite interp_state_bind, interp_state_trigger. cbn.
  rewrite bind_ret_l. cbn. rewrite interp_state_ret. reflexivity.
Qed.

Lemma retryRound_exception fullUrl retryCount response r error rest log waited :
  retryCount < 3 ->
  r = Rejected error \/ r = BadJson error ->
  interp_state serve_timed (retryRound fullUrl (retryCount, response))
    {| responses := r :: rest; urls := log; delays := waited |}
  ≈ (if retryCount + 1 =? 3
     then Ret ({| responses := rest; urls := log ++ [fullUrl]; delays := waited |},
               inr (inl error))
     else Ret ({| responses := rest; urls := log ++ [fullUrl];
                  delays := waited ++ [1000 * (retryCount + 1)] |},
               inl (retryCount + 1,
                    match r with BadJson _ => Some true | _ => response end))).
Proof.
  intros H Hr. unfold retryRound, maxRetries.
  destruct (Z.ltb_spec retryCount 3); [|lia].
  rewrite interp_state_bind, interp_state_trigger. cbn.
  rewrite bind_ret_l. cbn.
  destruct Hr as [-> | ->]; cbn;
    (destruct (retryCount + 1 =? 3);
     [rewrite interp_state_ret; reflexivity|];
     rewrite interp_state_bind, interp_state_trigger; cbn;
     rewrite bind_ret_l; cbn; rewrite interp_state_ret; reflexivity).
Qed.

(** The retry loop on attempts that fail, fewer than are allowed, followed
    by one that succeeds. *)
Lemma retryLoop_recovers fullUrl data rest fails :
  forall retryCount response log waited,
    0 <= retryCount -> retryCount + Z.of_nat (length fails) < 3 ->
    Forall (fun r => failed r = true) fails ->
    interp_state serve_timed (ITree.iter (retryRound fullUrl) (retryCount, response))
      {| responses := fails ++ OkJson data :: rest; urls := log; delays := waited |}
    ≈ Ret ({| responses := rest;
              urls := log ++ repeat fullUrl (S (length fails));
              delays := waited ++ backoff retryCount (length fails) |},
           inr (Some true, data)).
Proof.
  induction fails as [|r fails IH]; intros retryCount response log waited H0 Hlt Hfails.
  - cbn [app length repeat backoff]. rewrite unfold_iter, interp_state_bind.
    rewrite retryRound_OkJson by (cbn in Hlt; lia).
    rewrite bind_ret_l. cbn [fst snd]. rewrite interp_state_ret, app_nil_r. reflexivity.
  - apply Forall_cons in Hfails as [Hr Hfails].
    cbn [length] in Hlt. rewrite Nat2Z.inj_succ in Hlt.
    cbn [app length repeat backoff].
    rewrite unfold_iter, interp_state_bind.
    destruct r as [error| |error|data']; [| | |discriminate].
    + rewrite (retryRound_exception _ _ _ (Rejected error) error) by (auto; lia).
      destruct (Z.eqb_spec (retryCount + 1) 3); [lia|].
      rewrite bind_ret_l. cbn [fst snd]. rewrite interp_state_tau, tau_eutt.
      rewrite IH by (try assumption; lia).
      rewrite <- !app_assoc. reflexivity.
    + rewrite retryRound_NotOk by lia.
      rewrite bind_ret_l. cbn [fst snd]. rewrite interp_state_tau, tau_eutt.
      rewrite IH by (try assumption; lia).
      rewrite <- !app_assoc. reflexivity.
    + rewrite (retryRound_exception _ _ _ (BadJson error) error) by (auto; lia).
      destruct (Z.eqb_spec (retryCount + 1) 3); [lia|].
      rewrite bind_ret_l. cbn [fst snd]. rewrite interp_state_tau, tau_eutt.
      rewrite IH by (try assumption; lia).
      rewrite <- !app_assoc. reflexivity.
Qed.

(** The retry loop on attempts that all fail, as many as are allowed: after
    an exception at the last one the exception leaves the loop at once; after
    a response that is not ok the loop waits once more and ends without
    data. *)
Lemma retryLoop_gives_up fullUrl rest fails :
  forall retryCount response log waited final,
    0 <= retryCount -> retryCount + Z.of_nat (length fails) + 1 = 3 ->
    Forall (fun r => failed r = true) fails -> failed final = true ->
    interp_state serve_timed (ITree.iter (retryRound fullUrl) (retryCount, response))
      {| responses := fails ++ final :: rest; urls := log; delays := waited |}
    ≈ Ret ({| responses := rest;
              urls := log ++ repeat fullUrl (S (length fails));
              delays := waited ++ backoff retryCount (length fails)
                          ++ match final with NotOk => [3000] | _ => [] end |},
           match final with
           | Rejected error | BadJson error => inl error
           | _ => inr (Some false, None)
           end).
Proof.
  induction fails as [|r fails IH];
    intros retryCount response log waited final H0 Hlt Hfails Hfinal.
  - cbn [length] in Hlt. assert (retryCount = 2) as -> by lia.
    cbn [app length repeat backoff]. rewrite unfold_iter, interp_state_bind.
    destruct final as [error| |error|data']; [| | |discriminate].
    + rewrite (retryRound_exception _ _ _ (Rejected error) error) by (auto; lia).
      change (2 + 1 =? 3) with true. cbv iota.
      rewrite bind_ret_l. cbn [fst snd]. rewrite interp_state_ret, app_nil_r.
      reflexivity.
    + rewrite retryRound_NotOk by lia.
      rewrite bind_ret_l. cbn [fst snd]. rewrite interp_state_tau, tau_eutt.
      rewrite unfold_iter, interp_state_bind. unfold retryRound at 1.
      change (2 + 1 <? maxRetries) with false. cbv iota.
      rewrite interp_state_ret, bind_ret_l. cbn [fst snd].
      rewrite interp_state_ret. reflexivity.
    + rewrite (retryRound_exception _ _ _ (BadJson error) error) by (auto; lia).
      change (2 + 1 =? 3) with true. cbv iota.
      rewrite bind_ret_l. cbn [fst snd]. rewrite interp_state_ret, app_nil_r.
      reflexivity.
  - apply Forall_cons in Hfails as [Hr Hfails].
    cbn [length] in Hlt. rewrite Nat2Z.inj_succ in Hlt.
    cbn [app length repeat backoff].
    rewrite unfold_iter, interp_state_bind.
    destruct r as [error| |error|data']; [| | |discriminate].
    + rewrite (retryRound_exception _ _ _ (Rejected error) error) by (auto; lia).
      destruct (Z.eqb_spec (retryCount + 1) 3); [lia|].
      rewrite bind_ret_l. cbn [fst snd]. rewrite interp_state_tau, tau_eutt.
      rewrite IH by (try assumption; lia).
      rewrite <- !app_assoc. reflexivity.
    + rewrite retryRound_NotOk by lia.
      rewrite bind_ret_l. cbn [fst snd]. rewrite interp_state_tau, tau_eutt.
      rewrite IH by (try assumption; lia).
      rewrite <- !app_assoc. reflexivity.
    + rewrite (retryRound_exception _ _ _ (BadJson error) error) by (auto; lia).
      destruct (Z.eqb_spec (retryCount + 1) 3); [lia|].
      rewrite bind_ret_l. cbn [fst snd]. rewrite interp_state_tau, tau_eutt.
      rewrite IH by (try assumption; lia).
      rewrite <- !app_assoc. reflexivity.
Qed.

(** One round of the page loop on a page that arrives after fewer failed
    attempts than are allowed. *)
Lemma pageRound_retried url query allFeatures resultOffset requestCount
    fails page rest log waited :
  (length fails <= 2)%nat ->
  Forall (fun r => failed r = true) fails ->
  interp_state serve_timed (pageRound url query (allFeatures, resultOffset, requestCount))
    {| responses := fails ++ OkJson (Some page) :: rest; urls := log; delays := waited |}
  ≈ Ret ({| responses := rest;
            urls := log ++ repeat (pageUrl url query resultOffset) (S (length fails));
            delays := waited ++ backoff 0 (length fails) |},
         match default [] (features page) with
         | [] => inr (inr allFeatures)
         | _ :: _ =>
             if negb (default false (exceededTransferLimit page))
             then inr (inr (allFeatures ++ default [] (features page)))
             else inl (allFeatures ++ default [] (features page),
                       resultOffset + Z.of_nat (length (default [] (features page))),
                       requestCount + 1)
         end).
Proof.
  intros Hlen Hfails. unfold pageRound. cbv zeta. rewrite pageUrl_eq.
  unfold fetchWithRetries.
  rewrite interp_state_bind, retryLoop_recovers by (try assumption; lia).
  rewrite bind_ret_l. cbn -[pageUrl push_batches backoff].
  destruct (default [] (features page)) as [|f fs] eqn:E.
  - cbn [length]. change (Z.of_nat 0 =? 0) with true. cbv iota.
    rewrite interp_state_ret. reflexivity.
  - cbn [length]. rewrite Nat2Z.inj_succ.
    destruct (Z.eqb_spec (Z.succ (Z.of_nat (length fs))) 0) as [H0|_]; [lia|].
    rewrite push_batches_app by reflexivity.
    destruct (negb (default false (exceededTransferLimit page)));
      rewrite interp_state_ret; reflexivity.
Qed.

(** The error [fetchEGISData] throws when the last attempt allowed has
    failed with [final]. *)
Lemma pageRound_gives_up url query allFeatures resultOffset requestCount
    first second final rest log waited :
  failed first = true -> failed second = true -> failed final = true ->
  interp_state serve_timed (pageRound url query (allFeatures, resultOffset, requestCount))
    {| responses := first :: second :: final :: rest; urls := log; delays := waited |}
  ≈ Ret ({| responses := rest;
            urls := log ++ repeat (pageUrl url query resultOffset) 3;
            delays := waited ++ [1000; 2000]
                        ++ match final with NotOk => [3000] | _ => [] end |},
         inr (inl match final with
                  | Rejected error | BadJson error => error
                  | _ => "Failed to fetch data after 3 retries"%string
                  end)).
Proof.
  intros H1 H2 H3. unfold pageRound. cbv zeta. rewrite pageUrl_eq.
  unfold fetchWithRetries.
  rewrite interp_state_bind.
  rewrite (retryLoop_gives_up _ rest [first; second] 0 None log waited final)
    by (try assumption; try reflexivity; repeat constructor; assumption).
  rewrite bind_ret_l. cbn -[pageUrl].
  destruct final as [error| |error|data']; [| | |discriminate];
    rewrite interp_state_ret; reflexivity.
Qed.

(** An ok response whose body is null ends the retry loop at the first
    attempt, and the page loop with the error of an exhausted request. *)
Lemma pageRound_null_body url query allFeatures resultOffset requestCount rest log waited :
  interp_state serve_timed (pageRound url query (allFeatures, resultOffset, requestCount))
    {| responses := OkJson None :: rest; urls := log; delays := waited |}
  ≈ Ret ({| responses := rest; urls := log ++ [pageUrl url query resultOffset];
            delays := waited |},
         inr (inl "Failed to fetch data after 3 retries"%string)).
Proof.
  unfold pageRound. cbv zeta. rewrite pageUrl_eq. unfold fetchWithRetries.
  rewrite interp_state_bind.
  rewrite (retryLoop_recovers _ None rest [] 0 None log waited)
    by (try constructor; cbn; lia).
  rewrite bind_ret_l. cbn -[pageUrl]. rewrite interp_state_ret, app_nil_r. reflexivity.
Qed.

(** The page loop runs through pages that are not empty and report more
    data, each after fewer failed attempts than are allowed, and goes on with
    their features collected and the offset moved. *)
Lemma pageLoop_prefix url query pages :
  forall allFeatures resultOffset requestCount more log waited,
    Forall (fun page =>
              (length page.1 <= 2)%nat /\ Forall (fun r => failed r = true) page.1 /\
              default [] (features page.2) <> [] /\
              default false (exceededTransferLimit page.2) = true) pages ->
    interp_state serve_timed
      (ITree.iter (pageRound url query) (allFeatures, resultOffset, requestCount))
      {| responses := flat_map attempts pages ++ more; urls := log; delays := waited |}
    ≈ interp_state serve_timed
        (ITree.iter (pageRound url query)
           (allFeatures ++ concat (List.map (fun page => default [] (features page.2)) pages),
            resultOffset
            + Z.of_nat (length (concat (List.map (fun page => default [] (features page.2))
                                          pages))),
            requestCount + Z.of_nat (length pages)))
        {| responses := more;
           urls := log ++ attemptUrls url query resultOffset pages;
           delays := waited ++ flat_map (fun page => backoff 0 (length page.1)) pages |}.
Proof.
  induction pages as [|[fails page] pages IH];
    intros allFeatures resultOffset requestCount more log waited Hpages.
  - cbn [flat_map app List.map concat length attemptUrls].
    rewrite !app_nil_r, !Z.add_0_r. reflexivity.
  - apply Forall_cons in Hpages as [(Hlen & Hfails & Hne & Hmore) Hpages].
    cbn [fst snd] in *.
    cbn [flat_map List.map concat attemptUrls fst snd]. unfold attempts at 1.
    cbn [fst snd]. rewrite <- !app_assoc. cbn [app].
    rewrite unfold_iter, interp_state_bind, pageRound_retried by assumption.
    rewrite bind_ret_l. cbn [fst snd].
    destruct (default [] (features page)) as [|f fs] eqn:E; [congruence|].
    rewrite Hmore. cbn [negb]. rewrite interp_state_tau, tau_eutt.
    rewrite IH by assumption.
    match goal with
    | |- interp_state _ (ITree.iter _ ?a) ?s ≈ interp_state _ (ITree.iter _ ?b) ?s' =>
        replace b with a; [replace s' with s; [reflexivity|]|]
    end.
    + rewrite <- !app_assoc. reflexivity.
    + rewrite <- E. cbn [List.map concat fst snd length].
      rewrite <- !app_assoc, length_app, Nat2Z.inj_add, Nat2Z.inj_succ.
      f_equal; [f_equal|]; lia.
Qed.

Lemma attemptUrls_app url query pages last :
  forall offset,
    attemptUrls url query offset (pages ++ [last])
    = attemptUrls url query offset pages
      ++ repeat (pageUrl url query
                   (offset
                    + Z.of_nat (length (concat (List.map
                                                  (fun page => default [] (features page.2))
                                                  pages)))))
           (S (length last.1)).
Proof.
  induction pages as [|page pages IH]; intros offset;
    cbn [attemptUrls List.map concat app length].
  - rewrite app_nil_r, Z.add_0_r. reflexivity.
  - rewrite IH, length_app, Nat2Z.inj_add, Z.add_assoc, <- app_assoc. reflexivity.
Qed.

(** X18. Failed attempts that stay below the limit are transparent: when
    every page arrives after at most two failed attempts (responses that are
    not ok, or exceptions of [fetch] or [json]), [fetchEGISData] returns the
    same features as without failures; each page is requested once more per
    failed attempt, at the same offset, and the attempt number [k] of a page
    is followed by a delay of [1000 * k] milliseconds. *)
Theorem fetchEGISData_retries
    (url query : string) (pages : list (list FetchResult * EGISQueryResponse))
    (last : list FetchResult * EGISQueryResponse) (rest : list FetchResult) :
  Forall (fun page =>
            (length page.1 <= 2)%nat /\ Forall (fun r => failed r = true) page.1 /\
            default [] (features page.2) <> [] /\
            exceededTransferLimit page.2 = Some true) pages ->
  (length last.1 <= 2)%nat -> Forall (fun r => failed r = true) last.1 ->
  default [] (features last.2) <> [] ->
  exceededTransferLimit last.2 = None \/ exceededTransferLimit last.2 = Some false ->
  interp_state serve_timed (fetchEGISData url query)
    {| responses := flat_map attempts (pages ++ [last]) ++ rest;
       urls := []; delays := [] |}
  ≈ Ret ({| responses := rest;
            urls := attemptUrls url query 0 (pages ++ [last]);
            delays := flat_map (fun page => backoff 0 (length page.1)) (pages ++ [last]) |},
         inr (concat (List.map (fun page => default [] (features page.2))
                        (pages ++ [last])))).
Proof.
  intros Hpages Hlen Hfails Hne Hstop. unfold fetchEGISData.
  rewrite flat_map_app. cbn [flat_map]. rewrite app_nil_r, <- app_assoc.
  rewrite pageLoop_prefix.
  2:{ eapply Forall_impl; [exact Hpages|]. cbn. intros p (H1 & H2 & H3 & ->). auto. }
  unfold attempts at 1. rewrite <- app_assoc. cbn [app].
  rewrite unfold_iter, interp_state_bind, pageRound_retried by assumption.
  rewrite bind_ret_l. cbn [fst snd].
  destruct (default [] (features last.2)) as [|f fs] eqn:E; [congruence|].
  assert (default false (exceededTransferLimit last.2) = false) as ->
    by (destruct Hstop as [-> | ->]; reflexivity).
  cbn [negb]. rewrite interp_state_ret.
  match goal with
  | |- Ret ?a ≈ Ret ?b => replace b with a; [reflexivity|]
  end.
  rewrite List.map_app, concat_app, !flat_map_app. cbn [List.map concat flat_map app].
  rewrite E, !app_nil_r, attemptUrls_app. reflexivity.
Qed.

Lemma fetchEGISData_retries_witness :
  interp_state serve_timed (fetchEGISData "layer" "?where=1=1&f=json")
    {| responses :=
         [NotOk;
          OkJson (Some (example_page ["0100001000"; "0100002000"] (Some true)));
          Rejected "ECONNRESET"; BadJson "Unexpected token";
          OkJson (Some (example_page ["0100003000"] None))]%string;
       urls := []; delays := [] |}
  ≈ Ret ({| responses := [];
            urls :=
              ["layer/query?where=1=1&f=json&resultOffset=0&resultRecordCount=1000";
               "layer/query?where=1=1&f=json&resultOffset=0&resultRecordCount=1000";
               "layer/query?where=1=1&f=json&resultOffset=2&resultRecordCount=1000";
               "layer/query?where=1=1&f=json&resultOffset=2&resultRecordCount=1000";
               "layer/query?where=1=1&f=json&resultOffset=2&resultRecordCount=1000"]%string;
            delays := [1000; 1000; 2000] |},
         inr (default [] (features (example_page ["0100001000"; "0100002000"]%string
                                      (Some true)))
              ++ default [] (features (example_page ["0100003000"]%string None)))).
Proof.
  apply (fetchEGISData_retries "layer" "?where=1=1&f=json"
           [([NotOk], example_page ["0100001000"; "0100002000"]%string (Some true))]
           ([Rejected "ECONNRESET"; BadJson "Unexpected token"]%string,
            example_page ["0100003000"]%string None)
           []).
  - repeat constructor. discriminate.
  - cbn. lia.
  - repeat constructor.
  - discriminate.
  - left. reflexivity.
Defined.

(** X19. When the three attempts allowed for a page all fail, [fetchEGISData]
    throws and returns none of the pages it has collected: the exception of
    the third attempt when it ended with an exception, and the error "Failed
    to fetch data after 3 retries" when it ended with a response that is not
    ok.  The page has been requested three times at the same offset; the
    delays are 1000 and 2000 milliseconds, and 3000 more after a third
    response that is not ok. *)
Theorem fetchEGISData_gives_up
    (url query : string) (pages : list (list FetchResult * EGISQueryResponse))
    (first second final : FetchResult) (rest : list FetchResult) :
  Forall (fun page =>
            (length page.1 <= 2)%nat /\ Forall (fun r => failed r = true) page.1 /\
            default [] (features page.2) <> [] /\
            exceededTransferLimit page.2 = Some true) pages ->
  failed first = true -> failed second = true -> failed final = true ->
  interp_state serve_timed (fetchEGISData url query)
    {| responses := flat_map attempts pages ++ first :: second :: final :: rest;
       urls := []; delays := [] |}
  ≈ Ret ({| responses := rest;
            urls := attemptUrls url query 0 pages
                    ++ repeat (pageUrl url query
                                 (Z.of_nat (length (concat
                                    (List.map (fun page => default [] (features page.2))
                                       pages))))) 3;
            delays := flat_map (fun page => backoff 0 (length page.1)) pages
                      ++ [1000; 2000]
                      ++ match final with NotOk => [3000] | _ => [] end |},
         inl match final with
             | Rejected error | BadJson error => error
             | _ => "Failed to fetch data after 3 retries"%string
             end).
Proof.
  intros Hpages H1 H2 H3. unfold fetchEGISData.
  rewrite pageLoop_prefix.
  2:{ eapply Forall_impl; [exact Hpages|]. cbn. intros p (? & ? & ? & ->). auto. }
  rewrite unfold_iter, interp_state_bind, pageRound_gives_up by assumption.
  rewrite bind_ret_l. cbn [fst snd]. rewrite interp_state_ret. reflexivity.
Qed.

Lemma fetchEGISData_gives_up_witness :
  interp_state serve_timed (fetchEGISData "layer" "?where=1=1&f=json")
    {| responses :=
         [OkJson (Some (example_page ["0100001000"; "0100002000"] (Some true)));
          Rejected "ECONNRESET"; NotOk; NotOk]%string;
       urls := []; delays := [] |}
  ≈ Ret ({| responses := [];
            urls :=
              ["layer/query?where=1=1&f=json&resultOffset=0&resultRecordCount=1000";
               "layer/query?where=1=1&f=json&resultOffset=2&resultRecordCount=1000";
               "layer/query?where=1=1&f=json&resultOffset=2&resultRecordCount=1000";
               "layer/query?where=1=1&f=json&resultOffset=2&resultRecordCount=1000"]%string;
            delays := [1000; 2000; 3000] |},
         inl "Failed to fetch data after 3 retries"%string).
Proof.
  apply (fetchEGISData_gives_up "layer" "?where=1=1&f=json"
           [([], example_page ["0100001000"; "0100002000"]%string (Some true))]
           (Rejected "ECONNRESET") NotOk NotOk []).
  - repeat constructor. discriminate.
  - reflexivity.
  - reflexivity.
  - reflexivity.
Defined.

(** X20. A page without features ends the page loop, whatever its
    [exceededTransferLimit] says: [fetchEGISData] returns the features
    collected so far (none when the first page is empty).  An ok response
    whose body is null makes it throw "Failed to fetch data after 3 retries"
    after a single attempt and no delay. *)
Theorem fetchEGISData_empty_page
    (url query : string) (pages : list (list FetchResult * EGISQueryResponse))
    (empty : list FetchResult * EGISQueryResponse) (rest : list FetchResult) :
  Forall (fun page =>
            (length page.1 <= 2)%nat /\ Forall (fun r => failed r = true) page.1 /\
            default [] (features page.2) <> [] /\
            exceededTransferLimit page.2 = Some true) pages ->
  (length empty.1 <= 2)%nat -> Forall (fun r => failed r = true) empty.1 ->
  default [] (features empty.2) = [] ->
  interp_state serve_timed (fetchEGISData url query)
    {| responses := flat_map attempts (pages ++ [empty]) ++ rest;
       urls := []; delays := [] |}
  ≈ Ret ({| responses := rest;
            urls := attemptUrls url query 0 (pages ++ [empty]);
            delays := flat_map (fun page => backoff 0 (length page.1)) (pages ++ [empty]) |},
         inr (concat (List.map (fun page => default [] (features page.2)) pages))) /\
  interp_state serve_timed (fetchEGISData url query)
    {| responses := flat_map attempts pages ++ OkJson None :: rest;
       urls := []; delays := [] |}
  ≈ Ret ({| responses := rest;
            urls := attemptUrls url query 0 pages
                    ++ [pageUrl url query
                          (Z.of_nat (length (concat
                             (List.map (fun page => default [] (features page.2))
                                pages))))];
            delays := flat_map (fun page => backoff 0 (length page.1)) pages |},
         inl "Failed to fetch data after 3 retries"%string).
Proof.
  intros Hpages Hlen Hfails Hempty.
  assert (Forall (fun page =>
            (length page.1 <= 2)%nat /\ Forall (fun r => failed r = true) page.1 /\
            default [] (features page.2) <> [] /\
            default false (exceededTransferLimit page.2) = true) pages) as Hpages'.
  { eapply Forall_impl; [exact Hpages|]. cbn. intros p (? & ? & ? & ->). auto. }
  unfold fetchEGISData. split.
  - rewrite flat_map_app. cbn [flat_map]. rewrite app_nil_r, <- app_assoc.
    rewrite pageLoop_prefix by exact Hpages'.
    unfold attempts at 1. rewrite <- app_assoc. cbn [app].
    rewrite unfold_iter, interp_state_bind, pageRound_retried by assumption.
    rewrite bind_ret_l. cbn [fst snd]. rewrite Hempty, interp_state_ret.
    rewrite !flat_map_app. cbn [flat_map]. rewrite !app_nil_r, attemptUrls_app.
    reflexivity.
  - rewrite pageLoop_prefix by exact Hpages'.
    rewrite unfold_iter, interp_state_bind, pageRound_null_body.
    rewrite bind_ret_l. cbn [fst snd]. rewrite interp_state_ret. reflexivity.
Qed.

Lemma fetchEGISData_empty_page_witness :
  interp_state serve_timed (fetchEGISData "layer" "?where=1=1&f=json")
    {| responses := [OkJson (Some (example_page [] (Some true)))];
       urls := []; delays := [] |}
  ≈ Ret ({| responses := [];
            urls :=
              ["layer/query?where=1=1&f=json&resultOffset=0&resultRecordCount=1000"]%string;
            delays := [] |},
         inr []).
Proof.
  destruct (fetchEGISData_empty_page "layer" "?where=1=1&f=json" []
              ([], example_page [] (Some true)) []) as [H _].
  - constructor.
  - cbn. lia.
  - constructor.
  - reflexivity.
  - exact H.
Defined.

End RetryProperties.

(* ===================================================================== *)
(** * Sequence numbers                                                    *)
(* ===================================================================== *)

Section SequenceProperties.
Import SequenceClient.

(** One call: the number returned is the counter of the year, or 10001
    when there is none, and the counter stored afterwards is the next
    number. *)
Lemma getNextAbatementSequenceNumber_step fiscalYear db :
  let start := default 10001 (getCurrentCounter fiscalYear db) in
  (getNextAbatementSequenceNumber fiscalYear db).1 = start /\
  (start + 1 <> 0 ->
   getCurrentCounter fiscalYear (getNextAbatementSequenceNumber fiscalYear db).2
   = Some (start + 1)).
Proof.
  cbv zeta. unfold getNextAbatementSequenceNumber, getCurrentCounter, counter_or.
  cbv zeta. unfold Collection in *.
  destruct (db !! pretty fiscalYear) as [data|] eqn:E; cbn [fst snd].
  - destruct (counter data) as [c|]; [destruct (Z.eqb_spec c 0)|];
      cbn [default]; (split; [reflexivity|]); intros H;
      rewrite lookup_insert_eq; cbn [counter]; unfold id in *;
      match goal with
      | |- context [?a =? 0] => destruct (Z.eqb_spec a 0); [lia | reflexivity]
      end.
  - cbn [default]. split; [reflexivity|]. intros H.
    rewrite lookup_insert_eq. reflexivity.
Qed.

(** X21. Successive calls of [getNextAbatementSequenceNumber] for a year
    return consecutive numbers, starting at the counter of the year when it
    has one and at 10001 otherwise (the counter must be positive: a counter
    that is 0 is read as missing), and the counter stored afterwards is the
    number the next call will return. *)
Theorem nextSequenceNumbers_consecutive (n : nat) (fiscalYear : Z) (db : Collection) :
  let start := default 10001 (getCurrentCounter fiscalYear db) in
  0 < start ->
  (nextSequenceNumbers n fiscalYear db).1
  = List.map (fun k => start + Z.of_nat k) (seq 0 n) /\
  ((0 < n)%nat ->
   getCurrentCounter fiscalYear (nextSequenceNumbers n fiscalYear db).2
   = Some (start + Z.of_nat n)).
Proof.
  cbv zeta. revert db. induction n as [|n IH]; intros db Hpos.
  - split; [reflexivity | lia].
  - cbn [nextSequenceNumbers].
    destruct (getNextAbatementSequenceNumber_step fiscalYear db) as [Hfirst Hnext].
    cbv zeta in Hfirst, Hnext. specialize (Hnext ltac:(lia)).
    destruct (getNextAbatementSequenceNumber fiscalYear db) as [number db'] eqn:E.
    cbn [fst snd] in Hfirst, Hnext.
    set (start := default 10001 (getCurrentCounter fiscalYear db)) in *.
    specialize (IH db'). rewrite Hnext in IH. cbn [default from_option] in IH.
    unfold id in IH. specialize (IH ltac:(lia)). destruct IH as [IHnumbers IHcounter].
    destruct (nextSequenceNumbers n fiscalYear db') as [numbers db''] eqn:E'.
    cbn [fst snd] in *. split.
    + cbn [seq List.map]. rewrite Hfirst, Z.add_0_r. f_equal.
      rewrite IHnumbers, <- seq_shift, List.map_map. apply List.map_ext.
      intros k. lia.
    + intros _. destruct n as [|n].
      * cbn in E'. injection E' as _ <-. rewrite Hnext. f_equal.
      * rewrite IHcounter by lia. f_equal. lia.
Qed.

Lemma nextSequenceNumbers_consecutive_witness :
  (nextSequenceNumbers 3 2026 ∅).1 = [10001; 10002; 10003] /\
  getCurrentCounter 2026 (nextSequenceNumbers 3 2026 ∅).2 = Some 10004.
Proof.
  destruct (nextSequenceNumbers_consecutive 3 2026 ∅) as [H1 H2]; [reflexivity|].
  split; [exact H1 | apply H2; lia].
Defined.

(** X22. The sequences of different years do not interfere: a call for a
    year leaves the counter of any other year as it is, and the number
    returned for the other year is the same before and after. *)
Theorem getNextAbatementSequenceNumber_other_year
    (fiscalYear otherYear : Z) (db : Collection) :
  fiscalYear <> otherYear ->
  let db' := (getNextAbatementSequenceNumber fiscalYear db).2 in
  getCurrentCounter otherYear db' = getCurrentCounter otherYear db /\
  (getNextAbatementSequenceNumber otherYear db').1
  = (getNextAbatementSequenceNumber otherYear db).1.
Proof.
  intros Hne. cbv zeta.
  assert (pretty fiscalYear <> pretty otherYear) as Hid
    by (intros H; apply Hne; apply (inj pretty); exact H).
  assert ((getNextAbatementSequenceNumber fiscalYear db).2 !! pretty otherYear
          = db !! pretty otherYear) as Hlookup.
  { unfold getNextAbatementSequenceNumber. cbv zeta. unfold Collection in *.
    destruct (db !! pretty fiscalYear); cbn [snd]; apply lookup_insert_ne, Hid. }
  unfold getCurrentCounter. cbv zeta. rewrite Hlookup. split; [reflexivity|].
  unfold getNextAbatementSequenceNumber at 1 3. cbv zeta. rewrite Hlookup.
  destruct (db !! pretty otherYear); reflexivity.
Qed.

Lemma getNextAbatementSequenceNumber_other_year_witness :
  (getNextAbatementSequenceNumber 2027 (getNextAbatementSequenceNumber 2026 ∅).2).1
  = (getNextAbatementSequenceNumber 2027 ∅).1.
Proof.
  apply (getNextAbatementSequenceNumber_other_year 2026 2027 ∅). lia.
Defined.

End SequenceProperties.

(* ===================================================================== *)
(** * Days of the year                                                    *)
(* ===================================================================== *)

Section DayOfYearProperties.
Import JS TimeChanger.

(** The day of the year of a date: one more than its day within the year.
    The years 0..99 are left out: [Date.UTC] reads them as 1900..1999. *)
Lemma getDayOfYear_TimeValue u :
  -271820 <= YearFromTime u <= 275759 -> ~ (0 <= YearFromTime u <= 99) ->
  getDayOfYear (TimeValue u) = Int (DayWithinYear u + 1).
Proof.
  intros Hrange Hcentury.
  pose proof (YearFromTime_Day u) as [Hlo Hhi].
  pose proof (DayFromYear_range (YearFromTime u) ltac:(lia)) as HD.
  pose proof (DayFromYear_range (YearFromTime u + 1) ltac:(lia)) as HD'.
  unfold getDayOfYear. cbv zeta.
  cbn [Date_getUTCFullYear Date_getUTCMonth Date_getUTCDate Date_UTC].
  rewrite (MakeFullYear_id _ Hcentury).
  rewrite first_of_month_time by lia. rewrite monthStart_0, Z.add_0_r.
  pose proof (MakeDay_fields u 0) as Hfields. rewrite !Z.add_0_r in Hfields.
  rewrite Hfields. unfold MakeDate. rewrite Z.add_0_r.
  rewrite TimeClip_day by lia.
  replace (Day u * msPerDay) with (msPerDay * Day u) by ring.
  rewrite TimeClip_day by lia.
  cbn [num_sub Math_floor_div num_add]. f_equal.
  change (1000 * 60 * 60 * 24) with msPerDay. unfold DayWithinYear.
  replace (msPerDay * Day u - msPerDay * DayFromYear (YearFromTime u))
    with ((Day u - DayFromYear (YearFromTime u)) * msPerDay) by ring.
  rewrite Z.div_mul by (unfold msPerDay; lia). reflexivity.
Qed.

(** The date [getDateFromDayOfYear] builds: the midnight of the day. *)
Lemma getDateFromDayOfYear_Int year day :
  -271820 <= year <= 275759 -> 1 <= day <= DaysInYear year ->
  getDateFromDayOfYear (Int year) (Int day)
  = TimeValue (msPerDay * (DayFromYear (MakeFullYear year) + day - 1)).
Proof.
  intros Hrange Hday.
  pose proof (DaysInYear_cases year) as Hdays.
  assert (-271820 <= MakeFullYear year <= 275759) as Hfull.
  { unfold MakeFullYear. destruct (Z.leb_spec 0 year); destruct (Z.leb_spec year 99);
      simpl; lia. }
  pose proof (DayFromYear_range (MakeFullYear year) ltac:(lia)) as HD.
  pose proof (DayFromYear_range (MakeFullYear year + 1) ltac:(lia)) as HD'.
  rewrite DayFromYear_succ in HD'.
  pose proof (DaysInYear_cases (MakeFullYear year)) as Hdays'.
  unfold getDateFromDayOfYear. cbv zeta.
  rewrite new_Date_first by lia. rewrite monthStart_0, Z.add_0_r.
  rewrite TimeClip_day by lia.
  set (t := msPerDay * DayFromYear (MakeFullYear year)).
  replace (num_sub (num_add (Date_getDate (TimeValue t)) (Int day)) (Int 1))
    with (num_add (Date_getDate (TimeValue t)) (Int (day - 1)))
    by (cbn; f_equal; lia).
  rewrite setDate_shift. unfold t. rewrite TimeClip_day_shift.
  - f_equal. f_equal. lia.
  - destruct Hdays, Hdays'; lia.
Qed.

(** X23. Days of the year and dates convert into each other.  For a year
    that is not one of 0..99 (and has representable dates),
    [getDateFromDayOfYear(year, day)] is a date of that year whose day of the
    year is [day], for every [day] from 1 to the number of days of the year;
    the 31st of December has that number as its day of the year; and a date
    of such a year is sent back, by [getDayOfYear] and then
    [getDateFromDayOfYear], to the midnight of its day.  (Host time zone
    without offset.) *)
Theorem dayOfYear_round_trip (year : Z) :
  -271820 <= year <= 275759 -> ~ (0 <= year <= 99) ->
  (forall day,
      1 <= day <= DaysInYear year ->
      exists t,
        getDateFromDayOfYear (Int year) (Int day) = TimeValue t /\
        Date_getFullYear (TimeValue t) = Int year /\
        getDayOfYear (TimeValue t) = Int day) /\
  getDayOfYear (new_Date (Int year) 11 31) = Int (DaysInYear year) /\
  (forall t,
      YearFromTime t = year ->
      exists day,
        getDayOfYear (TimeValue t) = Int day /\ 1 <= day <= DaysInYear year /\
        getDateFromDayOfYear (Date_getFullYear (TimeValue t)) (Int day)
        = TimeValue (msPerDay * Day t)).
Proof.
  intros Hrange Hcentury.
  pose proof (DaysInYear_cases year) as Hdays.
  pose proof (DayFromYear_range year ltac:(lia)) as HD.
  pose proof (DayFromYear_range (year + 1) ltac:(lia)) as HD'.
  rewrite DayFromYear_succ in HD'.
  assert (forall d, 0 <= d < DaysInYear year ->
            YearFromTime (msPerDay * (DayFromYear year + d)) = year /\
            DayWithinYear (msPerDay * (DayFromYear year + d)) = d) as Hday.
  { intros d Hd.
    destruct (year_and_day_of (msPerDay * (DayFromYear year + d)) year d (d + 1))
      as [EY Hw]; [lia | lia | unfold msPerDay; lia |].
    split; [exact EY | lia]. }
  split; [|split].
  - intros day Hd.
    rewrite getDateFromDayOfYear_Int by assumption.
    rewrite (MakeFullYear_id _ Hcentury).
    replace (DayFromYear year + day - 1) with (DayFromYear year + (day - 1)) by lia.
    destruct (Hday (day - 1) ltac:(lia)) as [EY Ew].
    eexists. split; [reflexivity|]. split.
    + cbn [Date_getFullYear]. unfold LocalTime. rewrite EY. reflexivity.
    + rewrite getDayOfYear_TimeValue by (rewrite EY; assumption).
      rewrite Ew. f_equal. lia.
  - rewrite DaysInYear_LeapDays in *.
    pose proof (LeapDays_cases year) as Hl.
    unfold new_Date, UTC. cbv zeta. rewrite (MakeFullYear_id _ Hcentury).
    unfold MakeDay, MakeDate. cbv zeta.
    change (11 / 12) with 0. change (11 mod 12) with 11.
    rewrite !Z.add_0_r. change (monthStart (LeapDays year) 11) with (334 + LeapDays year).
    replace ((DayFromYear year + (334 + LeapDays year) + 31 - 1) * msPerDay)
      with (msPerDay * (DayFromYear year + (364 + LeapDays year))) by ring.
    rewrite TimeClip_day by lia.
    destruct (Hday (364 + LeapDays year) ltac:(lia)) as [EY Ew].
    rewrite getDayOfYear_TimeValue by (rewrite EY; assumption).
    rewrite Ew. f_equal. lia.
  - intros t EY.
    pose proof (DayWithinYear_bounds t) as Hw. rewrite EY in Hw.
    exists (DayWithinYear t + 1).
    split; [apply getDayOfYear_TimeValue; rewrite EY; assumption|].
    split; [lia|].
    cbn [Date_getFullYear]. unfold LocalTime. rewrite EY.
    rewrite getDateFromDayOfYear_Int by (try assumption; lia).
    rewrite (MakeFullYear_id _ Hcentury). f_equal. f_equal.
    unfold DayWithinYear. rewrite EY. lia.
Qed.

Lemma dayOfYear_round_trip_witness :
  getDayOfYear (new_Date (Int 2024) 11 31) = Int 366 /\
  exists t, getDateFromDayOfYear (Int 2026) (Int 60) = TimeValue t /\
            getDayOfYear (TimeValue t) = Int 60.
Proof.
  destruct (dayOfYear_round_trip 2024) as (_ & Hlast & _); [lia | lia |].
  destruct (dayOfYear_round_trip 2026) as (Hday & _ & _); [lia | lia |].
  split; [exact Hlast|].
  destruct (Hday 60) as (t & Ht & _ & Hd); [vm_compute; split; discriminate|].
  exists t. split; assumption.
Defined.

End DayOfYearProperties.

(* ===================================================================== *)
(** * Validation of requests                                              *)
(* ===================================================================== *)

Section ValidationProperties.
Import JS EGISClient Callables.

Lemma isParcelIdChar_safe c :
  isParcelIdChar c = true ->
  Ascii.eqb c "'" = false /\ Ascii.eqb c "034" = false /\ Ascii.eqb c ";" = false /\
  isWhiteSpace c = false.
Proof.
  destruct c as [[] [] [] [] [] [] [] []]; vm_compute; intros H;
    first [discriminate H | repeat split].
Qed.

Lemma testParcelId_not_blank parcelId :
  testParcelId parcelId = true -> String.eqb (trim parcelId) EmptyString = false.
Proof.
  unfold testParcelId. intros H. apply andb_true_iff in H as [Hne Hall].
  destruct (String.eqb_spec (trim parcelId) EmptyString) as [E|]; [|reflexivity].
  apply trim_empty in E. destruct parcelId as [|c r]; [discriminate|].
  cbn [allChars] in *. apply andb_true_iff in Hall as [Hc _].
  apply andb_true_iff in E as [Ew _].
  apply isParcelIdChar_safe in Hc as (_ & _ & _ & Hc). congruence.
Qed.

Lemma includes_parcel_chars parcelId :
  allChars isParcelIdChar parcelId = true ->
  includes parcelId "'" || includes parcelId "034" || includes parcelId ";" = false.
Proof.
  induction parcelId as [|c r IH]; cbn [allChars includes]; [reflexivity|].
  intros H. apply andb_true_iff in H as [Hc Hr].
  apply isParcelIdChar_safe in Hc as (-> & -> & -> & _).
  cbn [orb]. apply IH, Hr.
Qed.

(** X24. A parcel id is accepted by [fetchPropertySummariesByParcelIds]
    exactly when it has from 1 to 20 characters, each a letter, a digit, a
    hyphen, an underscore or a full stop.  A parcel id that passes the test of
    its characters contains no quote and no semicolon, so that the test for
    injection that follows never fails.  A request is accepted exactly when
    it has from 1 to 500 parcel ids, all of them accepted. *)
Theorem validateParcelId_accepts (parcelId : string) :
  (validateParcelId parcelId = None <->
   (1 <= String.length parcelId <= 20)%nat /\ allChars isParcelIdChar parcelId = true) /\
  (testParcelId parcelId = true ->
   includes parcelId "'" || includes parcelId "034" || includes parcelId ";" = false) /\
  (forall parcelIds,
      validateParcelIds parcelIds = None <->
      (1 <= length parcelIds <= 500)%nat /\
      Forall (fun id => validateParcelId id = None) parcelIds).
Proof.
  split; [|split].
  - unfold validateParcelId. split.
    + destruct (String.eqb (trim parcelId) EmptyString); [discriminate|].
      destruct (Z.ltb_spec 20 (Z.of_nat (String.length parcelId))); [discriminate|].
      destruct (testParcelId parcelId) eqn:Et; [|discriminate]. cbn [negb].
      intros _. unfold testParcelId in Et. apply andb_true_iff in Et as [Hne Hall].
      split; [|exact Hall]. destruct parcelId; [discriminate|]. cbn [String.length] in *. lia.
    + intros [Hlen Hall].
      assert (testParcelId parcelId = true) as Ht.
      { unfold testParcelId. rewrite Hall. destruct parcelId; [cbn in Hlen; lia|].
        reflexivity. }
      rewrite (testParcelId_not_blank _ Ht), Ht.
      destruct (Z.ltb_spec 20 (Z.of_nat (String.length parcelId))); [lia|].
      cbn [negb]. rewrite (includes_parcel_chars _ Hall). reflexivity.
  - unfold testParcelId. intros H. apply andb_true_iff in H as [_ H].
    apply includes_parcel_chars, H.
  - intros parcelIds. unfold validateParcelIds.
    assert (validateEach parcelIds = None <->
            Forall (fun id => validateParcelId id = None) parcelIds) as Heach.
    { induction parcelIds as [|id ids IH]; cbn [validateEach].
      - split; [constructor | reflexivity].
      - rewrite Forall_cons. destruct (validateParcelId id).
        + split; [discriminate | intros [H _]; discriminate].
        + rewrite IH. tauto. }
    destruct (Z.eqb_spec (Z.of_nat (length parcelIds)) 0).
    { split; [discriminate | lia]. }
    destruct (Z.ltb_spec 500 (Z.of_nat (length parcelIds))).
    { split; [discriminate | lia]. }
    rewrite Heach. split; [|tauto]. intros Hall. split; [lia | exact Hall].
Qed.

Lemma validateParcelId_accepts_witness :
  validateParcelId "0302951010"%string = None /\
  validateParcelIds ["0302951010"; "0100001000"]%string = None.
Proof.
  destruct (validateParcelId_accepts "0302951010"%string) as (H1 & _ & H3).
  assert (validateParcelId "0302951010"%string = None) as Hid.
  { apply H1. split; [cbn; lia | reflexivity]. }
  split; [exact Hid|]. apply H3. split; [cbn; lia|].
  repeat constructor; reflexivity.
Defined.

(** ** The date of a request *)

Lemma isDigit_value c :
  isDigit c = true ->
  Ascii.eqb c "-" = false /\
  exists d, digitValue 10 c = Some d /\ 0 <= d <= 9.
Proof.
  destruct c as [[] [] [] [] [] [] [] []]; vm_compute; intros H;
    first [discriminate H
          | split; [reflexivity|]; eexists; split; [reflexivity|];
            split; discriminate].
Qed.

(** The parts of a text in the format of a date. *)
Lemma testDateFormat_split text :
  testDateFormat text = true ->
  exists y1 y2 y3 y4 m1 m2 d1 d2,
    text = String y1 (String y2 (String y3 (String y4 (String "-"
             (String m1 (String m2 (String "-" (String d1 (String d2 EmptyString)))))))))
    /\ split "-" text
       = [String y1 (String y2 (String y3 (String y4 EmptyString)));
          String m1 (String m2 EmptyString); String d1 (String d2 EmptyString)]
    /\ isDigit y1 = true /\ isDigit y2 = true /\ isDigit y3 = true /\ isDigit y4 = true
    /\ isDigit m1 = true /\ isDigit m2 = true /\ isDigit d1 = true /\ isDigit d2 = true.
Proof.
  destruct text as [|y1 [|y2 [|y3 [|y4 [|s1 [|m1 [|m2 [|s2 [|d1 [|d2 [|]]]]]]]]]]];
    try discriminate.
  cbn [testDateFormat]. intros H.
  do 9 (apply andb_true_iff in H as [H ?]).
  repeat match goal with
         | E : Ascii.eqb _ "-" = true |- _ => apply Ascii.eqb_eq in E; subst
         end.
  exists y1, y2, y3, y4, m1, m2, d1, d2.
  split; [reflexivity|]. split; [|repeat split; assumption].
  repeat match goal with
         | E : isDigit ?c = true |- _ =>
             let Hne := fresh "Hne" in
             destruct (isDigit_value c E) as (Hne & _); revert E
         end.
  intros. cbn [split].
  repeat match goal with
         | E : Ascii.eqb ?c "-" = false |- _ => rewrite E; clear E
         end.
  reflexivity.
Qed.

Lemma Number_digits s :
  s <> EmptyString -> allChars isDigit s = true ->
  Number s = match readDigits 10 None s with
             | Some n => Int n
             | None => NaN
             end.
Proof.
  intros Hne Hs. unfold Number. rewrite Hs.
  destruct s; [congruence|]. reflexivity.
Qed.

(** [parseInt] and [Number] read a string of decimal digits alike. *)
Lemma parseInt_string_digits c s :
  isDigit c = true -> allChars isDigit s = true ->
  parseInt_string (String c s) = Number (String c s).
Proof.
  intros Hc Hs.
  rewrite Number_digits by (try discriminate; cbn [allChars]; rewrite Hc, Hs; reflexivity).
  assert (parseInt_string (String c s)
          = match readDigits 10 None (String c s) with
            | Some n => Int (1 * n)
            | None => NaN
            end) as ->.
  { destruct c as [[] [] [] [] [] [] [] []]; cbv in Hc; try discriminate Hc; clear Hc;
      unfold parseInt_string;
      match goal with
      | |- context [trimStart ?x] => change (trimStart x) with x
      end;
      cbv beta iota zeta; try reflexivity.
    destruct s as [|c2 s']; [reflexivity|].
    cbn [allChars] in Hs. apply andb_true_iff in Hs as [Hc2 _].
    destruct c2 as [[] [] [] [] [] [] [] []]; cbv in Hc2; try discriminate Hc2;
      reflexivity. }
  destruct (readDigits 10 None (String c s)); [f_equal; lia | reflexivity].
Qed.

(** A year from 0 to 9999, a month and a day from 0 to 99. *)
Lemma testDateFormat_parts text :
  testDateFormat text = true ->
  exists y m d,
    List.map Number (split "-" text) = [Int y; Int m; Int d] /\
    0 <= y <= 9999 /\ 0 <= m <= 99 /\ 0 <= d <= 99.
Proof.
  intros H.
  destruct (testDateFormat_split text H)
    as (y1 & y2 & y3 & y4 & m1 & m2 & d1 & d2 & _ & -> & H1 & H2 & H3 & H4 & H5 & H6
        & H7 & H8).
  cbn [List.map].
  rewrite !Number_digits
    by (try discriminate; cbn [allChars];
        repeat match goal with E : isDigit _ = true |- _ => rewrite E; clear E end;
        reflexivity).
  cbn [readDigits].
  repeat match goal with
         | E : isDigit ?c = true |- _ =>
             let v := fresh "v" in
             let Hv := fresh "Hv" in
             let Hb := fresh "Hb" in
             destruct (isDigit_value c E) as (_ & v & Hv & Hb); rewrite Hv; clear E Hv
         end.
  cbn [default from_option readDigits]. unfold id.
  eexists _, _, _. split; [reflexivity|]. lia.
Qed.

Lemma DayFromYear_before_common_era : DayFromYear (-1) = -719893.
Proof. reflexivity. Qed.

Lemma DayFromYear_10008 : DayFromYear 10008 = 2935819.
Proof. reflexivity. Qed.

(** Whatever its month and its day are, from 0 to 99, a date of the years
    0 to 9999 is representable. *)
Lemma date_parts_valid y m d :
  0 <= y <= 9999 -> 0 <= m <= 99 -> 0 <= d <= 99 ->
  exists t, new_Date (Int y) (m - 1) d = TimeValue t.
Proof.
  intros Hy Hm Hd.
  unfold new_Date, UTC, MakeDay, MakeDate. cbv zeta.
  assert (100 <= MakeFullYear y <= 9999) as Hfull.
  { unfold MakeFullYear. destruct (Z.leb_spec 0 y); destruct (Z.leb_spec y 99);
      simpl; lia. }
  assert (-1 <= (m - 1) / 12 <= 8) as Hcarry by (Z.div_mod_to_equations; lia).
  set (ym := MakeFullYear y + (m - 1) / 12) in *.
  pose proof (DayFromYear_mono (-1) ym ltac:(lia)) as Hlow.
  pose proof (DayFromYear_mono ym 10008 ltac:(lia)) as Hhigh.
  rewrite DayFromYear_before_common_era in Hlow. rewrite DayFromYear_10008 in Hhigh.
  pose proof (monthStart_bounds (LeapDays ym) ((m - 1) mod 12)
                ltac:(pose proof (LeapDays_cases ym); lia)) as Hstart.
  rewrite Z.add_0_r.
  match goal with
  | |- context [TimeClip (?day * msPerDay)] =>
      replace (day * msPerDay) with (msPerDay * day) by ring;
      rewrite (TimeClip_day day) by lia
  end.
  eauto.
Qed.

(** X25. A date of a request of [generatePdf] that has the format
    YYYY-MM-DD is never rejected: whatever its month and its day, from 00 to
    99, [new Date] builds a date, carrying months and days that are out of
    range over to the following ones, and the error "Invalid date provided"
    is never thrown. *)
Theorem generatePdf_date_never_invalid (now : Date) (data : PdfGenerationRequest) :
  generatePdf_validate now data <> inl "Invalid date provided"%string /\
  (forall text,
      date data = Some text -> testDateFormat text = true ->
      forall result, generatePdf_validate now data = inr result ->
                     exists t, result = TimeValue t).
Proof.
  assert (forall text,
             testDateFormat text = true ->
             exists t,
               match List.map Number (split "-" text) with
               | year :: Int month :: Int day :: _ => new_Date year (month - 1) day
               | _ => InvalidDate
               end = TimeValue t) as Hdate.
  { intros text Hformat.
    destruct (testDateFormat_parts text Hformat) as (y & m & d & -> & Hy & Hm & Hd).
    apply date_parts_valid; assumption. }
  unfold generatePdf_validate. split.
  - repeat match goal with
           | |- context [match ?x with _ => _ end] =>
               lazymatch x with
               | context [List.map] => fail
               | _ => destruct x eqn:?; try discriminate
               end
           end.
    all: try match goal with
           | E : negb (testDateFormat ?text) = false |- _ =>
               apply negb_false_iff in E; destruct (Hdate text E) as [t Ht];
               cbv zeta; rewrite Ht; discriminate
           end.
  - intros text Htext Hformat result. rewrite Htext, Hformat.
    destruct (Hdate text Hformat) as [t Ht]. cbv zeta. rewrite Ht.
    assert (String.eqb text EmptyString = false) as ->
      by (destruct text; [discriminate Hformat | reflexivity]).
    repeat match goal with
           | |- context [match ?x with _ => _ end] => destruct x; try discriminate
           | |- context [if ?x then _ else _] => destruct x; try discriminate
           end.
    all: intros [= <-]; eauto.
Qed.

Lemma generatePdf_date_never_invalid_witness :
  generatePdf_validate (TimeValue 0)
    {| parcelId := Some "0302951010"%string; formType := Some "abatement"%string;
       date := Some "2025-02-30"%string |}
  = inr (new_Date (Int 2025) 2 2).
Proof.
  destruct (generatePdf_date_never_invalid (TimeValue 0)
              {| parcelId := Some "0302951010"%string; formType := Some "abatement"%string;
                 date := Some "2025-02-30"%string |}) as [_ H].
  destruct (H "2025-02-30"%string eq_refl eq_refl
              (new_Date (Int 2025) 2 2) eq_refl) as [t Ht].
  reflexivity.
Defined.

(** The fields of a date of the calendar: the day [d] of the month [m] of
    the year [Y], when that month has such a day. *)
Lemma calendar_date_fields Y m d :
  0 <= m <= 11 -> 1 <= d -> MakeDay Y m d < MakeDay Y (m + 1) 1 ->
  YearFromTime (MakeDate (MakeDay Y m d) 0) = Y /\
  MonthFromTime (MakeDate (MakeDay Y m d) 0) = m /\
  DateFromTime (MakeDate (MakeDay Y m d) 0) = d.
Proof.
  intros Hm Hd Hnext.
  pose proof (LeapDays_cases Y) as Hl.
  assert (MakeDay Y m d = DayFromYear Y + monthStart (LeapDays Y) m + d - 1) as E.
  { unfold MakeDay. cbv zeta. rewrite Z.div_small, Z.mod_small, Z.add_0_r by lia.
    reflexivity. }
  assert (MakeDay Y (m + 1) 1
          = DayFromYear Y + (if m =? 11 then 365 + LeapDays Y
                             else monthStart (LeapDays Y) (m + 1))) as E'.
  { unfold MakeDay. cbv zeta. destruct (Z.eqb_spec m 11) as [->|Hne].
    - change ((11 + 1) / 12) with 1. change ((11 + 1) mod 12) with 0.
      rewrite DayFromYear_succ, DaysInYear_LeapDays.
      pose proof (LeapDays_cases (Y + 1)).
      change (monthStart (LeapDays (Y + 1)) 0) with 0. lia.
    - rewrite Z.div_small, Z.mod_small, Z.add_0_r by lia. lia. }
  rewrite E, E' in Hnext. rewrite E. clear E E'.
  set (w := monthStart (LeapDays Y) m + d - 1).
  assert (0 <= monthStart (LeapDays Y) m)
    by (pose proof (monthStart_bounds (LeapDays Y) m ltac:(lia)); lia).
  assert (MakeDate (DayFromYear Y + monthStart (LeapDays Y) m + d - 1) 0
          = msPerDay * (DayFromYear Y + w)) as ->
    by (unfold MakeDate, w; ring).
  assert (w < 365 + LeapDays Y) as Hw.
  { unfold w. destruct (Z.eqb_spec m 11); [lia|].
    pose proof (monthStart_bounds (LeapDays Y) (m + 1) ltac:(lia)). lia. }
  destruct (year_and_day_of (msPerDay * (DayFromYear Y + w)) Y w (w + 1))
    as [EY Ew]; [unfold w; lia | rewrite DaysInYear_LeapDays; lia
                | unfold msPerDay; lia |].
  assert (DayWithinYear (msPerDay * (DayFromYear Y + w)) = w) as Ed by lia.
  assert (InLeapYear (msPerDay * (DayFromYear Y + w)) = LeapDays Y) as El
    by (unfold InLeapYear; rewrite EY; reflexivity).
  split; [exact EY|].
  assert (MonthFromTime (msPerDay * (DayFromYear Y + w)) = m) as Emonth.
  { unfold MonthFromTime. cbv zeta. rewrite Ed, El. unfold w in *.
    unfold monthStart in *.
    repeat match goal with
           | H : context [?a =? ?b] |- _ => destruct (Z.eqb_spec a b); try lia
           | |- context [?a =? ?b] => destruct (Z.eqb_spec a b); try lia
           | |- context [?a <? ?b] => destruct (Z.ltb_spec a b); try lia
           end. }
  split; [exact Emonth|].
  unfold DateFromTime. rewrite Ed, El, Emonth. unfold w. lia.
Qed.

(** X26. The fiscal year of a form.  For a request of [generatePdf] that
    passes the tests of its parcel id and its form type and whose date is the
    text of a date of the calendar, the year [y] from 0100 to 9999, the month
    [m] and the day [d], the date used has these fields and the fiscal year of
    the form is [y + 1] from July on and [y] before. *)
Theorem generatePdf_fiscalYear_of_date
    (now : Date) (data : PdfGenerationRequest) (id type text : string) (y m d : Z) :
  parcelId data = Some id -> testParcelId id = true -> (String.length id <= 20)%nat ->
  formType data = Some type -> In type validFormTypes ->
  date data = Some text -> testDateFormat text = true ->
  List.map Number (split "-" text) = [Int y; Int m; Int d] ->
  100 <= y -> 1 <= m <= 12 -> 1 <= d -> MakeDay y (m - 1) d < MakeDay y m 1 ->
  exists t,
    generatePdf_validate now data = inr (TimeValue t) /\
    Date_getFullYear (TimeValue t) = Int y /\
    Date_getMonth (TimeValue t) = Int (m - 1) /\
    Date_getDate (TimeValue t) = Int d /\
    generatePdf_fiscalYear now data = inr (Int (if 7 <=? m then y + 1 else y)).
Proof.
  intros Hid Htest Hlen Htype Hin Htext Hformat Hparts Hy Hm Hd Hnext.
  replace m with (m - 1 + 1) in Hnext at 2 by lia.
  destruct (calendar_date_fields y (m - 1) d ltac:(lia) Hd Hnext) as (EY & EM & ED).
  assert (new_Date (Int y) (m - 1) d = TimeValue (MakeDate (MakeDay y (m - 1) d) 0))
    as Hnew.
  { destruct (testDateFormat_parts text Hformat) as (y' & m' & d' & Hparts' & Hy' & _).
    rewrite Hparts in Hparts'. injection Hparts' as <- <- <-.
    unfold new_Date, UTC. cbv zeta.
    rewrite (MakeFullYear_id y) by lia.
    apply TimeClip_valid.
    pose proof (DayFromYear_mono (-1) y ltac:(lia)) as Hlow.
    pose proof (DayFromYear_mono y 10008 ltac:(lia)) as Hhigh.
    rewrite DayFromYear_before_common_era in Hlow. rewrite DayFromYear_10008 in Hhigh.
    pose proof (monthStart_bounds (LeapDays y) (m - 1)
                  ltac:(pose proof (LeapDays_cases y); lia)) as Hstart.
    assert (MakeDay y (m - 1) d = DayFromYear y + monthStart (LeapDays y) (m - 1) + d - 1)
      as E.
    { unfold MakeDay. cbv zeta. rewrite Z.div_small, Z.mod_small, Z.add_0_r by lia.
      reflexivity. }
    assert (MakeDay y (m - 1 + 1) 1 <= DayFromYear y + 366) as E'.
    { unfold MakeDay. cbv zeta. destruct (Z.eq_dec m 12) as [->|Hne].
      - change ((12 - 1 + 1) / 12) with 1. change ((12 - 1 + 1) mod 12) with 0.
        rewrite DayFromYear_succ. pose proof (DaysInYear_cases y).
        change (monthStart (LeapDays (y + 1)) 0) with 0. lia.
      - rewrite Z.div_small, Z.mod_small, Z.add_0_r by lia.
        pose proof (monthStart_bounds (LeapDays y) (m - 1 + 1)
                      ltac:(pose proof (LeapDays_cases y); lia)). lia. }
    unfold validTime, MakeDate, msPerDay, maxTimeValue. lia. }
  assert (generatePdf_validate now data
          = inr (TimeValue (MakeDate (MakeDay y (m - 1) d) 0))) as Hvalid.
  { unfold generatePdf_validate.
    rewrite Hid, Htype, Htext, Hformat, Hparts, Htest, (testParcelId_not_blank _ Htest).
    cbv zeta. rewrite Hnew.
    assert (String.eqb id EmptyString = false) as ->
      by (destruct id; [discriminate Htest | reflexivity]).
    assert (String.eqb text EmptyString = false) as ->
      by (destruct text; [discriminate Hformat | reflexivity]).
    destruct (Z.ltb_spec 20 (Z.of_nat (String.length id))); [lia|].
    assert (String.eqb type EmptyString
            || negb (existsb (String.eqb type) validFormTypes) = false) as ->.
    { unfold validFormTypes in *. cbn [In] in Hin.
      destruct Hin as [<-|[<-|[<-|[]]]]; reflexivity. }
    reflexivity. }
  exists (MakeDate (MakeDay y (m - 1) d) 0).
  split; [exact Hvalid|].
  cbn [Date_getFullYear Date_getMonth Date_getDate]. unfold LocalTime.
  rewrite EY, EM, ED. repeat split.
  unfold generatePdf_fiscalYear. rewrite Hvalid.
  unfold getFiscalYearAndQuarter. cbv zeta.
  cbn [Date_getFullYear Date_getMonth num_ltb num_add]. unfold LocalTime.
  rewrite EY, EM.
  destruct (Z.ltb_spec (m - 1) 6); destruct (Z.leb_spec 7 m); try lia; reflexivity.
Qed.

Lemma generatePdf_fiscalYear_of_date_witness :
  generatePdf_fiscalYear (TimeValue 0)
    {| parcelId := Some "0302951010"%string; formType := Some "abatement"%string;
       date := Some "2026-07-15"%string |}
  = inr (Int 2027).
Proof.
  assert (String.length "0302951010" <= 20)%nat as Hlen by (cbn; lia).
  assert (In "abatement"%string validFormTypes) as Hin by (cbn; auto).
  assert (MakeDay 2026 (7 - 1) 15 < MakeDay 2026 7 1) as Hnext by reflexivity.
  destruct (generatePdf_fiscalYear_of_date (TimeValue 0)
              {| parcelId := Some "0302951010"%string; formType := Some "abatement"%string;
                 date := Some "2026-07-15"%string |}
              "0302951010"%string "abatement"%string "2026-07-15"%string 2026 7 15
              eq_refl eq_refl Hlen eq_refl Hin eq_refl eq_refl eq_refl
              ltac:(lia) ltac:(lia) ltac:(lia) Hnext)
    as (t & _ & _ & _ & _ & H).
  exact H.
Defined.

(** X27. [parseYamlDate] answers null exactly for a text that is not in the
    format YYYY-MM-DD: its test of the date it has built never fails.  For a
    text in the format it builds the date that [generatePdf] builds from the
    same text. *)
Theorem parseYamlDate_format (dateStr : string) :
  (parseYamlDate dateStr = None <-> testDateFormat dateStr = false) /\
  (testDateFormat dateStr = true ->
   exists y m d t,
     List.map Number (split "-" dateStr) = [Int y; Int m; Int d] /\
     new_Date (Int y) (m - 1) d = TimeValue t /\
     parseYamlDate dateStr = Some (TimeValue t)).
Proof.
  assert (testDateFormat dateStr = true ->
          exists y m d t,
            List.map Number (split "-" dateStr) = [Int y; Int m; Int d] /\
            new_Date (Int y) (m - 1) d = TimeValue t /\
            parseYamlDate dateStr = Some (TimeValue t)) as Hsome.
  { intros H.
    destruct (testDateFormat_parts dateStr H) as (y & m & d & Hparts & Hy & Hm & Hd).
    destruct (date_parts_valid y m d Hy Hm Hd) as [t Ht].
    exists y, m, d, t. split; [exact Hparts|]. split; [exact Ht|].
    destruct (testDateFormat_split dateStr H)
      as (y1 & y2 & y3 & y4 & m1 & m2 & d1 & d2 & Htext & Hsplit & H1 & H2 & H3 & H4
          & H5 & H6 & H7 & H8).
    rewrite Hsplit in Hparts. cbn [List.map] in Hparts.
    injection Hparts as Ey Em Ed. subst dateStr.
    unfold parseYamlDate. rewrite H. cbv zeta.
    rewrite !parseInt_string_digits
      by (try assumption; cbn [allChars];
          repeat match goal with E : isDigit _ = true |- _ => rewrite E; clear E end;
          reflexivity).
    rewrite Ey, Em, Ed, Ht. reflexivity. }
  split; [|exact Hsome].
  split.
  - intros Hnone. destruct (testDateFormat dateStr) eqn:E; [|reflexivity].
    destruct (Hsome eq_refl) as (y & m & d & t & _ & _ & H). congruence.
  - intros Hfalse.
    destruct dateStr
      as [|y1 [|y2 [|y3 [|y4 [|s1 [|m1 [|m2 [|s2 [|d1 [|d2 [|]]]]]]]]]]];
      try reflexivity.
    unfold parseYamlDate. rewrite Hfalse. reflexivity.
Qed.

Lemma parseYamlDate_format_witness :
  exists t, parseYamlDate "2025-01-01"%string = Some (TimeValue t).
Proof.
  destruct (parseYamlDate_format "2025-01-01"%string) as [_ H].
  destruct (H eq_refl) as (y & m & d & t & _ & _ & Ht).
  exists t. exact Ht.
Defined.

End ValidationProperties.
